(** * MLSecOps risk scoring: a shallow embedding of [mlsecops_security.py]

    The module under study is glue code over pandas, numpy and scikit-learn.
    The embedding keeps the control flow, the thresholds, the exceptions and
    the object mutations of the Python functions, models IEEE binary64
    arithmetic with the Standard Library's [SpecFloat], and takes the
    numeric reductions of the third-party libraries, the trained model, the
    random generator and the file system as interfaces (type classes), each
    with a small executable reference instance used to evaluate concrete
    inputs. *)

From Stdlib Require Import ZArith List Bool Lia Sorted.
From Stdlib Require Import Floats.SpecFloat.
From stdpp Require Import base option gmap strings list pretty.

Local Open Scope string_scope.
Local Open Scope Z_scope.
Local Open Scope list_scope.

(** ** IEEE binary64, as Python's [float] and numpy's [float64] *)

Module F64.

Definition prec : Z := 53.
Definition emax : Z := 1024.

Definition t : Type := spec_float.

Definition zero : t := S754_zero false.
Definition nan : t := S754_nan.

Definition add : t -> t -> t := SFadd prec emax.
Definition sub : t -> t -> t := SFsub prec emax.
Definition mul : t -> t -> t := SFmul prec emax.
Definition div : t -> t -> t := SFdiv prec emax.
Definition sqrt : t -> t := SFsqrt prec emax.

(** [float(z)] for an integer [z]. *)
Definition of_Z (z : Z) : t := binary_normalize prec emax z 0 false.

(** A decimal literal [n/d] with [n] and [d] exactly representable: the
    correctly rounded quotient is the double nearest to the decimal. *)
Definition lit (n d : Z) : t := div (of_Z n) (of_Z d).

(** Python's comparison operators; every comparison with NaN is False. *)
Definition ltb (x y : t) : bool :=
  match SFcompare x y with Some Lt => true | _ => false end.
Definition gtb (x y : t) : bool :=
  match SFcompare x y with Some Gt => true | _ => false end.
Definition geb (x y : t) : bool :=
  match SFcompare x y with Some (Gt | Eq) => true | _ => false end.
Definition eqb (x y : t) : bool :=
  match SFcompare x y with Some Eq => true | _ => false end.
Definition neb (x y : t) : bool := negb (eqb x y).

Definition is_nan (x : t) : bool :=
  match x with S754_nan => true | _ => false end.

Definition is_finite (x : t) : bool :=
  match x with S754_zero _ | S754_finite _ _ _ => true | _ => false end.

End F64.

(** ** Python values, exceptions and results *)

(** JSON-serialisable Python values: what a [Dict] of the module holds.
    A [dict] keeps its insertion order, hence the association list; keys
    are strings everywhere except in [class_balance], whose keys are the
    label values. *)
#[warnings="-register-all"]
Inductive pyval : Type :=
| PNone
| PBool (b : bool)
| PInt (z : Z)
| PFloat (x : F64.t)
| PStr (s : string)
| PList (l : list pyval)
| PDict (d : list (pyval * pyval)).

Definition pydict : Type := list (pyval * pyval).

(** One [key: value] item of a dict literal with a string key. *)
Definition item (key : string) (v : pyval) : pyval * pyval := (PStr key, v).

Definition key_is (key : string) (k : pyval) : bool :=
  match k with
  | PStr s => String.eqb s key
  | _ => false
  end.

(** [d.get(key)] for a string [key]. *)
Fixpoint dict_get (d : pydict) (key : string) : option pyval :=
  match d with
  | [] => None
  | (k, v) :: d' => if key_is key k then Some v else dict_get d' key
  end.

(** Exceptions that leave the module.  [EmptyDatasetError] is the name the
    design document gives; the source defines no such class and no function
    below constructs it. *)
Inductive exn : Type :=
| KeyError (key : pyval)
| ValueError (msg : string)
| TypeError (msg : string)
| OSError (msg : string)
| ModelError (msg : string)
| EmptyDatasetError.

Inductive result (A : Type) : Type :=
| Ok (a : A)
| Raise (e : exn).
Arguments Ok {A} a.
Arguments Raise {A} e.

Definition rbind {A B} (r : result A) (k : A -> result B) : result B :=
  match r with
  | Ok a => k a
  | Raise e => Raise e
  end.

#[global] Instance result_ret : MRet result := fun A a => Ok a.
#[global] Instance result_bind : MBind result := fun A B k r => rbind r k.

(** Stateful code: a state-and-exception monad over a world [W]. *)
Definition SE (W A : Type) : Type := W -> result A * W.

Definition se_ret {W A} (a : A) : SE W A := fun w => (Ok a, w).
Definition se_raise {W A} (e : exn) : SE W A := fun w => (Raise e, w).
Definition se_lift {W A} (r : result A) : SE W A := fun w => (r, w).
Definition se_bind {W A B} (m : SE W A) (k : A -> SE W B) : SE W B :=
  fun w =>
    match m w with
    | (Ok a, w') => k a w'
    | (Raise e, w') => (Raise e, w')
    end.

#[global] Instance se_mret {W} : MRet (SE W) := fun A a => se_ret a.
#[global] Instance se_mbind {W} : MBind (SE W) := fun A B k m => se_bind m k.

(** ** RiskScore *)

Record RiskScore : Type := mkRiskScore {
  name : string;
  level : string;
  details : pydict;
  recommendations : list string;
}.

Definition to_dict (self : RiskScore) : pydict :=
  [ item "name" (PStr (name self));
    item "level" (PStr (level self));
    item "details" (PDict (details self));
    item "recommendations" (PList (map PStr (recommendations self))) ].

(** ** File system and JSON interfaces *)

Definition path : Type := list string.

(** [p / name] *)
Definition path_join (p : path) (child : string) : path := p ++ [child].

(** [pathlib] and [json] are library code: the operations the module calls.
    Either file operation may fail with an OS error. *)
Class FileSystem : Type := {
  FS : Type;
  (** [Path.mkdir(parents=True, exist_ok=True)] *)
  fs_mkdir : path -> FS -> string + FS;
  (** [Path.write_text(content)] *)
  fs_write_text : path -> string -> FS -> string + FS;
  (** [json.dumps(value, indent=2)] *)
  json_dumps : pyval -> string;
}.

Definition mkdir `{FileSystem} (p : path) : SE FS unit :=
  fun w => match fs_mkdir p w with
           | inl msg => (Raise (OSError msg), w)
           | inr w' => (Ok tt, w')
           end.

Definition write_text `{FileSystem} (p : path) (content : string) : SE FS unit :=
  fun w => match fs_write_text p content w with
           | inl msg => (Raise (OSError msg), w)
           | inr w' => (Ok tt, w')
           end.

(** ** assemble_security_report *)

Definition severity_map : gmap string Z :=
  <["high" := 2]> (<["medium" := 1]> (<["low" := 0]> ∅)).

(** [severity_map[key]] for a key read out of a risk entry. *)
Definition severity_lookup (key : pyval) : result Z :=
  match key with
  | PStr s => match severity_map !! s with
              | Some n => Ok n
              | None => Raise (KeyError key)
              end
  | _ => Raise (KeyError key)
  end.

(** [entry[key]] *)
Definition getitem (entry : pydict) (key : string) : result pyval :=
  match dict_get entry key with
  | Some v => Ok v
  | None => Raise (KeyError (PStr key))
  end.

(** The builtin [max(generator, default=d)] over integers: the generator is
    consumed item by item, so the first item whose evaluation raises ends
    the call; a later item replaces the running maximum only when it is
    strictly greater. *)
Fixpoint max_from {A} (f : A -> result Z) (best : Z) (items : list A) : result Z :=
  match items with
  | [] => Ok best
  | x :: rest =>
      v ← f x; max_from f (if best <? v then v else best) rest
  end.

Definition py_max_default {A} (f : A -> result Z) (items : list A) (default : Z)
  : result Z :=
  match items with
  | [] => Ok default
  | x :: rest => v ← f x; max_from f v rest
  end.

(** [{value: key for key, value in severity_map.items()}] *)
Definition reverse_map : gmap Z string :=
  list_to_map (map (fun kv : string * Z => (snd kv, fst kv)) (map_to_list severity_map)).

Definition mitre_atlas_focus : list string :=
  [ "ML Attack Staging"; "ML Model Access"; "ML Attack Execution" ].

Definition report_file_name : string := "mlsecops_security_report.json".

(** The generator body [severity_map[risk["level"]]]. *)
Definition entry_severity (risk : pydict) : result Z :=
  lv ← getitem risk "level"; severity_lookup lv.

Definition assemble_security_report `{FileSystem}
    (manifest : pydict) (risks : list RiskScore) (output_dir : path)
  : SE FS (pydict * path) :=
  mkdir output_dir;;
  let risk_entries := map to_dict risks in
  aggregate_level ← se_lift (py_max_default entry_severity risk_entries 0);
  let aggregate_label := default "low" (reverse_map !! aggregate_level) in
  owasp_mappings ← se_lift (mapM (fun risk => getitem risk "name") risk_entries);
  let report : pydict :=
    [ item "manifest" (PDict manifest);
      item "risks" (PList (map PDict risk_entries));
      item "aggregate_risk_level" (PStr aggregate_label);
      item "owasp_mappings" (PList owasp_mappings);
      item "mitre_atlas_focus" (PList (map PStr mitre_atlas_focus)) ] in
  let report_path := path_join output_dir report_file_name in
  write_text report_path (json_dumps (PDict report));;
  se_ret (report, report_path).

(** ** Data frames *)

(** A cell of a frame: a [float64] number (NaN is the missing value) or a
    string of an [object] column. *)
Inductive cell : Type :=
| CFloat (x : F64.t)
| CStr (s : string).

(** A column is homogeneous, as a pandas Series with a dtype. *)
Inductive column : Type :=
| FloatCol (xs : list F64.t)
| ObjCol (xs : list string).

Definition column_cells (c : column) : list cell :=
  match c with
  | FloatCol xs => map CFloat xs
  | ObjCol xs => map CStr xs
  end.

Definition column_length (c : column) : nat :=
  match c with
  | FloatCol xs => length xs
  | ObjCol xs => length xs
  end.

(** Columns in their order; [nrows] is the length of the index, which a
    frame without columns still has. *)
Record DataFrame : Type := mkDataFrame {
  nrows : nat;
  columns : list (string * column);
}.

Definition wf_frame (df : DataFrame) : bool :=
  forallb (fun nc => Nat.eqb (column_length (snd nc)) (nrows df)) (columns df).

Fixpoint find_column (cs : list (string * column)) (key : string) : option column :=
  match cs with
  | [] => None
  | (k, c) :: cs' => if String.eqb k key then Some c else find_column cs' key
  end.

(** [df[key]] *)
Definition frame_getitem (df : DataFrame) (key : string) : result column :=
  match find_column (columns df) key with
  | Some c => Ok c
  | None => Raise (KeyError (PStr key))
  end.

(** [df[keys]] for a list of labels: the named columns, in the order asked. *)
Definition frame_select (df : DataFrame) (keys : list string) : result DataFrame :=
  cs ← mapM (fun key => c ← frame_getitem df key; mret (key, c)) keys;
  mret (mkDataFrame (nrows df) cs).

(** [df.drop(columns=[key])] *)
Definition frame_drop (df : DataFrame) (key : string) : result DataFrame :=
  match find_column (columns df) key with
  | Some _ =>
      Ok (mkDataFrame (nrows df)
            (List.filter (fun nc => negb (String.eqb (fst nc) key)) (columns df)))
  | None => Raise (KeyError (PStr key))
  end.

Fixpoint replace_column (cs : list (string * column)) (key : string) (c : column)
  : list (string * column) :=
  match cs with
  | [] => [(key, c)]
  | (k, c0) :: cs' =>
      if String.eqb k key then (k, c) :: cs' else (k, c0) :: replace_column cs' key c
  end.

(** The frame after [df[key] = c]: the column is replaced in place, or
    appended when the label is new. *)
Definition frame_setitem (df : DataFrame) (key : string) (c : column) : DataFrame :=
  mkDataFrame (nrows df) (replace_column (columns df) key c).

(** Rows kept by a boolean mask. *)
Fixpoint mask_select {A} (mask : list bool) (xs : list A) : list A :=
  match mask, xs with
  | b :: mask', x :: xs' => if b then x :: mask_select mask' xs' else mask_select mask' xs'
  | _, _ => []
  end.

Definition mask_sum (mask : list bool) : nat := length (List.filter (fun b => b) mask).

Definition column_mask (mask : list bool) (c : column) : column :=
  match c with
  | FloatCol xs => FloatCol (mask_select mask xs)
  | ObjCol xs => ObjCol (mask_select mask xs)
  end.

(** [df[mask]] *)
Definition frame_mask (df : DataFrame) (mask : list bool) : DataFrame :=
  mkDataFrame (mask_sum (firstn (nrows df) mask))
    (map (fun nc => (fst nc, column_mask mask (snd nc))) (columns df)).

(** [df.empty]: some axis has length zero. *)
Definition frame_empty (df : DataFrame) : bool :=
  Nat.eqb (nrows df) 0 || Nat.eqb (length (columns df)) 0.

(** Equality of two cells as the hash table behind [duplicated] and
    [value_counts] sees it: [==], and NaN equal to NaN. *)
Definition cell_same (a b : cell) : bool :=
  match a, b with
  | CFloat x, CFloat y => F64.eqb x y || (F64.is_nan x && F64.is_nan y)
  | CStr s, CStr u => String.eqb s u
  | _, _ => false
  end.

(** Python's [!=] on two label values. *)
Definition cell_neb (a b : cell) : bool :=
  match a, b with
  | CFloat x, CFloat y => F64.neb x y
  | CStr s, CStr u => negb (String.eqb s u)
  | _, _ => true
  end.

Definition frame_row (df : DataFrame) (i : nat) : list (option cell) :=
  map (fun nc => column_cells (snd nc) !! i) (columns df).

Definition frame_rows (df : DataFrame) : list (list (option cell)) :=
  map (frame_row df) (seq 0 (nrows df)).

Definition ocell_same (a b : option cell) : bool :=
  match a, b with
  | Some x, Some y => cell_same x y
  | None, None => true
  | _, _ => false
  end.

Fixpoint row_same (r1 r2 : list (option cell)) : bool :=
  match r1, r2 with
  | [], [] => true
  | a :: r1', b :: r2' => ocell_same a b && row_same r1' r2'
  | _, _ => false
  end.

(** [df.duplicated()]: a row is marked when an earlier row equals it. *)
Fixpoint duplicated_from (seen rows : list (list (option cell))) : list bool :=
  match rows with
  | [] => []
  | r :: rest => existsb (row_same r) seen :: duplicated_from (r :: seen) rest
  end.

Definition frame_duplicated (df : DataFrame) : list bool :=
  duplicated_from [] (frame_rows df).

(** [series.value_counts()]: missing values are dropped, each distinct value
    is counted, and the counts are listed in decreasing order, equal counts
    in first-seen order. *)
Definition cell_missing (c : cell) : bool :=
  match c with
  | CFloat x => F64.is_nan x
  | CStr _ => false
  end.

Fixpoint count_add (counts : list (cell * nat)) (c : cell) : list (cell * nat) :=
  match counts with
  | [] => [(c, 1%nat)]
  | (k, n) :: counts' =>
      if cell_same k c then (k, S n) :: counts' else (k, n) :: count_add counts' c
  end.

Fixpoint insert_desc (kn : cell * nat) (sorted : list (cell * nat)) : list (cell * nat) :=
  match sorted with
  | [] => [kn]
  | kn' :: sorted' =>
      if Nat.ltb (snd kn') (snd kn) then kn :: sorted
      else kn' :: insert_desc kn sorted'
  end.

Definition value_counts (cells : list cell) : list (cell * nat) :=
  let present := List.filter (fun c => negb (cell_missing c)) cells in
  fold_left (fun sorted kn => insert_desc kn sorted) (fold_left count_add present []) [].

(** [series.value_counts(normalize=True)]: each count over their sum. *)
Definition value_counts_normalize (cells : list cell) : list (cell * F64.t) :=
  let counts := value_counts cells in
  let total := foldr Nat.add 0%nat (map snd counts) in
  map (fun kn => (fst kn, F64.div (F64.of_Z (Z.of_nat (snd kn))) (F64.of_Z (Z.of_nat total))))
      counts.

Definition cell_value (c : cell) : pyval :=
  match c with
  | CFloat x => PFloat x
  | CStr s => PStr s
  end.

(** The builtin [max] over floats: [ValueError] on an empty sequence; a
    later item wins only when it compares strictly greater. *)
Definition py_max_floats (xs : list F64.t) : result F64.t :=
  match xs with
  | [] => Raise (ValueError "max() arg is an empty sequence")
  | x :: rest => Ok (fold_left (fun best v => if F64.gtb v best then v else best) rest x)
  end.

(** The builtin [max(a, b)]. *)
Definition py_max2 (a b : F64.t) : F64.t := if F64.gtb b a then b else a.

(** ** Library interfaces *)

(** The floating-point reductions of pandas, numpy and scikit-learn, and
    Python's number formatting.  Their rounding depends on the summation
    order inside the libraries, so the module is modelled for any
    implementation of them. *)
Class Numerics : Type := {
  (** [series.quantile(q)], linear interpolation, missing values skipped *)
  series_quantile : list F64.t -> F64.t -> F64.t;
  (** [series.std(ddof=0)] *)
  series_std : list F64.t -> F64.t;
  (** [array.mean()] and [np.mean(array)] *)
  array_mean : list F64.t -> F64.t;
  (** [array.var()] *)
  array_var : list F64.t -> F64.t;
  (** [sklearn.metrics.accuracy_score(y_true, y_pred)] *)
  accuracy_score : list cell -> list cell -> string + F64.t;
  (** [f"{x:.2f}"] *)
  format_2f : F64.t -> string;
}.

(** The trained model, an opaque capability: label and probability
    predictors over a features-only frame.  Either may raise. *)
Class TrainedModel : Type := {
  predict : DataFrame -> string + list cell;
  predict_proba : DataFrame -> string + list (list F64.t);
}.

Definition model_call {A} (r : string + A) : result A :=
  match r with
  | inl msg => Raise (ModelError msg)
  | inr a => Ok a
  end.

Definition library_call {A} (r : string + A) : result A :=
  match r with
  | inl msg => Raise (ValueError msg)
  | inr a => Ok a
  end.

(** [numpy.random.Generator]: [bitgen] is the state of a generator object.
    A draw returns the sample, indexed by position, and the next state. *)
Class RandomSource : Type := {
  bitgen : Type;
  (** [np.random.default_rng(seed)] *)
  default_rng : Z -> bitgen;
  (** [rng.normal(loc, scale, size=(rows, len(scale)))] *)
  rng_normal : F64.t -> list F64.t -> nat -> bitgen -> (nat -> nat -> F64.t) * bitgen;
  (** [rng.random(size)] *)
  rng_random : nat -> bitgen -> (nat -> F64.t) * bitgen;
}.

(** ** Float literals of the module *)

Definition f_0_75 : F64.t := F64.lit 3 4.
Definition f_0_15 : F64.t := F64.lit 15 100.
Definition f_0_08 : F64.t := F64.lit 8 100.
Definition f_1e_3 : F64.t := F64.lit 1 1000.
Definition f_0_3 : F64.t := F64.lit 3 10.
Definition f_0_2 : F64.t := F64.lit 2 10.
Definition f_0_1 : F64.t := F64.lit 1 10.
Definition f_0_25 : F64.t := F64.lit 1 4.
Definition f_1 : F64.t := F64.of_Z 1.
Definition f_3 : F64.t := F64.of_Z 3.

(** ** scan_for_data_poisoning *)

Definition as_numeric (c : column) : result (list F64.t) :=
  match c with
  | FloatCol xs => Ok xs
  | ObjCol _ => Raise (TypeError "unsupported operand type for a numeric reduction")
  end.

(** [(series < lower) | (series > upper)] *)
Definition outlier_mask (series : list F64.t) (lower upper : F64.t) : list bool :=
  map (fun v => F64.ltb v lower || F64.gtb v upper) series.

(** The number of marked rows of one column. *)
Definition column_outliers `{Numerics} (series : list F64.t) : nat :=
  let q1 := series_quantile series f_0_25 in
  let q3 := series_quantile series f_0_75 in
  let iqr := F64.sub q3 q1 in
  let lower := F64.sub q1 (F64.mul f_3 iqr) in
  let upper := F64.add q3 (F64.mul f_3 iqr) in
  let mask := outlier_mask series lower upper in
  mask_sum mask.

(** The [for column in numeric_columns] loop, [outlier_rows] threaded. *)
Fixpoint outlier_loop `{Numerics} (df : DataFrame) (numeric_columns : list string)
    (outlier_rows : nat) : result nat :=
  match numeric_columns with
  | [] => Ok outlier_rows
  | column :: rest =>
      col ← frame_getitem df column;
      series ← as_numeric col;
      outlier_loop df rest (outlier_rows + column_outliers series)%nat
  end.

Definition poisoning_recommendations : list string :=
  [ "Review upstream data sources and retrace provenance chain.";
    "Validate contributor identities for user-generated data.";
    "Regenerate dataset from trusted sources if tampering is confirmed." ].

(** The severity policy at the end of the scan. *)
Definition issues_level (issues : list string) : string :=
  match issues with
  | [] => "low"
  | _ => if Nat.eqb (length issues) 1 then "medium" else "high"
  end.

Definition scan_for_data_poisoning `{Numerics}
    (df : DataFrame) (label_column : string) (numeric_columns : list string)
  : result RiskScore :=
  let issues : list string := [] in
  let duplicate_rows := mask_sum (frame_duplicated df) in
  let issues :=
    if Nat.eqb duplicate_rows 0 then issues
    else issues ++ [pretty duplicate_rows +:+ " duplicated rows detected."] in
  labels ← frame_getitem df label_column;
  let class_balance := value_counts_normalize (column_cells labels) in
  majority ← py_max_floats (map snd class_balance);
  let issues :=
    if F64.gtb majority f_0_75
    then issues ++ ["Label imbalance detected (majority class frequency="
                    +:+ format_2f majority +:+ ")."]
    else issues in
  outlier_rows ← outlier_loop df numeric_columns 0%nat;
  let issues :=
    if Nat.eqb outlier_rows 0 then issues
    else issues ++ [pretty outlier_rows +:+ " numeric rows outside 3*IQR boundaries."] in
  let level := issues_level issues in
  mret (mkRiskScore "OWASP-ML02-DataPoisoning" level
          [ item "issues" (PList (map PStr issues));
            item "class_balance"
              (PDict (map (fun kf => (cell_value (fst kf), PFloat (snd kf))) class_balance)) ]
          poisoning_recommendations).

(** ** evaluate_membership_inference_risk *)

(** [np.maximum] keeps a NaN operand. *)
Definition np_maximum (a b : F64.t) : F64.t :=
  if F64.geb a b || F64.is_nan a then a else b.

(** [row.max()]: a reduction over an empty axis has no identity. *)
Definition row_max (row : list F64.t) : result F64.t :=
  match row with
  | [] => Raise (ValueError "zero-size array to reduction operation maximum which has no identity")
  | x :: rest => Ok (fold_left np_maximum rest x)
  end.

(** [proba.max(axis=1)] *)
Definition max_axis1 (proba : list (list F64.t)) : result (list F64.t) :=
  mapM row_max proba.

Definition privacy_recommendations : list string :=
  [ "Reduce overfitting (regularisation, more data, early stopping).";
    "Consider confidence clipping or logit rounding on inference APIs.";
    "Add differential privacy noise before exposing model outputs." ].

Definition evaluate_membership_inference_risk `{Numerics} `{TrainedModel}
    (train_df test_df : DataFrame) (label_column : string) : result RiskScore :=
  train_features ← frame_drop train_df label_column;
  test_features ← frame_drop test_df label_column;
  train_proba ← model_call (predict_proba train_features);
  train_conf ← max_axis1 train_proba;
  test_proba ← model_call (predict_proba test_features);
  test_conf ← max_axis1 test_proba;
  let confidence_gap := F64.sub (array_mean train_conf) (array_mean test_conf) in
  let variance_gap := F64.sub (array_var train_conf) (array_var test_conf) in
  let level :=
    if F64.gtb confidence_gap f_0_15 then "high"
    else if F64.gtb confidence_gap f_0_08 then "medium"
    else "low" in
  mret (mkRiskScore "OWASP-ML03-ML04-Privacy" level
          [ item "train_confidence_mean" (PFloat (array_mean train_conf));
            item "test_confidence_mean" (PFloat (array_mean test_conf));
            item "confidence_gap" (PFloat confidence_gap);
            item "variance_gap" (PFloat variance_gap) ]
          privacy_recommendations).

(** ** Objects and references *)

(** Frames and generators are mutable objects: the world maps references to
    their current contents, and an argument of the stress tester is a
    reference, as in Python. *)
Definition loc : Type := positive.

Record world `{RandomSource} : Type := mkWorld {
  frames : gmap loc DataFrame;
  generators : gmap loc bitgen;
}.

Arguments mkWorld {_} _ _.

Definition empty_frame : DataFrame := mkDataFrame 0 [].

Section Objects.
Context `{RandomSource}.

Definition read_frame (l : loc) : SE world DataFrame :=
  fun w => (Ok (default empty_frame (frames w !! l)), w).

Definition write_frame (l : loc) (df : DataFrame) : SE world unit :=
  fun w => (Ok tt, mkWorld (<[l := df]> (frames w)) (generators w)).

(** [df.copy(deep=True)]: a new object with the same contents. *)
Definition frame_copy (l : loc) : SE world loc :=
  fun w =>
    let l' := fresh (dom (frames w)) in
    (Ok l', mkWorld (<[l' := default empty_frame (frames w !! l)]> (frames w))
                    (generators w)).

(** A new generator object holding state [g]. *)
Definition new_generator (g : bitgen) : SE world loc :=
  fun w =>
    let l := fresh (dom (generators w)) in
    (Ok l, mkWorld (frames w) (<[l := g]> (generators w))).

(** A draw advances the generator object it is called on. *)
Definition draw {A} (rng : loc) (sample : bitgen -> A * bitgen) : SE world A :=
  fun w =>
    let g := default (default_rng 0) (generators w !! rng) in
    let '(a, g') := sample g in
    (Ok a, mkWorld (frames w) (<[rng := g']> (generators w))).

End Objects.

(** ** run_adversarial_stress_test *)

(** [series.replace(0, 1)] *)
Definition replace_0_1 (x : F64.t) : F64.t := if F64.eqb x F64.zero then f_1 else x.

(** [np.clip(x, a_min, None)], that is [np.maximum(x, a_min)]. *)
Definition np_clip_min (x a_min : F64.t) : F64.t := np_maximum x a_min.

(** [df.std(ddof=0)]: one value per column, numeric columns only. *)
Definition frame_std `{Numerics} (df : DataFrame) : result (list F64.t) :=
  mapM (fun nc => xs ← as_numeric (snd nc); mret (series_std xs)) (columns df).

(** The per-column noise scale: lines 212 and 215. *)
Definition noise_scale (std epsilon : F64.t) : F64.t :=
  np_clip_min (F64.mul (replace_0_1 std) epsilon) f_1e_3.

(** [series + array], element by element. *)
Fixpoint add_arrays (xs ys : list F64.t) : list F64.t :=
  match xs, ys with
  | x :: xs', y :: ys' => F64.add x y :: add_arrays xs' ys'
  | _, _ => []
  end.

Definition series_add (c : column) (ys : list F64.t) : result column :=
  match c with
  | FloatCol xs => Ok (FloatCol (add_arrays xs ys))
  | ObjCol _ => Raise (TypeError "can only concatenate str (not float) to str")
  end.

(** [series.loc[mask] + suffix] written back under the mask. *)
Fixpoint append_where (mask : list bool) (xs : list string) (suffix : string) : list string :=
  match mask, xs with
  | b :: mask', x :: xs' =>
      (if b then x +:+ suffix else x) :: append_where mask' xs' suffix
  | _, _ => xs
  end.

Definition text_append (mask : list bool) (c : column) (suffix : string) : result column :=
  match c with
  | ObjCol xs => Ok (ObjCol (append_where mask xs suffix))
  | FloatCol _ => Raise (TypeError "unsupported operand type(s) for +: float and str")
  end.

(** [preds != series], element by element; the lengths must agree. *)
Fixpoint compare_ne (preds labels : list cell) : result (list bool) :=
  match preds, labels with
  | [], [] => Ok []
  | p :: preds', l :: labels' =>
      rest ← compare_ne preds' labels'; mret (cell_neb p l :: rest)
  | _, _ => Raise (ValueError "Lengths must match to compare")
  end.

Definition bool_to_float (b : bool) : F64.t := if b then f_1 else F64.zero.

Definition evasion_recommendations : list string :=
  [ "Introduce adversarial training (FGSM/PGD) in CI pipelines.";
    "Limit inference outputs to class labels or rounded confidences.";
    "Add rate limiting and anomaly detection around inference APIs." ].

Section StressTest.
Context `{Numerics} `{TrainedModel} `{RandomSource}.

(** [for idx, column in enumerate(numeric_columns)]: each step reads the
    column of the copy, adds column [idx] of the noise and stores it. *)
Fixpoint perturb_loop (perturbed : loc) (noise : nat -> nat -> F64.t) (rows : nat)
    (idx : nat) (numeric_columns : list string) : SE world unit :=
  match numeric_columns with
  | [] => mret tt
  | column :: rest =>
      df ← read_frame perturbed;
      col ← se_lift (frame_getitem df column);
      summed ← se_lift (series_add col (map (fun i => noise i idx) (seq 0 rows)));
      write_frame perturbed (frame_setitem df column summed);;
      perturb_loop perturbed noise rows (S idx) rest
  end.

Definition run_adversarial_stress_test
    (test_df : loc) (label_column : string) (numeric_columns : list string)
    (text_column : string) (baseline_accuracy epsilon : F64.t)
    (trigger_phrase : string) (rng : option loc) : SE world RiskScore :=
  rng ← match rng with
        | None => new_generator (default_rng 42)
        | Some g => mret g
        end;
  perturbed ← frame_copy test_df;
  original ← read_frame test_df;
  selected ← se_lift (frame_select original numeric_columns);
  stds ← se_lift (frame_std selected);
  let scale := map (fun std => noise_scale std epsilon) stds in
  noise ← draw rng (rng_normal F64.zero scale (nrows original));
  perturb_loop perturbed noise (nrows original) 0 numeric_columns;;
  df ← read_frame perturbed;
  u ← draw rng (rng_random (nrows df));
  let trigger_mask := map (fun i => F64.ltb (u i) f_0_3) (seq 0 (nrows df)) in
  text ← se_lift (frame_getitem df text_column);
  text' ← se_lift (text_append trigger_mask text (" " +:+ trigger_phrase));
  write_frame perturbed (frame_setitem df text_column text');;
  df ← read_frame perturbed;
  features ← se_lift (frame_drop df label_column);
  labels ← se_lift (frame_getitem df label_column);
  adv_predictions ← se_lift (model_call (predict features));
  adv_accuracy ← se_lift (library_call (accuracy_score (column_cells labels) adv_predictions));
  let degradation := py_max2 F64.zero (F64.sub baseline_accuracy adv_accuracy) in
  let triggered_subset := frame_mask df trigger_mask in
  targeted_success ←
    (if negb (frame_empty triggered_subset) then
       triggered_features ← se_lift (frame_drop triggered_subset label_column);
       triggered_preds ← se_lift (model_call (predict triggered_features));
       triggered_labels ← se_lift (frame_getitem triggered_subset label_column);
       missed ← se_lift (compare_ne triggered_preds (column_cells triggered_labels));
       mret (array_mean (map bool_to_float missed))
     else mret F64.zero);
  let level :=
    if F64.geb degradation f_0_2 then "high"
    else if F64.geb degradation f_0_1 then "medium"
    else "low" in
  mret (mkRiskScore "OWASP-ML01-AdversarialEvasion" level
          [ item "baseline_accuracy" (PFloat baseline_accuracy);
            item "adversarial_accuracy" (PFloat adv_accuracy);
            item "accuracy_degradation" (PFloat degradation);
            item "triggered_subset_size" (PInt (Z.of_nat (mask_sum trigger_mask)));
            item "targeted_success_rate" (PFloat targeted_success) ]
          evasion_recommendations).

End StressTest.

(** ** Reference instances

    Executable stand-ins for the libraries, used to run the functions on
    concrete inputs.  The reductions sum from left to right. *)

Module Ref.

Definition sum (xs : list F64.t) : F64.t := fold_left F64.add xs F64.zero.

Definition of_nat (n : nat) : F64.t := F64.of_Z (Z.of_nat n).

Definition mean (xs : list F64.t) : F64.t := F64.div (sum xs) (of_nat (length xs)).

Definition var (xs : list F64.t) : F64.t :=
  let avg := mean xs in
  mean (map (fun x => let d := F64.sub x avg in F64.mul d d) xs).

Definition std (xs : list F64.t) : F64.t :=
  F64.sqrt (var (List.filter (fun x => negb (F64.is_nan x)) xs)).

Fixpoint insert_sorted (x : F64.t) (sorted : list F64.t) : list F64.t :=
  match sorted with
  | [] => [x]
  | y :: sorted' => if F64.ltb y x then y :: insert_sorted x sorted' else x :: sorted
  end.

Definition sort (xs : list F64.t) : list F64.t := foldr insert_sorted [] xs.

(** The integer part of a non-negative finite float. *)
Definition floor (x : F64.t) : Z :=
  match x with
  | S754_finite false m e => Z.shiftl (Zpos m) e
  | _ => 0
  end.

(** Linear interpolation between the two order statistics around the
    virtual index [(n - 1) * q]. *)
Definition lerp (a b t : F64.t) : F64.t :=
  let diff := F64.sub b a in
  if F64.geb t (F64.lit 1 2)
  then F64.sub b (F64.mul diff (F64.sub f_1 t))
  else F64.add a (F64.mul diff t).

Definition quantile (xs : list F64.t) (q : F64.t) : F64.t :=
  let present := sort (List.filter (fun x => negb (F64.is_nan x)) xs) in
  match present with
  | [] => F64.nan
  | x0 :: _ =>
      let n := length present in
      let virtual := F64.mul (of_nat (n - 1)) q in
      let lo := Z.to_nat (floor virtual) in
      let gamma := F64.sub virtual (of_nat lo) in
      let previous := nth lo present x0 in
      let next := nth (Nat.min (S lo) (n - 1)) present x0 in
      lerp previous next gamma
  end.

Fixpoint count_equal (xs ys : list cell) : option nat :=
  match xs, ys with
  | [], [] => Some 0%nat
  | x :: xs', y :: ys' =>
      n ← count_equal xs' ys'; Some (if cell_neb x y then n else S n)
  | _, _ => None
  end.

Definition accuracy (y_true y_pred : list cell) : string + F64.t :=
  match count_equal y_true y_pred with
  | Some n => inr (F64.div (of_nat n) (of_nat (length y_true)))
  | None => inl "Found input variables with inconsistent numbers of samples"
  end.

(** Hundredths of [m * 2^e], rounded half to even. *)
Definition hundredths (m : positive) (e : Z) : Z :=
  if 0 <=? e then Z.shiftl (Zpos m * 100) e
  else
    let den := Z.shiftl 1 (- e) in
    let q := (Zpos m * 100) / den in
    let r := (Zpos m * 100) mod den in
    match (2 * r) ?= den with
    | Lt => q
    | Gt => q + 1
    | Eq => if Z.even q then q else q + 1
    end.

Definition two_digits (n : Z) : string :=
  if n <? 10 then "0" +:+ pretty n else pretty n.

Definition format_2f (x : F64.t) : string :=
  match x with
  | S754_nan => "nan"
  | S754_infinity s => if s then "-inf" else "inf"
  | S754_zero s => if s then "-0.00" else "0.00"
  | S754_finite s m e =>
      let h := hundredths m e in
      (if s then "-" else "") +:+ pretty (h / 100) +:+ "." +:+ two_digits (h mod 100)
  end.

#[export] Instance numerics : Numerics := {
  series_quantile := quantile;
  series_std := std;
  array_mean := mean;
  array_var := var;
  accuracy_score := accuracy;
  format_2f := format_2f;
}.

(** A model that answers the same class for every row, and accepts a
    frame without rows, as scikit-learn's [DummyClassifier] does. *)
Definition constant_model (label : string) (proba : list F64.t) : TrainedModel := {|
  predict := fun df => inr (repeat (CStr label) (nrows df));
  predict_proba := fun df => inr (repeat proba (nrows df));
|}.

(** The same model behind an input check that rejects a frame without
    rows, as scikit-learn's estimators do. *)
Definition checked_model (label : string) (proba : list F64.t) : TrainedModel := {|
  predict := fun df =>
    if Nat.eqb (nrows df) 0 then inl "Found array with 0 sample(s)"
    else inr (repeat (CStr label) (nrows df));
  predict_proba := fun df =>
    if Nat.eqb (nrows df) 0 then inl "Found array with 0 sample(s)"
    else inr (repeat proba (nrows df));
|}.

(** A counter-based generator: not numpy's PCG64 stream, but a generator
    whose draws are a function of its state. *)
Definition mix (x : Z) : Z :=
  (x * 6364136223846793005 + 1442695040888963407) mod 2 ^ 64.

Definition uniform (g : Z) (i : nat) : F64.t :=
  F64.div (F64.of_Z (mix (g + Z.of_nat i) / 2 ^ 11)) (F64.of_Z (2 ^ 53)).

Definition random (size : nat) (g : Z) : (nat -> F64.t) * Z :=
  (uniform g, g + Z.of_nat size).

Definition normal (mu : F64.t) (scale : list F64.t) (rows : nat) (g : Z)
  : (nat -> nat -> F64.t) * Z :=
  (fun i j =>
     let u := uniform g (i * length scale + j) in
     F64.add mu (F64.mul (nth j scale F64.nan) (F64.sub u (F64.lit 1 2))),
   g + Z.of_nat (rows * length scale)).

#[export] Instance random_source : RandomSource := {
  bitgen := Z;
  default_rng := fun seed => seed;
  rng_normal := normal;
  rng_random := random;
}.

(** An in-memory file system: the directories made and the files written.
    A directory cannot be made where a file is, nor a file written where a
    directory is. *)
Record mem_fs : Type := mkMemFs {
  dirs : list path;
  files : list (path * string);
}.

Definition path_eqb (p q : path) : bool := bool_decide (p = q).

Definition mem_mkdir (p : path) (fs : mem_fs) : string + mem_fs :=
  if existsb (fun f => path_eqb (fst f) p) (files fs) then inl "File exists"
  else inr (mkMemFs (p :: dirs fs) (files fs)).

Definition mem_write_text (p : path) (content : string) (fs : mem_fs) : string + mem_fs :=
  if existsb (path_eqb p) (dirs fs) then inl "Is a directory"
  else inr (mkMemFs (dirs fs)
              ((p, content) :: List.filter (fun f => negb (path_eqb (fst f) p)) (files fs))).

Definition quoted (s : string) : string :=
  let q := Ascii.ascii_of_nat 34 in
  String.String q (s +:+ String.String q EmptyString).

(** A compact serialiser: numbers are printed with two decimals. *)
Fixpoint dumps (v : pyval) : string :=
  match v with
  | PNone => "null"
  | PBool b => if b then "true" else "false"
  | PInt z => pretty z
  | PFloat x => format_2f x
  | PStr s => quoted s
  | PList l =>
      "[" +:+ (fix go (l : list pyval) : string :=
                 match l with
                 | [] => ""
                 | [x] => dumps x
                 | x :: rest => dumps x +:+ ", " +:+ go rest
                 end) l +:+ "]"
  | PDict d =>
      "{" +:+ (fix go (d : list (pyval * pyval)) : string :=
                 match d with
                 | [] => ""
                 | [(k, x)] => dumps k +:+ ": " +:+ dumps x
                 | (k, x) :: rest => dumps k +:+ ": " +:+ dumps x +:+ ", " +:+ go rest
                 end) d +:+ "}"
  end.

#[export] Instance file_system : FileSystem := {
  FS := mem_fs;
  fs_mkdir := mem_mkdir;
  fs_write_text := mem_write_text;
  json_dumps := dumps;
}.

End Ref.

(** ** Vocabulary of the statements *)

(** The three severity literals and their ordinal. *)
Inductive Level : Type := Low | Medium | High.

Definition level_name (l : Level) : string :=
  match l with Low => "low" | Medium => "medium" | High => "high" end.

Definition ordinal (l : Level) : Z :=
  match l with Low => 0 | Medium => 1 | High => 2 end.

Definition is_level (s : string) : bool :=
  String.eqb s "low" || String.eqb s "medium" || String.eqb s "high".

(** The ordinal the generator expression yields on well-levelled risks. *)
Definition aggregate_ordinal (lvls : list Level) : Z :=
  match lvls with
  | [] => 0
  | l :: rest => fold_left Z.max (map ordinal rest) (ordinal l)
  end.

(** The level of the first risk whose level is not one of the literals. *)
Fixpoint first_bad_level (risks : list RiskScore) : option string :=
  match risks with
  | [] => None
  | r :: rest => if is_level (level r) then first_bad_level rest else Some (level r)
  end.

(** The severity policy of the poisoning scanner, by number of issues. *)
Definition severity_policy (issues : nat) : string :=
  match issues with
  | O => "low"
  | S O => "medium"
  | _ => "high"
  end.

Definition raised (b : bool) : nat := if b then 1%nat else 0%nat.

(** A numeric column of the frame. *)
Definition numeric_in (df : DataFrame) (key : string) : bool :=
  match find_column (columns df) key with
  | Some (FloatCol _) => true
  | _ => false
  end.

(** The outlier test on one value, and the bounds of a column. *)
Definition is_outlier (v lower upper : F64.t) : bool :=
  F64.ltb v lower || F64.gtb v upper.

Definition iqr_bounds `{Numerics} (series : list F64.t) : F64.t * F64.t :=
  let q1 := series_quantile series f_0_25 in
  let q3 := series_quantile series f_0_75 in
  let iqr := F64.sub q3 q1 in
  (F64.sub q1 (F64.mul f_3 iqr), F64.add q3 (F64.mul f_3 iqr)).

(** The numeric series behind a column label, as the loop reads it. *)
Definition numeric_series (df : DataFrame) (column : string) : result (list F64.t) :=
  col ← frame_getitem df column; as_numeric col.

Definition sum_nat (ns : list nat) : nat := foldr Nat.add 0%nat ns.

(** The top-class confidence of every row of a split: lines 158 to 162. *)
Definition top_confidence `{TrainedModel} (df : DataFrame) (label_column : string)
  : result (list F64.t) :=
  features ← frame_drop df label_column;
  proba ← model_call (predict_proba features);
  max_axis1 proba.

(** The level the assessor gives to a confidence gap. *)
Definition gap_level (confidence_gap : F64.t) : string :=
  if F64.gtb confidence_gap f_0_15 then "high"
  else if F64.gtb confidence_gap f_0_08 then "medium"
  else "low".

(** Sample inputs. *)
Definition empty_split : DataFrame :=
  mkDataFrame 0 [("amount", FloatCol []); ("label", ObjCol [])].

Definition small_split : DataFrame :=
  mkDataFrame 4
    [ ("amount", FloatCol (map F64.of_Z [1; 2; 3; 4]));
      ("note", ObjCol ["a"; "b"; "c"; "d"]);
      ("label", ObjCol ["yes"; "no"; "yes"; "no"]) ].

Definition yes_model : TrainedModel :=
  Ref.constant_model "yes" [F64.lit 3 4; F64.lit 1 4].

Definition checked_yes_model : TrainedModel :=
  Ref.checked_model "yes" [F64.lit 3 4; F64.lit 1 4].

(** ** The stress tester over its two live objects

    Once the copy is made, the stress tester touches two objects only: the
    copy and the generator.  [stress_core] is the same code over a state
    that holds just these two, with the original frame as a value; the
    theorems relate it to [run_adversarial_stress_test]. *)

Record local `{RandomSource} : Type := mkLocal {
  pert : DataFrame;
  gen : bitgen;
}.
Arguments mkLocal {_} _ _.

Section Core.
Context `{Numerics} `{TrainedModel} `{RandomSource}.

Definition get_pert : SE local DataFrame := fun s => (Ok (pert s), s).

Definition put_pert (df : DataFrame) : SE local unit :=
  fun s => (Ok tt, mkLocal df (gen s)).

Definition draw_local {A} (sample : bitgen -> A * bitgen) : SE local A :=
  fun s => let '(a, g') := sample (gen s) in (Ok a, mkLocal (pert s) g').

Fixpoint perturb_core (noise : nat -> nat -> F64.t) (rows : nat)
    (idx : nat) (numeric_columns : list string) : SE local unit :=
  match numeric_columns with
  | [] => mret tt
  | column :: rest =>
      df ← get_pert;
      col ← se_lift (frame_getitem df column);
      summed ← se_lift (series_add col (map (fun i => noise i idx) (seq 0 rows)));
      put_pert (frame_setitem df column summed);;
      perturb_core noise rows (S idx) rest
  end.

Definition stress_core
    (original : DataFrame) (label_column : string) (numeric_columns : list string)
    (text_column : string) (baseline_accuracy epsilon : F64.t)
    (trigger_phrase : string) : SE local RiskScore :=
  original ← se_ret original;
  selected ← se_lift (frame_select original numeric_columns);
  stds ← se_lift (frame_std selected);
  let scale := map (fun std => noise_scale std epsilon) stds in
  noise ← draw_local (rng_normal F64.zero scale (nrows original));
  perturb_core noise (nrows original) 0 numeric_columns;;
  df ← get_pert;
  u ← draw_local (rng_random (nrows df));
  let trigger_mask := map (fun i => F64.ltb (u i) f_0_3) (seq 0 (nrows df)) in
  text ← se_lift (frame_getitem df text_column);
  text' ← se_lift (text_append trigger_mask text (" " +:+ trigger_phrase));
  put_pert (frame_setitem df text_column text');;
  df ← get_pert;
  features ← se_lift (frame_drop df label_column);
  labels ← se_lift (frame_getitem df label_column);
  adv_predictions ← se_lift (model_call (predict features));
  adv_accuracy ← se_lift (library_call (accuracy_score (column_cells labels) adv_predictions));
  let degradation := py_max2 F64.zero (F64.sub baseline_accuracy adv_accuracy) in
  let triggered_subset := frame_mask df trigger_mask in
  targeted_success ←
    (if negb (frame_empty triggered_subset) then
       triggered_features ← se_lift (frame_drop triggered_subset label_column);
       triggered_preds ← se_lift (model_call (predict triggered_features));
       triggered_labels ← se_lift (frame_getitem triggered_subset label_column);
       missed ← se_lift (compare_ne triggered_preds (column_cells triggered_labels));
       mret (array_mean (map bool_to_float missed))
     else mret F64.zero);
  let level :=
    if F64.geb degradation f_0_2 then "high"
    else if F64.geb degradation f_0_1 then "medium"
    else "low" in
  mret (mkRiskScore "OWASP-ML01-AdversarialEvasion" level
          [ item "baseline_accuracy" (PFloat baseline_accuracy);
            item "adversarial_accuracy" (PFloat adv_accuracy);
            item "accuracy_degradation" (PFloat degradation);
            item "triggered_subset_size" (PInt (Z.of_nat (mask_sum trigger_mask)));
            item "targeted_success_rate" (PFloat targeted_success) ]
          evasion_recommendations).

(** The world in which the copy lives at [perturbed] and the generator at
    [rng], over the objects of [base]. *)
Definition embed (base : world) (perturbed rng : loc) (s : local) : world :=
  mkWorld (<[perturbed := pert s]> (frames base)) (<[rng := gen s]> (generators base)).

(** The population standard deviation of each named column of a frame. *)
Definition column_stds (df : DataFrame) (numeric_columns : list string)
  : result (list F64.t) :=
  mapM (fun column => xs ← numeric_series df column; mret (series_std xs)) numeric_columns.

End Core.

(** A generator that keeps a log of the scales it is asked to draw normal
    noise with; every draw is zero. *)
Definition recording_source : RandomSource := {|
  bitgen := list (list F64.t);
  default_rng := fun _ => [];
  rng_normal := fun _ scale _ log => (fun _ _ => F64.zero, scale :: log);
  rng_random := fun _ log => (fun _ => F64.zero, log);
|}.

Definition constant_split : DataFrame :=
  mkDataFrame 4
    [ ("amount", FloatCol (map F64.of_Z [5; 5; 5; 5]));
      ("note", ObjCol ["a"; "b"; "c"; "d"]);
      ("label", ObjCol ["yes"; "no"; "yes"; "no"]) ].

(** A computation on the world follows one on the local state. *)
Definition sim `{RandomSource} (base : world) (perturbed rng : loc) {A}
    (m : SE world A) (m' : SE local A) : Prop :=
  forall s, m (embed base perturbed rng s)
            = (fst (m' s), embed base perturbed rng (snd (m' s))).

(** A computation on the local state that leaves the generator as it is. *)
Definition keeps_gen `{RandomSource} {A} (m : SE local A) : Prop :=
  forall s, gen (snd (m s)) = gen s.

(** A world with one frame and no generator, and one with other objects
    around the same frame and a generator. *)
Definition lone_world `{RandomSource} (df : DataFrame) : world :=
  mkWorld (<[1%positive := df]> ∅) ∅.

Definition busy_world `{RandomSource} (df : DataFrame) (g : bitgen) : world :=
  mkWorld (<[5%positive := df]> (<[1%positive := empty_split]> ∅))
          (<[3%positive := g]> ∅).

Definition seeded_world `{RandomSource} (df : DataFrame) (g : bitgen) : world :=
  mkWorld (<[1%positive := df]> ∅) (<[1%positive := g]> ∅).

(** ** build_data_manifest *)

(** The fingerprint and the per-column summaries of pandas.  A summary of
    a column that is not numeric may raise. *)
Class Provenance : Type := {
  (** [pd.util.hash_pandas_object(df, index=True).values]: one hash per row *)
  hash_pandas_object : DataFrame -> list Z;
  (** [sha256(values).hexdigest()] *)
  sha256_hexdigest : list Z -> string;
  (** [float(series.min())] *)
  summary_min : column -> result F64.t;
  (** [float(series.max())] *)
  summary_max : column -> result F64.t;
  (** [float(series.mean())] *)
  summary_mean : column -> result F64.t;
  (** [float(series.std(ddof=0))] *)
  summary_std : column -> result F64.t;
}.

Definition _hash_dataframe `{Provenance} (df : DataFrame) : string :=
  let hashed_values := hash_pandas_object df in
  let digest := sha256_hexdigest hashed_values in
  digest.

(** [d[key] = v] on a dict: the value is replaced where the key is, or the
    item is added at the end. *)
Fixpoint dict_set (d : pydict) (key : string) (v : pyval) : pydict :=
  match d with
  | [] => [item key v]
  | (k, x) :: d' =>
      if key_is key k then (k, v) :: d' else (k, x) :: dict_set d' key v
  end.

Section Manifest.
Context `{Provenance}.

(** [_numeric_summary]: the loop over [numeric_columns], [stats] threaded. *)
Fixpoint numeric_summary_loop (df : DataFrame) (numeric_columns : list string)
    (stats : pydict) : result pydict :=
  match numeric_columns with
  | [] => Ok stats
  | column :: rest =>
      series ← frame_getitem df column;
      lo ← summary_min series;
      hi ← summary_max series;
      avg ← summary_mean series;
      sd ← summary_std series;
      numeric_summary_loop df rest
        (dict_set stats column
           (PDict [ item "min" (PFloat lo); item "max" (PFloat hi);
                    item "mean" (PFloat avg); item "std" (PFloat sd) ]))
  end.

Definition _numeric_summary (numeric_columns : list string) (df : DataFrame)
  : result pydict :=
  numeric_summary_loop df numeric_columns [].

(** [series.value_counts(normalize=True).head(5).to_dict()] *)
Definition top5_distribution (series : column) : pydict :=
  map (fun kf => (cell_value (fst kf), PFloat (snd kf)))
      (firstn 5 (value_counts_normalize (column_cells series))).

(** [_categorical_summary]: the loop over [categorical_columns]. *)
Fixpoint categorical_summary_loop (df : DataFrame) (categorical_columns : list string)
    (stats : pydict) : result pydict :=
  match categorical_columns with
  | [] => Ok stats
  | column :: rest =>
      series ← frame_getitem df column;
      categorical_summary_loop df rest
        (dict_set stats column (PDict (top5_distribution series)))
  end.

Definition _categorical_summary (categorical_columns : list string) (df : DataFrame)
  : result pydict :=
  categorical_summary_loop df categorical_columns [].

Definition build_data_manifest
    (train_df test_df : DataFrame) (numeric_columns categorical_columns : list string)
  : result pydict :=
  train_numeric ← _numeric_summary numeric_columns train_df;
  train_categorical ← _categorical_summary categorical_columns train_df;
  test_numeric ← _numeric_summary numeric_columns test_df;
  test_categorical ← _categorical_summary categorical_columns test_df;
  mret [ item "train"
           (PDict [ item "rows" (PInt (Z.of_nat (nrows train_df)));
                    item "hash" (PStr (_hash_dataframe train_df));
                    item "numeric_stats" (PDict train_numeric);
                    item "categorical_distribution" (PDict train_categorical) ]);
         item "test"
           (PDict [ item "rows" (PInt (Z.of_nat (nrows test_df)));
                    item "hash" (PStr (_hash_dataframe test_df));
                    item "numeric_stats" (PDict test_numeric);
                    item "categorical_distribution" (PDict test_categorical) ]) ].

End Manifest.

(** [d[k1][k2]...] through nested dicts. *)
Fixpoint dict_path (v : pyval) (keys : list string) : option pyval :=
  match keys with
  | [] => Some v
  | key :: rest =>
      match v with
      | PDict d =>
          match dict_get d key with
          | Some v' => dict_path v' rest
          | None => None
          end
      | _ => None
      end
  end.

(** The four statistics of a numeric column, as the manifest stores them. *)
Definition numeric_entry `{Provenance} (series : column) : result pyval :=
  lo ← summary_min series;
  hi ← summary_max series;
  avg ← summary_mean series;
  sd ← summary_std series;
  mret (PDict [ item "min" (PFloat lo); item "max" (PFloat hi);
                item "mean" (PFloat avg); item "std" (PFloat sd) ]).

(** Reference summaries: missing values are skipped, and a column of
    strings is refused. *)
Module RefManifest.

Definition present (xs : list F64.t) : list F64.t :=
  List.filter (fun x => negb (F64.is_nan x)) xs.

Definition least (xs : list F64.t) : F64.t :=
  match present xs with
  | [] => F64.nan
  | x :: rest => fold_left (fun m v => if F64.ltb v m then v else m) rest x
  end.

Definition greatest (xs : list F64.t) : F64.t :=
  match present xs with
  | [] => F64.nan
  | x :: rest => fold_left (fun m v => if F64.gtb v m then v else m) rest x
  end.

Definition on_numbers (f : list F64.t -> F64.t) (c : column) : result F64.t :=
  match c with
  | FloatCol xs => Ok (f xs)
  | ObjCol _ => Raise (TypeError "could not convert string to float")
  end.

Definition cell_code (c : option cell) : Z :=
  match c with
  | Some (CStr s) => Z.of_nat (String.length s) + 1
  | Some (CFloat (S754_finite _ m e)) => Zpos m + e
  | _ => 0
  end.

(** A toy fingerprint, one number per row and their sum in decimal. *)
Definition row_hashes (df : DataFrame) : list Z :=
  map (fun row => fold_left (fun h c => 31 * h + cell_code c) row 7) (frame_rows df).

#[export] Instance provenance : Provenance := {
  hash_pandas_object := row_hashes;
  sha256_hexdigest := fun hs => pretty (fold_left Z.add hs 0);
  summary_min := on_numbers least;
  summary_max := on_numbers greatest;
  summary_mean := on_numbers (fun xs => Ref.mean (present xs));
  summary_std := on_numbers Ref.std;
}.

End RefManifest.

(** ** Reasoning on the local state *)

(** [wp m Q E s]: run from [s], [m] ends in a state satisfying [Q] with its
    value, or raises in a state satisfying [E]. *)
Definition wp `{RandomSource} {A} (m : SE local A)
    (Q : A -> local -> Prop) (E : local -> Prop) (s : local) : Prop :=
  match m s with
  | (Ok a, s') => Q a s'
  | (Raise _, s') => E s'
  end.

(** What a frame keeps of the original when only the columns [changed] may
    have been assigned: its number of rows, and every other column. *)
Definition copy_keeps (original : DataFrame) (changed : list string)
    (copy : DataFrame) : Prop :=
  nrows copy = nrows original
  /\ forall key, ~ In key changed ->
       find_column (columns copy) key = find_column (columns original) key.

(** The text column of the copy after the trigger phrase is planted under
    [mask]. *)
Definition text_planted (original : DataFrame) (text_column trigger_phrase : string)
    (mask : list bool) (copy : DataFrame) : Prop :=
  exists texts,
    frame_getitem original text_column = Ok (ObjCol texts)
    /\ frame_getitem copy text_column
       = Ok (ObjCol (append_where mask texts (" " +:+ trigger_phrase))).

(** The level the stress tester gives to a degradation. *)
Definition degradation_level (degradation : F64.t) : string :=
  if F64.geb degradation f_0_2 then "high"
  else if F64.geb degradation f_0_1 then "medium"
  else "low".

(** What a returned RiskScore of the stress tester says, [mask] being the
    rows that received the trigger phrase. *)
Definition evasion_report (original : DataFrame) (baseline_accuracy : F64.t)
    (mask : list bool) (risk : RiskScore) : Prop :=
  exists (adv_accuracy targeted_success : F64.t),
    risk = mkRiskScore "OWASP-ML01-AdversarialEvasion"
             (degradation_level (py_max2 F64.zero (F64.sub baseline_accuracy adv_accuracy)))
             [ item "baseline_accuracy" (PFloat baseline_accuracy);
               item "adversarial_accuracy" (PFloat adv_accuracy);
               item "accuracy_degradation"
                 (PFloat (py_max2 F64.zero (F64.sub baseline_accuracy adv_accuracy)));
               item "triggered_subset_size" (PInt (Z.of_nat (mask_sum mask)));
               item "targeted_success_rate" (PFloat targeted_success) ]
             evasion_recommendations
    /\ length mask = nrows original
    /\ (mask_sum mask = 0%nat -> targeted_success = F64.zero).

(** More sample inputs. *)
Definition yes_split : DataFrame :=
  mkDataFrame 3
    [ ("amount", FloatCol (map F64.of_Z [1; 2; 3]));
      ("label", ObjCol ["yes"; "yes"; "yes"]) ].

Definition three_risks : list RiskScore :=
  [ mkRiskScore "a" "low" [] []; mkRiskScore "b" "medium" [] [];
    mkRiskScore "a" "low" [] [] ].


Definition repeated_split : DataFrame :=
  mkDataFrame 3
    [ ("amount", FloatCol (map F64.of_Z [1; 1; 2]));
      ("label", ObjCol ["yes"; "yes"; "no"]) ].

Definition outlier_split : DataFrame :=
  mkDataFrame 8
    [ ("amount", FloatCol (map F64.of_Z [5; 5; 5; 5; 5; 5; 5; 9]));
      ("age", FloatCol (map F64.of_Z [3; 3; 3; 3; 3; 3; 3; 70]));
      ("label", ObjCol ["yes"; "no"; "yes"; "no"; "yes"; "no"; "yes"; "no"]) ].

(** ** Vocabulary for value counts *)

(** The cells [value_counts] looks at, and how often a value occurs among
    them, values being compared as the hash table does. *)
Definition present_cells (cells : list cell) : list cell :=
  List.filter (fun c => negb (cell_missing c)) cells.

Definition occurrences (k : cell) (cells : list cell) : nat :=
  length (List.filter (cell_same k) (present_cells cells)).

(** Keys that are pairwise different. *)
Fixpoint apart (keys : list cell) : Prop :=
  match keys with
  | [] => True
  | k :: rest => Forall (fun k' => cell_same k k' = false) rest /\ apart rest
  end.

(** The counts gathered over the cells seen so far: the keys are pairwise
    different, each key is a cell seen and is counted as often as it was
    seen, and every cell seen has its key. *)
Definition tally (counts : list (cell * nat)) (seen : list cell) : Prop :=
  apart (map fst counts)
  /\ (forall kn, In kn counts ->
        In (fst kn) seen /\ snd kn = length (List.filter (cell_same (fst kn)) seen))
  /\ (forall c, In c seen -> exists kn, In kn counts /\ cell_same (fst kn) c = true).

(** Decreasing counts. *)
Definition by_count (a b : cell * nat) : Prop := (snd b <= snd a)%nat.

(** * Theorems *)

(** Reduction of the binds of the exception monad. *)
Ltac rsimpl := cbn [mbind mret result_bind result_ret rbind].
Ltac rsimpl_in H := cbn [mbind mret result_bind result_ret rbind] in H.

(** ** The report assembler *)

Section Assemble.
Context `{FileSystem}.

Lemma severity_map_lookup (s : string) :
  severity_map !! s
  = if String.eqb s "low" then Some 0
    else if String.eqb s "medium" then Some 1
    else if String.eqb s "high" then Some 2
    else None.
Proof.
  unfold severity_map.
  destruct (String.eqb_spec s "low") as [->|Hl]; [reflexivity|].
  destruct (String.eqb_spec s "medium") as [->|Hm]; [reflexivity|].
  destruct (String.eqb_spec s "high") as [->|Hh]; [reflexivity|].
  rewrite !lookup_insert_ne by congruence. apply lookup_empty.
Qed.

Lemma is_level_name (s : string) :
  is_level s = true <-> exists l, s = level_name l.
Proof.
  unfold is_level. split.
  - intros E. apply orb_prop in E as [E|E]; [apply orb_prop in E as [E|E]|];
      apply String.eqb_eq in E; subst.
    + by exists Low.
    + by exists Medium.
    + by exists High.
  - intros [[] ->]; reflexivity.
Qed.

Lemma entry_severity_level (r : RiskScore) (l : Level) :
  level r = level_name l -> entry_severity (to_dict r) = Ok (ordinal l).
Proof.
  intros E. unfold entry_severity, getitem, to_dict. cbn.
  rewrite E. destruct l; reflexivity.
Qed.

Lemma entry_severity_bad (r : RiskScore) :
  is_level (level r) = false ->
  entry_severity (to_dict r) = Raise (KeyError (PStr (level r))).
Proof.
  intros E. unfold entry_severity, getitem, to_dict. cbn.
  unfold severity_lookup. rewrite severity_map_lookup.
  unfold is_level in E.
  apply orb_false_elim in E as [E E3]. apply orb_false_elim in E as [E1 E2].
  by rewrite E1, E2, E3.
Qed.

Lemma reverse_map_ordinal (l : Level) :
  reverse_map !! ordinal l = Some (level_name l).
Proof. destruct l; vm_compute; reflexivity. Qed.

Lemma max_from_levels (risks : list RiskScore) (lvls : list Level) (best : Z) :
  map level risks = map level_name lvls ->
  max_from entry_severity best (map to_dict risks)
  = Ok (fold_left Z.max (map ordinal lvls) best).
Proof.
  revert lvls best. induction risks as [|r risks IH]; intros [|l lvls] best E;
    try discriminate; [reflexivity|].
  injection E as E1 E2. cbn [map max_from fold_left].
  rewrite (entry_severity_level r l E1). cbn.
  rewrite (IH lvls _ E2). f_equal. f_equal.
  destruct (Z.ltb_spec best (ordinal l)); lia.
Qed.

(** The first offending level ends the scan of the generator. *)
Lemma max_from_bad (risks : list RiskScore) (bad : string) (best : Z) :
  first_bad_level risks = Some bad ->
  max_from entry_severity best (map to_dict risks) = Raise (KeyError (PStr bad)).
Proof.
  revert best. induction risks as [|r risks IH]; intros best E; [discriminate|].
  cbn in E. cbn [map max_from].
  destruct (is_level (level r)) eqn:Hl.
  - apply is_level_name in Hl as [l Hl].
    rewrite (entry_severity_level r l Hl). cbn. by apply IH.
  - injection E as <-. by rewrite (entry_severity_bad r Hl).
Qed.

Lemma names_of_entries (risks : list RiskScore) :
  mapM (fun risk => getitem risk "name") (map to_dict risks)
  = Ok (map (fun r => PStr (name r)) risks).
Proof.
  induction risks as [|r risks IH]; [reflexivity|].
  cbn [map mapM]. rewrite IH. reflexivity.
Qed.

Lemma fold_max_ge (zs : list Z) (b : Z) :
  b <= fold_left Z.max zs b /\ Forall (fun z => z <= fold_left Z.max zs b) zs.
Proof.
  revert b. induction zs as [|z zs IH]; intros b; cbn; [split; [lia|constructor]|].
  destruct (IH (Z.max b z)) as [H1 H2]. split; [lia|].
  constructor; [lia|exact H2].
Qed.

Lemma fold_max_in (zs : list Z) (b : Z) :
  fold_left Z.max zs b = b \/ In (fold_left Z.max zs b) zs.
Proof.
  revert b. induction zs as [|z zs IH]; intros b; cbn; [by left|].
  destruct (IH (Z.max b z)) as [E|E]; [|by right; right].
  rewrite E. destruct (Z.max_spec b z) as [[_ ->]|[_ ->]]; [right; by left|by left].
Qed.

Lemma aggregate_ordinal_max (lvls : list Level) :
  exists top : Level,
    aggregate_ordinal lvls = ordinal top
    /\ Forall (fun l => ordinal l <= ordinal top) lvls
    /\ (lvls = [] -> top = Low)
    /\ (lvls <> [] -> In top lvls).
Proof.
  destruct lvls as [|l rest].
  - exists Low. repeat split; [constructor|congruence].
  - cbn [aggregate_ordinal].
    destruct (fold_max_ge (map ordinal rest) (ordinal l)) as [Hb Hall].
    destruct (fold_max_in (map ordinal rest) (ordinal l)) as [E|E].
    + exists l. rewrite E in *. repeat split; [|discriminate|by left].
      constructor; [lia|]. rewrite Forall_map in Hall. exact Hall.
    + apply in_map_iff in E as [top [E Hin]]. exists top. rewrite <- E in *.
      repeat split; [|discriminate|by right].
      constructor; [lia|]. rewrite Forall_map in Hall. exact Hall.
Qed.

Lemma max_default_levels (risks : list RiskScore) (lvls : list Level) :
  map level risks = map level_name lvls ->
  py_max_default entry_severity (map to_dict risks) 0 = Ok (aggregate_ordinal lvls).
Proof.
  destruct risks as [|r risks], lvls as [|l lvls]; try discriminate; [reflexivity|].
  intros E. injection E as E1 E2. cbn [map py_max_default aggregate_ordinal].
  rewrite (entry_severity_level r l E1). cbn. by apply max_from_levels.
Qed.

Lemma max_default_bad (risks : list RiskScore) (bad : string) :
  first_bad_level risks = Some bad ->
  py_max_default entry_severity (map to_dict risks) 0 = Raise (KeyError (PStr bad)).
Proof.
  destruct risks as [|r risks]; [discriminate|].
  cbn [map py_max_default first_bad_level]. intros E.
  destruct (is_level (level r)) eqn:Hl.
  - apply is_level_name in Hl as [l Hl].
    rewrite (entry_severity_level r l Hl). cbn. by apply max_from_bad.
  - injection E as <-. by rewrite (entry_severity_bad r Hl).
Qed.

Lemma first_bad_level_spec (risks : list RiskScore) :
  match first_bad_level risks with
  | Some bad => is_level bad = false /\ In bad (map level risks)
  | None => forall r, In r risks -> is_level (level r) = true
  end.
Proof.
  induction risks as [|r risks IH]; cbn; [tauto|].
  destruct (is_level (level r)) eqn:Hl.
  - destruct (first_bad_level risks); [tauto|].
    intros r' [<-|Hin]; auto.
  - auto.
Qed.

Lemma levels_of_good (risks : list RiskScore) :
  first_bad_level risks = None ->
  exists lvls, map level risks = map level_name lvls.
Proof.
  induction risks as [|r risks IH]; cbn; [by exists []|].
  destruct (is_level (level r)) eqn:Hl; [|discriminate].
  intros E. destruct (IH E) as [lvls Hl']. apply is_level_name in Hl as [l Hl].
  exists (l :: lvls). cbn. congruence.
Qed.

(** The outcome of a call for well-levelled risks: the report built in
    memory, written after the directory is made. *)
Lemma assemble_levels manifest (risks : list RiskScore) output_dir (lvls : list Level) :
  map level risks = map level_name lvls ->
  exists report : pydict,
    dict_get report "aggregate_risk_level"
    = Some (PStr (default "low" (reverse_map !! aggregate_ordinal lvls)))
    /\ forall fs,
      assemble_security_report manifest risks output_dir fs
      = match fs_mkdir output_dir fs with
        | inl msg => (Raise (OSError msg), fs)
        | inr fs1 =>
            match fs_write_text (path_join output_dir report_file_name)
                    (json_dumps (PDict report)) fs1 with
            | inl msg => (Raise (OSError msg), fs1)
            | inr fs2 => (Ok (report, path_join output_dir report_file_name), fs2)
            end
        end.
Proof.
  intros E. eexists. split; cycle 1.
  - intros fs. unfold assemble_security_report, mbind, se_mbind, se_bind, mkdir, se_lift.
    destruct (fs_mkdir output_dir fs) as [msg|fs1]; [reflexivity|].
    rewrite (max_default_levels risks lvls E), names_of_entries.
    unfold write_text, mret, se_mret, se_ret. cbn.
    instantiate (1 :=
      [ item "manifest" (PDict manifest);
        item "risks" (PList (map PDict (map to_dict risks)));
        item "aggregate_risk_level"
          (PStr (default "low" (reverse_map !! aggregate_ordinal lvls)));
        item "owasp_mappings" (PList (map (fun r => PStr (name r)) risks));
        item "mitre_atlas_focus" (PList (map PStr mitre_atlas_focus)) ]).
    destruct (fs_write_text _ _ fs1) as [msg|fs2]; reflexivity.
  - reflexivity.
Qed.

Lemma assemble_bad manifest (risks : list RiskScore) output_dir (bad : string) :
  first_bad_level risks = Some bad ->
  forall fs,
    assemble_security_report manifest risks output_dir fs
    = match fs_mkdir output_dir fs with
      | inl msg => (Raise (OSError msg), fs)
      | inr fs1 => (Raise (KeyError (PStr bad)), fs1)
      end.
Proof.
  intros E fs.
  unfold assemble_security_report, mbind, se_mbind, se_bind, mkdir, se_lift.
  destruct (fs_mkdir output_dir fs) as [msg|fs1]; [reflexivity|].
  by rewrite (max_default_bad risks bad E).
Qed.

(** C1. For risks whose levels are all among low, medium and high, the
    report's [aggregate_risk_level] is the name of the greatest level under
    the ordinal low=0 < medium=1 < high=2: it bounds every level, it is one
    of them when there are any, and it is low for an empty collection.  It
    is a function of the levels alone ([aggregate_ordinal lvls]): names,
    details and recommendations play no part.  The report is returned, and
    written, whenever the two file operations succeed. *)
Theorem aggregate_risk_level_is_max
    manifest (risks : list RiskScore) output_dir (lvls : list Level) :
  map level risks = map level_name lvls ->
  exists (report : pydict) (top : Level),
    dict_get report "aggregate_risk_level" = Some (PStr (level_name top))
    /\ ordinal top = aggregate_ordinal lvls
    /\ Forall (fun l => ordinal l <= ordinal top) lvls
    /\ (lvls = [] -> top = Low)
    /\ (lvls <> [] -> In top lvls)
    /\ forall fs,
      assemble_security_report manifest risks output_dir fs
      = match fs_mkdir output_dir fs with
        | inl msg => (Raise (OSError msg), fs)
        | inr fs1 =>
            match fs_write_text (path_join output_dir report_file_name)
                    (json_dumps (PDict report)) fs1 with
            | inl msg => (Raise (OSError msg), fs1)
            | inr fs2 => (Ok (report, path_join output_dir report_file_name), fs2)
            end
        end.
Proof.
  intros E.
  destruct (assemble_levels manifest risks output_dir lvls E) as (report & Hagg & Hrun).
  destruct (aggregate_ordinal_max lvls) as (top & Htop & Hall & Hnil & Hin).
  exists report, top. rewrite Hagg, Htop, reverse_map_ordinal. cbn.
  repeat split; auto.
Qed.

(** C10, as the code has it.  The severity lookup is defined on the three
    literals only, and it comes after [mkdir], the first statement.  When
    some risk has another level, a call in which the output directory can be
    made raises [KeyError] on the first such level, in the file system
    [mkdir] left: the lookup comes before the report is built, so nothing is
    written and nothing is returned.  A call in which the directory cannot
    be made raises the OS error of [mkdir] instead, and no [KeyError].  When
    every level is one of the literals, no call ends in a [KeyError]. *)
Theorem unknown_level_raises_key_error manifest (risks : list RiskScore) output_dir :
  ((exists r, In r risks /\ is_level (level r) = false) ->
   exists bad,
     first_bad_level risks = Some bad
     /\ is_level bad = false /\ In bad (map level risks)
     /\ forall fs,
       assemble_security_report manifest risks output_dir fs
       = match fs_mkdir output_dir fs with
         | inl msg => (Raise (OSError msg), fs)
         | inr fs1 => (Raise (KeyError (PStr bad)), fs1)
         end)
  /\ ((forall r, In r risks -> is_level (level r) = true) ->
      forall fs key,
        fst (assemble_security_report manifest risks output_dir fs)
        <> Raise (KeyError key)).
Proof.
  pose proof (first_bad_level_spec risks) as Hspec. split.
  - intros (r & Hin & Hbad).
    destruct (first_bad_level risks) as [bad|] eqn:E.
    + destruct Hspec as [Hb Hi]. exists bad. repeat split; auto.
      by apply assemble_bad.
    + rewrite (Hspec r Hin) in Hbad. discriminate.
  - intros Hall fs key.
    destruct (first_bad_level risks) as [bad|] eqn:E.
    + destruct Hspec as [Hb Hi]. apply in_map_iff in Hi as (r & <- & Hin).
      rewrite (Hall r Hin) in Hb. discriminate.
    + destruct (levels_of_good risks E) as [lvls Hl].
      destruct (assemble_levels manifest risks output_dir lvls Hl) as (report & _ & Hrun).
      rewrite Hrun. destruct (fs_mkdir output_dir fs); [discriminate|].
      destruct (fs_write_text _ _ _); discriminate.
Qed.

End Assemble.

(** Three risks at low, medium and low, in an empty file system. *)
Lemma aggregate_risk_level_is_max_witness :
  exists report : pydict,
    fst (assemble_security_report (H := Ref.file_system) []
           [ mkRiskScore "a" "low" [item "note" (PStr "high")] [];
             mkRiskScore "b" "medium" [] [];
             mkRiskScore "c" "low" [] [] ]
           ["out"] (Ref.mkMemFs [] []))
    = Ok (report, ["out"; "mlsecops_security_report.json"])
    /\ dict_get report "aggregate_risk_level" = Some (PStr "medium").
Proof.
  destruct (aggregate_risk_level_is_max (H := Ref.file_system) []
              [ mkRiskScore "a" "low" [item "note" (PStr "high")] [];
                mkRiskScore "b" "medium" [] [];
                mkRiskScore "c" "low" [] [] ]
              ["out"] [Low; Medium; Low] eq_refl)
    as (report & top & Hagg & Hord & _ & _ & _ & Hrun).
  exists report. rewrite Hrun. split; [reflexivity|].
  rewrite Hagg. destruct top; try discriminate Hord. reflexivity.
Defined.

(** A risk at level "critical" between two valid ones; and three valid ones. *)
Lemma unknown_level_raises_key_error_witness :
  assemble_security_report (H := Ref.file_system) []
    [ mkRiskScore "a" "low" [] []; mkRiskScore "b" "critical" [] [];
      mkRiskScore "c" "urgent" [] [] ]
    ["out"] (Ref.mkMemFs [] [])
  = (Raise (KeyError (PStr "critical")), Ref.mkMemFs [["out"]] [])
  /\ forall key,
      fst (assemble_security_report (H := Ref.file_system) []
             [ mkRiskScore "a" "low" [] []; mkRiskScore "b" "high" [] [] ]
             ["out"] (Ref.mkMemFs [] []))
      <> Raise (KeyError key).
Proof.
  split.
  - destruct (proj1 (unknown_level_raises_key_error (H := Ref.file_system) []
                       [ mkRiskScore "a" "low" [] []; mkRiskScore "b" "critical" [] [];
                         mkRiskScore "c" "urgent" [] [] ] ["out"]))
      as (bad & Hfirst & Hbad & Hin & Hrun).
    + exists (mkRiskScore "b" "critical" [] []). split; [right; left|]; reflexivity.
    + rewrite Hrun. injection Hfirst as <-. reflexivity.
  - intros key.
    apply (proj2 (unknown_level_raises_key_error (H := Ref.file_system) []
                    [ mkRiskScore "a" "low" [] []; mkRiskScore "b" "high" [] [] ] ["out"])).
    intros r [<-|[<-|[]]]; reflexivity.
Defined.

(** The output directory named where a file already is, and a risk at
    level "critical": [mkdir] fails first, and the call raises its OS error,
    not [KeyError]. *)
Lemma unknown_level_raises_key_error_counterexample :
  is_level "critical" = false
  /\ assemble_security_report (H := Ref.file_system) []
       [mkRiskScore "b" "critical" [] []] ["out"] (Ref.mkMemFs [] [(["out"], "text")])
     = (Raise (OSError "File exists"), Ref.mkMemFs [] [(["out"], "text")])
  /\ forall key,
       fst (assemble_security_report (H := Ref.file_system) []
              [mkRiskScore "b" "critical" [] []] ["out"]
              (Ref.mkMemFs [] [(["out"], "text")]))
       <> Raise (KeyError key).
Proof. split; [reflexivity|]. split; [reflexivity|]. intros key. discriminate. Qed.

(** ** Floating-point facts *)

Section FloatFacts.

Lemma sub_diag_finite (x : F64.t) :
  F64.is_finite x = true -> F64.sub x x = F64.zero.
Proof.
  destruct x as [s|s| |s m e]; try discriminate; intros _.
  - destruct s; reflexivity.
  - unfold F64.sub, SFsub. cbv zeta. rewrite Z.sub_diag. reflexivity.
Qed.

(** [x - x] is zero or NaN, whatever [x]. *)
Lemma sub_diag_cases (x : F64.t) :
  F64.sub x x = F64.zero \/ F64.sub x x = F64.nan.
Proof.
  destruct (F64.is_finite x) eqn:E; [left; by apply sub_diag_finite|].
  right. destruct x as [s|s| |s m e]; try discriminate; [destruct s|]; reflexivity.
Qed.

Lemma compare_sub_zero (v q : F64.t) :
  F64.is_finite q = true ->
  SFcompare v (F64.sub q F64.zero) = SFcompare v q.
Proof.
  destruct q as [s|s| |s m e]; try discriminate; intros _.
  - destruct s, v as [s'|s'| |s' m' e']; reflexivity.
  - reflexivity.
Qed.

Lemma compare_add_zero (v q : F64.t) :
  F64.is_finite q = true ->
  SFcompare v (F64.add q F64.zero) = SFcompare v q.
Proof.
  destruct q as [s|s| |s m e]; try discriminate; intros _.
  - destruct s, v as [s'|s'| |s' m' e']; reflexivity.
  - reflexivity.
Qed.

Lemma three_times_zero : F64.mul f_3 F64.zero = F64.zero.
Proof. reflexivity. Qed.

Lemma compare_finite_some (v q : F64.t) :
  F64.is_nan v = false -> F64.is_finite q = true ->
  exists c, SFcompare v q = Some c.
Proof.
  destruct q as [s|s| |s m e]; try discriminate;
    destruct v as [s'|s'| |s' m' e']; try discriminate; intros _ _; eexists; reflexivity.
Qed.

End FloatFacts.

(** ** The poisoning scanner *)

Section Scanner.
Context `{Numerics}.

Lemma mask_sum_filter {A} (f : A -> bool) (xs : list A) :
  mask_sum (map f xs) = length (List.filter f xs).
Proof.
  unfold mask_sum. induction xs as [|x xs IH]; [reflexivity|].
  cbn. destruct (f x); cbn; by rewrite IH.
Qed.

Lemma column_outliers_bounds (series : list F64.t) :
  column_outliers series
  = length (List.filter
              (fun v => is_outlier v (fst (iqr_bounds series)) (snd (iqr_bounds series)))
              series).
Proof. unfold column_outliers, outlier_mask. cbv zeta. by rewrite mask_sum_filter. Qed.

Lemma outlier_loop_cons (df : DataFrame) (c : string) (cols : list string) (acc : nat) :
  outlier_loop df (c :: cols) acc
  = (series ← numeric_series df c;
     outlier_loop df cols (acc + column_outliers series)%nat).
Proof.
  unfold numeric_series. cbn [outlier_loop].
  destruct (frame_getitem df c) as [col|e]; reflexivity.
Qed.

Lemma mapM_cons {A B} (f : A -> result B) (x : A) (xs : list A) :
  mapM f (x :: xs) = (y ← f x; k ← mapM f xs; mret (y :: k)).
Proof. reflexivity. Qed.

Lemma outlier_loop_sum (df : DataFrame) (cols : list string) (acc : nat) :
  outlier_loop df cols acc
  = (sers ← mapM (numeric_series df) cols;
     mret (acc + sum_nat (map column_outliers sers))%nat).
Proof.
  revert acc. induction cols as [|c cols IH]; intros acc.
  - cbn. by rewrite Nat.add_0_r.
  - rewrite outlier_loop_cons, mapM_cons.
    destruct (numeric_series df c) as [series|e]; [|reflexivity].
    change (outlier_loop df cols (acc + column_outliers series)%nat
            = (sers ← (k ← mapM (numeric_series df) cols; mret (series :: k));
               mret (acc + sum_nat (map column_outliers sers))%nat)).
    rewrite IH. destruct (mapM (numeric_series df) cols) as [sers|e]; [|reflexivity].
    cbn. by rewrite Nat.add_assoc.
Qed.

(** With both quartiles at the same finite value, the bounds compare as
    that value. *)
Lemma collapsed_bounds (series : list F64.t) (q v : F64.t) :
  series_quantile series f_0_25 = q ->
  series_quantile series f_0_75 = q ->
  F64.is_finite q = true ->
  SFcompare v (fst (iqr_bounds series)) = SFcompare v q
  /\ SFcompare v (snd (iqr_bounds series)) = SFcompare v q.
Proof.
  intros E1 E3 Hq. unfold iqr_bounds. cbv zeta. rewrite E1, E3. cbn [fst snd].
  rewrite (sub_diag_finite q Hq), three_times_zero.
  split; [by apply compare_sub_zero|by apply compare_add_zero].
Qed.

(** C8. In a report of the scanner, the outlier issue carries the number
    of rows counted over the declared numeric columns, and is absent when
    that number is zero.  A column contributes its rows whose value is
    strictly below Q1 - 3*IQR or strictly above Q3 + 3*IQR of that column;
    the contributions are added column by column, so a row outside the
    bounds of two columns counts twice; and when the two quartiles of a
    column coincide at a finite value (IQR = 0), the column contributes
    every row whose value is present and differs from that value (a missing
    value, NaN, is never counted). *)
Theorem outliers_counted_per_column
    (df : DataFrame) (label_column : string) (numeric_columns : list string)
    (risk : RiskScore) :
  scan_for_data_poisoning df label_column numeric_columns = Ok risk ->
  let outside := fun (series : list F64.t) (v : F64.t) =>
    let q1 := series_quantile series f_0_25 in
    let q3 := series_quantile series f_0_75 in
    let iqr := F64.sub q3 q1 in
    F64.ltb v (F64.sub q1 (F64.mul f_3 iqr)) || F64.gtb v (F64.add q3 (F64.mul f_3 iqr)) in
  exists (labels : column) (majority : F64.t) (sers : list (list F64.t)),
    frame_getitem df label_column = Ok labels
    /\ py_max_floats (map snd (value_counts_normalize (column_cells labels))) = Ok majority
    /\ mapM (numeric_series df) numeric_columns = Ok sers
    /\ length sers = length numeric_columns
    /\ (let outlier_rows :=
          sum_nat (map (fun series => length (List.filter (outside series) series)) sers) in
        dict_get (details risk) "issues"
        = Some (PList (map PStr
            ((if Nat.eqb (mask_sum (frame_duplicated df)) 0 then []
              else [pretty (mask_sum (frame_duplicated df)) +:+ " duplicated rows detected."])
             ++ (if F64.gtb majority f_0_75
                 then ["Label imbalance detected (majority class frequency="
                       +:+ format_2f majority +:+ ")."]
                 else [])
             ++ (if Nat.eqb outlier_rows 0 then []
                 else [pretty outlier_rows +:+ " numeric rows outside 3*IQR boundaries."])))))
    /\ (forall series q,
          In series sers ->
          series_quantile series f_0_25 = q ->
          series_quantile series f_0_75 = q ->
          F64.is_finite q = true ->
          (forall v, outside series v = F64.neb v q && negb (F64.is_nan v))
          /\ length (List.filter (outside series) series)
             = length (List.filter (fun v => F64.neb v q && negb (F64.is_nan v)) series)).
Proof.
  intros Hrun outside. revert Hrun.
  unfold scan_for_data_poisoning. cbv zeta.
  destruct (frame_getitem df label_column) as [labels|e]; rsimpl; [|discriminate].
  destruct (py_max_floats _) as [majority|e] eqn:Hmaj; rsimpl; [|discriminate].
  rewrite outlier_loop_sum.
  destruct (mapM (numeric_series df) numeric_columns) as [sers|e] eqn:Hsers; rsimpl;
    [|discriminate].
  intros [= <-]. exists labels, majority, sers.
  split; [reflexivity|]. split; [exact Hmaj|]. split; [reflexivity|].
  split.
  { clear -Hsers. revert sers Hsers.
    induction numeric_columns as [|c cols IH]; intros sers.
    - intros [= <-]. reflexivity.
    - rewrite mapM_cons. destruct (numeric_series df c) as [series|e]; rsimpl; [|discriminate].
      destruct (mapM (numeric_series df) cols) as [rest|e]; rsimpl; [|discriminate].
      intros [= <-]. cbn. f_equal. by apply IH. }
  split.
  - cbn [details dict_get item key_is String.eqb Ascii.eqb Bool.eqb].
    cbn. do 3 f_equal.
    assert (sum_nat (map column_outliers sers)
            = sum_nat (map (fun series => length (List.filter (outside series) series)) sers))
      as ->.
    { f_equal. apply map_ext. intros series. rewrite column_outliers_bounds. reflexivity. }
    destruct (Nat.eqb (mask_sum (frame_duplicated df)) 0), (F64.gtb majority f_0_75),
      (Nat.eqb _ 0); reflexivity.
  - intros series q _ E1 E3 Hq.
    assert (forall v, outside series v = F64.neb v q && negb (F64.is_nan v)) as Hout.
    { intros v. destruct (collapsed_bounds series q v E1 E3 Hq) as [Hlo Hhi].
      unfold outside, iqr_bounds in *. cbv zeta in *. cbn [fst snd] in *.
      unfold F64.ltb, F64.gtb, F64.neb, F64.eqb. rewrite Hlo, Hhi.
      destruct (F64.is_nan v) eqn:Hv.
      - destruct v; try discriminate Hv. reflexivity.
      - destruct (compare_finite_some v q Hv Hq) as [c ->]. by destruct c. }
    split; [exact Hout|]. f_equal. apply List.filter_ext. intros v. apply Hout.
Qed.

Lemma count_add_nonempty (counts : list (cell * nat)) (c : cell) :
  count_add counts c <> [].
Proof. destruct counts as [|[k n] counts]; cbn; [|destruct (cell_same k c)]; discriminate. Qed.

Lemma fold_count_add_nonempty (cells : list cell) (counts : list (cell * nat)) :
  counts <> [] \/ cells <> [] -> fold_left count_add cells counts <> [].
Proof.
  revert counts. induction cells as [|c cells IH]; intros counts [E|E]; cbn; try done.
  - apply IH. left. apply count_add_nonempty.
  - apply IH. left. apply count_add_nonempty.
Qed.

Lemma insert_desc_nonempty (kn : cell * nat) (sorted : list (cell * nat)) :
  insert_desc kn sorted <> [].
Proof.
  destruct sorted as [|kn' sorted]; simpl; [|case_match]; discriminate.
Qed.

Lemma fold_insert_desc_nonempty (counts sorted : list (cell * nat)) :
  sorted <> [] \/ counts <> [] ->
  fold_left (fun sorted kn => insert_desc kn sorted) counts sorted <> [].
Proof.
  revert sorted. induction counts as [|kn counts IH]; intros sorted [E|E]; cbn; try done.
  - apply IH. left. apply insert_desc_nonempty.
  - apply IH. left. apply insert_desc_nonempty.
Qed.

Lemma filter_nonempty {A} (f : A -> bool) (xs : list A) :
  existsb f xs = true -> List.filter f xs <> [].
Proof.
  induction xs as [|x xs IH]; cbn; [discriminate|].
  destruct (f x); [discriminate|]. exact IH.
Qed.

(** A label column with a present value has a majority class. *)
Lemma majority_exists (cells : list cell) :
  existsb (fun c => negb (cell_missing c)) cells = true ->
  exists majority, py_max_floats (map snd (value_counts_normalize cells)) = Ok majority.
Proof.
  intros E. unfold value_counts_normalize. cbv zeta.
  assert (value_counts cells <> []) as Hne.
  { unfold value_counts. cbv zeta. apply fold_insert_desc_nonempty. right.
    apply fold_count_add_nonempty. right. by apply filter_nonempty. }
  destruct (value_counts cells) as [|kn counts]; [done|]. cbn. eauto.
Qed.

Lemma numeric_series_ok (df : DataFrame) (c : string) :
  numeric_in df c = true -> exists series, numeric_series df c = Ok series.
Proof.
  unfold numeric_in, numeric_series, frame_getitem.
  destruct (find_column (columns df) c) as [[xs|xs]|]; try discriminate.
  intros _. by exists xs.
Qed.

Lemma outlier_loop_ok (df : DataFrame) (cols : list string) (acc : nat) :
  forallb (numeric_in df) cols = true ->
  exists outlier_rows, outlier_loop df cols acc = Ok outlier_rows.
Proof.
  revert acc. induction cols as [|c cols IH]; intros acc E; cbn in E; [by eexists|].
  apply andb_prop in E as [Ec E]. rewrite outlier_loop_cons.
  destruct (numeric_series_ok df c Ec) as [series ->]. apply IH, E.
Qed.

Lemma issues_level_policy (issues : list string) :
  issues_level issues = severity_policy (length issues).
Proof. destruct issues as [|a [|b issues]]; reflexivity. Qed.

(** C2, as the code has it.  On a split whose label column holds at least
    one present value and whose numeric columns are numeric columns of the
    frame, the scanner returns a RiskScore; its issues are exactly the
    heuristics that fire (some duplicated row, a majority frequency above
    0.75, some value outside the 3*IQR bounds), and its level is low for no
    issue, medium for one, high for two or three. *)
Theorem scan_level_by_issue_count
    (df : DataFrame) (label_column : string) (numeric_columns : list string)
    (labels : column) :
  frame_getitem df label_column = Ok labels ->
  existsb (fun c => negb (cell_missing c)) (column_cells labels) = true ->
  forallb (numeric_in df) numeric_columns = true ->
  exists (risk : RiskScore) (majority : F64.t) (outlier_rows : nat) (issues : list string),
    scan_for_data_poisoning df label_column numeric_columns = Ok risk
    /\ py_max_floats (map snd (value_counts_normalize (column_cells labels))) = Ok majority
    /\ outlier_loop df numeric_columns 0 = Ok outlier_rows
    /\ dict_get (details risk) "issues" = Some (PList (map PStr issues))
    /\ length issues
       = (raised (negb (Nat.eqb (mask_sum (frame_duplicated df)) 0))
          + raised (F64.gtb majority f_0_75)
          + raised (negb (Nat.eqb outlier_rows 0)))%nat
    /\ level risk = severity_policy (length issues).
Proof.
  intros Hlabels Hpresent Hnumeric.
  destruct (majority_exists _ Hpresent) as [majority Hmaj].
  destruct (outlier_loop_ok df numeric_columns 0 Hnumeric) as [outlier_rows Hout].
  unfold scan_for_data_poisoning. cbv zeta.
  rewrite Hlabels. cbn [mbind result_bind rbind]. rewrite Hmaj. cbn [rbind].
  rewrite Hout. cbn [rbind mret result_ret].
  eexists _, majority, outlier_rows, _.
  split; [reflexivity|]. split; [reflexivity|]. split; [reflexivity|].
  split; [reflexivity|]. cbn [level].
  split; [|apply issues_level_policy].
  destruct (Nat.eqb (mask_sum (frame_duplicated df)) 0),
    (F64.gtb majority f_0_75), (Nat.eqb outlier_rows 0); reflexivity.
Qed.

End Scanner.

(** Eight rows whose last lies outside the bounds of both numeric columns,
    each column being constant on the other seven: the report counts two. *)
Lemma outliers_counted_per_column_witness :
  exists risk earlier,
    scan_for_data_poisoning (H := Ref.numerics) outlier_split "label" ["amount"; "age"]
    = Ok risk
    /\ dict_get (details risk) "issues"
       = Some (PList (map PStr (earlier ++ ["2 numeric rows outside 3*IQR boundaries."]))).
Proof.
  edestruct (outliers_counted_per_column (H := Ref.numerics)
               outlier_split "label" ["amount"; "age"] _ eq_refl)
    as (labels & majority & sers & _ & _ & Hsers & _ & Hissues & _).
  eexists _, _. split; [reflexivity|].
  etransitivity; [exact Hissues|].
  vm_compute in Hsers. injection Hsers as <-.
  rewrite app_assoc. do 4 f_equal.
Defined.

(** A split without rows: the builtin [max] has nothing to take the
    majority of, and the scanner raises instead of returning a RiskScore. *)
Lemma scan_empty_split_counterexample :
  scan_for_data_poisoning (H := Ref.numerics)
    (mkDataFrame 0 [("amount", FloatCol []); ("label", ObjCol [])]) "label" ["amount"]
  = Raise (ValueError "max() arg is an empty sequence")
  /\ ~ (exists risk,
          scan_for_data_poisoning (H := Ref.numerics)
            (mkDataFrame 0 [("amount", FloatCol []); ("label", ObjCol [])])
            "label" ["amount"]
          = Ok risk).
Proof. split; [reflexivity|]. intros [risk E]. discriminate E. Qed.

(** Five rows, the last a copy of the first, all labelled "yes": duplicates
    and imbalance, no outlier. *)
Lemma scan_level_by_issue_count_witness :
  exists risk,
    scan_for_data_poisoning (H := Ref.numerics)
      (mkDataFrame 5
         [ ("amount", FloatCol (map F64.of_Z [1; 2; 3; 4; 1]));
           ("label", ObjCol ["yes"; "yes"; "yes"; "yes"; "yes"]) ])
      "label" ["amount"]
    = Ok risk
    /\ level risk = "high".
Proof.
  destruct (scan_level_by_issue_count (H := Ref.numerics)
              (mkDataFrame 5
                 [ ("amount", FloatCol (map F64.of_Z [1; 2; 3; 4; 1]));
                   ("label", ObjCol ["yes"; "yes"; "yes"; "yes"; "yes"]) ])
              "label" ["amount"] (ObjCol ["yes"; "yes"; "yes"; "yes"; "yes"])
              eq_refl eq_refl eq_refl)
    as (risk & majority & outlier_rows & issues & Hrun & Hmaj & Hout & _ & Hlen & Hlevel).
  exists risk. split; [exact Hrun|].
  vm_compute in Hmaj. injection Hmaj as <-.
  vm_compute in Hout. injection Hout as <-.
  rewrite Hlevel, Hlen. reflexivity.
Defined.

(** ** The membership-inference assessor *)

Section Assessor.
Context `{Numerics} `{TrainedModel}.

Lemma max_axis1_error (proba : list (list F64.t)) (e : exn) :
  max_axis1 proba = Raise e -> exists msg, e = ValueError msg.
Proof.
  unfold max_axis1. induction proba as [|row proba IH]; [discriminate|].
  rewrite mapM_cons. destruct row as [|x row]; cbn [row_max].
  - intros E. injection E as <-. eauto.
  - cbn [mbind result_bind rbind].
    destruct (mapM row_max proba) as [rest|e']; [discriminate|].
    intros E. injection E as <-. by apply IH.
Qed.

Lemma top_confidence_error (df : DataFrame) (label_column : string) (e : exn) :
  top_confidence df label_column = Raise e -> e <> EmptyDatasetError.
Proof.
  unfold top_confidence, frame_drop.
  destruct (find_column (columns df) label_column); cbn [mbind result_bind rbind].
  - destruct (predict_proba _) as [msg|proba]; cbn [model_call rbind].
    + intros E. injection E as <-. discriminate.
    + intros E. apply max_axis1_error in E as [msg ->]. discriminate.
  - intros E. injection E as <-. discriminate.
Qed.

(** The assessor in terms of the confidences of its two splits. *)
Lemma evaluate_by_confidence (train_df test_df : DataFrame) (label_column : string) :
  evaluate_membership_inference_risk train_df test_df label_column
  = match frame_drop train_df label_column, frame_drop test_df label_column with
    | Raise e, _ => Raise e
    | Ok _, Raise e => Raise e
    | Ok _, Ok _ =>
        train_conf ← top_confidence train_df label_column;
        test_conf ← top_confidence test_df label_column;
        let confidence_gap := F64.sub (array_mean train_conf) (array_mean test_conf) in
        mret (mkRiskScore "OWASP-ML03-ML04-Privacy" (gap_level confidence_gap)
                [ item "train_confidence_mean" (PFloat (array_mean train_conf));
                  item "test_confidence_mean" (PFloat (array_mean test_conf));
                  item "confidence_gap" (PFloat confidence_gap);
                  item "variance_gap"
                    (PFloat (F64.sub (array_var train_conf) (array_var test_conf))) ]
                privacy_recommendations)
    end.
Proof.
  unfold evaluate_membership_inference_risk, top_confidence.
  destruct (frame_drop train_df label_column) as [trf|e]; [|reflexivity].
  destruct (frame_drop test_df label_column) as [tef|e]; [|reflexivity].
  rsimpl.
  destruct (model_call (predict_proba trf)) as [trp|e]; [|reflexivity]. rsimpl.
  destruct (max_axis1 trp) as [trc|e]; [|reflexivity]. rsimpl.
  destruct (model_call (predict_proba tef)) as [tep|e]; [|reflexivity]. rsimpl.
  destruct (max_axis1 tep) as [tec|e]; reflexivity.
Qed.

Lemma gap_level_diag (x : F64.t) : gap_level (F64.sub x x) = "low".
Proof. destruct (sub_diag_cases x) as [-> | ->]; reflexivity. Qed.

Lemma top_confidence_drop (df : DataFrame) (label_column : string) (conf : list F64.t) :
  top_confidence df label_column = Ok conf ->
  exists features, frame_drop df label_column = Ok features.
Proof.
  unfold top_confidence. destruct (frame_drop df label_column) as [features|e];
    [eauto|discriminate].
Qed.

(** A NaN operand makes the difference NaN, and a NaN gap is rated low. *)
Lemma sub_nan (a b : F64.t) :
  F64.is_nan a = true \/ F64.is_nan b = true -> F64.is_nan (F64.sub a b) = true.
Proof.
  intros [E|E]; [destruct a; try discriminate E; reflexivity|].
  destruct b; try discriminate E. by destruct a.
Qed.

Lemma gap_level_nan (gap : F64.t) : F64.is_nan gap = true -> gap_level gap = "low".
Proof. destruct gap; try discriminate. reflexivity. Qed.

(** C3, as the code has it.  The assessor has no check for an empty split
    and never raises [EmptyDatasetError], whatever the splits: an exception
    of the model's [predict_proba], on the training features or on the
    held-out features, propagates as it is, and once the model has answered
    for both splits, be it with no row at all, the assessor returns a
    RiskScore whose four statistics are the library's means of the two
    (possibly empty) confidence arrays, the difference of the means and the
    difference of the library's variances.  When one of the means is NaN, as
    the mean of an empty array is, the gap is NaN and the level is low; when
    one of the variances is NaN, so is the variance gap. *)
Theorem empty_split_has_no_dedicated_error
    (train_df test_df : DataFrame) (label_column : string) :
  evaluate_membership_inference_risk train_df test_df label_column
  <> Raise EmptyDatasetError
  /\ (forall train_features test_features msg,
        frame_drop train_df label_column = Ok train_features ->
        frame_drop test_df label_column = Ok test_features ->
        predict_proba train_features = inl msg ->
        evaluate_membership_inference_risk train_df test_df label_column
        = Raise (ModelError msg))
  /\ (forall train_conf test_features msg,
        top_confidence train_df label_column = Ok train_conf ->
        frame_drop test_df label_column = Ok test_features ->
        predict_proba test_features = inl msg ->
        evaluate_membership_inference_risk train_df test_df label_column
        = Raise (ModelError msg))
  /\ (forall train_conf test_conf,
        top_confidence train_df label_column = Ok train_conf ->
        top_confidence test_df label_column = Ok test_conf ->
        exists risk,
          evaluate_membership_inference_risk train_df test_df label_column = Ok risk
          /\ dict_get (details risk) "train_confidence_mean"
             = Some (PFloat (array_mean train_conf))
          /\ dict_get (details risk) "test_confidence_mean"
             = Some (PFloat (array_mean test_conf))
          /\ level risk
             = gap_level (F64.sub (array_mean train_conf) (array_mean test_conf))
          /\ details risk
             = [ item "train_confidence_mean" (PFloat (array_mean train_conf));
                 item "test_confidence_mean" (PFloat (array_mean test_conf));
                 item "confidence_gap"
                   (PFloat (F64.sub (array_mean train_conf) (array_mean test_conf)));
                 item "variance_gap"
                   (PFloat (F64.sub (array_var train_conf) (array_var test_conf))) ]
          /\ (F64.is_nan (array_mean train_conf) = true
              \/ F64.is_nan (array_mean test_conf) = true ->
              F64.is_nan (F64.sub (array_mean train_conf) (array_mean test_conf)) = true
              /\ level risk = "low")
          /\ (F64.is_nan (array_var train_conf) = true
              \/ F64.is_nan (array_var test_conf) = true ->
              F64.is_nan (F64.sub (array_var train_conf) (array_var test_conf)) = true)).
Proof.
  rewrite evaluate_by_confidence. split; [|split; [|split]].
  - destruct (frame_drop train_df label_column) as [trf|e] eqn:Etr.
    + destruct (frame_drop test_df label_column) as [tef|e] eqn:Ete.
      * destruct (top_confidence train_df label_column) as [trc|e] eqn:Ec; rsimpl.
        -- destruct (top_confidence test_df label_column) as [tec|e] eqn:Ec'; rsimpl;
             [discriminate|].
           intros E. injection E as ->. by apply (top_confidence_error _ _ _ Ec').
        -- intros E. injection E as ->. by apply (top_confidence_error _ _ _ Ec).
      * unfold frame_drop in Ete. destruct (find_column _ _); [discriminate|].
        injection Ete as <-. discriminate.
    + unfold frame_drop in Etr. destruct (find_column _ _); [discriminate|].
      injection Etr as <-. discriminate.
  - intros trf tef msg Etr Ete Emodel. rewrite Etr, Ete.
    unfold top_confidence. rewrite Etr. rsimpl. rewrite Emodel. reflexivity.
  - intros trc tef msg Ec Ete Emodel.
    destruct (top_confidence_drop _ _ _ Ec) as [trf ->]. rewrite Ete, Ec. rsimpl.
    unfold top_confidence. rewrite Ete. rsimpl. rewrite Emodel. reflexivity.
  - intros trc tec Ec Ec'.
    destruct (top_confidence_drop _ _ _ Ec) as [trf ->].
    destruct (top_confidence_drop _ _ _ Ec') as [tef ->].
    rewrite Ec, Ec'. rsimpl. eexists. split; [reflexivity|].
    split; [reflexivity|]. split; [reflexivity|]. split; [reflexivity|].
    split; [reflexivity|]. cbn [level]. split.
    + intros Hnan. pose proof (sub_nan _ _ Hnan) as Hgap.
      split; [exact Hgap|by apply gap_level_nan].
    + apply sub_nan.
Qed.

(** C5, as the code has it.  Whenever the assessor returns, its
    [confidence_gap] is the float difference of the mean top-class
    confidence of the training split and that of the held-out split.  With
    the same split on both sides the level is low, and the gap is zero
    provided the mean confidence is a finite number; it is NaN otherwise,
    as for a split without rows. *)
Theorem confidence_gap_is_mean_difference
    (train_df test_df : DataFrame) (label_column : string) (risk : RiskScore) :
  evaluate_membership_inference_risk train_df test_df label_column = Ok risk ->
  exists train_conf test_conf,
    top_confidence train_df label_column = Ok train_conf
    /\ top_confidence test_df label_column = Ok test_conf
    /\ dict_get (details risk) "confidence_gap"
       = Some (PFloat (F64.sub (array_mean train_conf) (array_mean test_conf)))
    /\ (train_df = test_df ->
        level risk = "low"
        /\ (F64.is_finite (array_mean train_conf) = true ->
            dict_get (details risk) "confidence_gap" = Some (PFloat F64.zero))).
Proof.
  rewrite evaluate_by_confidence.
  destruct (frame_drop train_df label_column) as [trf|e]; [|discriminate].
  destruct (frame_drop test_df label_column) as [tef|e]; [|discriminate].
  destruct (top_confidence train_df label_column) as [trc|e] eqn:Ec; [|discriminate].
  destruct (top_confidence test_df label_column) as [tec|e] eqn:Ec'; [|discriminate].
  rsimpl. intros E. injection E as <-. exists trc, tec.
  split; [reflexivity|]. split; [reflexivity|]. split; [reflexivity|].
  intros ->. rewrite Ec in Ec'. injection Ec' as <-. cbn [level details].
  split; [apply gap_level_diag|].
  intros Hfin. by rewrite (sub_diag_finite _ Hfin).
Qed.

End Assessor.

(** A split without rows and a model that answers it with no row: the
    assessor returns a RiskScore with NaN statistics.  Behind scikit-learn's
    input check, the model's own error comes out. *)
Lemma empty_split_has_no_dedicated_error_counterexample :
  (exists risk,
      evaluate_membership_inference_risk (H := Ref.numerics) (H0 := yes_model)
        empty_split empty_split "label" = Ok risk
      /\ level risk = "low"
      /\ dict_get (details risk) "train_confidence_mean" = Some (PFloat F64.nan)
      /\ dict_get (details risk) "confidence_gap" = Some (PFloat F64.nan))
  /\ evaluate_membership_inference_risk (H := Ref.numerics) (H0 := checked_yes_model)
       empty_split small_split "label"
     = Raise (ModelError "Found array with 0 sample(s)")
  /\ evaluate_membership_inference_risk (H := Ref.numerics) (H0 := checked_yes_model)
       small_split empty_split "label"
     = Raise (ModelError "Found array with 0 sample(s)")
  /\ evaluate_membership_inference_risk (H := Ref.numerics) (H0 := yes_model)
       empty_split empty_split "label"
     <> Raise EmptyDatasetError.
Proof.
  split; [|split; [reflexivity|split; [reflexivity|discriminate]]].
  eexists. split; [reflexivity|]. repeat split.
Qed.

Lemma empty_split_has_no_dedicated_error_witness :
  exists risk,
    evaluate_membership_inference_risk (H := Ref.numerics) (H0 := yes_model)
      empty_split small_split "label" = Ok risk
    /\ dict_get (details risk) "train_confidence_mean" = Some (PFloat F64.nan)
    /\ dict_get (details risk) "variance_gap" = Some (PFloat F64.nan)
    /\ level risk = "low".
Proof.
  destruct (proj2 (proj2 (proj2 (empty_split_has_no_dedicated_error
                                   (H := Ref.numerics) (H0 := yes_model)
                                   empty_split small_split "label")))
              [] (repeat (F64.lit 3 4) 4) eq_refl eq_refl)
    as (risk & Hrun & Htrain & _ & _ & Hdetails & Hnan & _).
  exists risk. split; [exact Hrun|]. split; [exact Htrain|].
  split; [rewrite Hdetails; reflexivity|].
  exact (proj2 (Hnan (or_introl eq_refl))).
Defined.

(** The same split without rows on both sides: the call returns, and its
    gap is NaN, which does not compare equal to zero. *)
Lemma confidence_gap_is_mean_difference_counterexample :
  exists risk gap,
    evaluate_membership_inference_risk (H := Ref.numerics) (H0 := yes_model)
      empty_split empty_split "label" = Ok risk
    /\ dict_get (details risk) "confidence_gap" = Some (PFloat gap)
    /\ F64.eqb gap F64.zero = false.
Proof. eexists _, _. split; [reflexivity|]. split; reflexivity. Qed.

Lemma confidence_gap_is_mean_difference_witness :
  exists risk,
    evaluate_membership_inference_risk (H := Ref.numerics) (H0 := yes_model)
      small_split small_split "label" = Ok risk
    /\ dict_get (details risk) "confidence_gap" = Some (PFloat F64.zero)
    /\ level risk = "low".
Proof.
  edestruct (confidence_gap_is_mean_difference (H := Ref.numerics) (H0 := yes_model)
               small_split small_split "label" _ eq_refl)
    as (train_conf & test_conf & Htrain & _ & _ & Hsame).
  destruct (Hsame eq_refl) as [Hlevel Hgap].
  eexists. split; [reflexivity|]. split; [|exact Hlevel].
  apply Hgap. vm_compute in Htrain. injection Htrain as <-. reflexivity.
Defined.

(** ** The adversarial stress tester *)

Section Simulation.
Context `{Numerics} `{TrainedModel} `{RandomSource}.
Variables (base : world) (test_df perturbed rng : loc) (original : DataFrame).
Hypothesis test_df_live : frames base !! test_df = Some original.
Hypothesis perturbed_fresh : test_df <> perturbed.

Local Abbreviation sim := (sim base perturbed rng).

Lemma sim_bind {A B} (m : SE world A) (m' : SE local A)
    (k : A -> SE world B) (k' : A -> SE local B) :
  sim m m' -> (forall a, sim (k a) (k' a)) -> sim (m ≫= k) (m' ≫= k').
Proof.
  intros Hm Hk s. unfold mbind, se_mbind, se_bind. rewrite Hm.
  destruct (m' s) as [[a|e] s']; cbn [fst snd]; [apply Hk|reflexivity].
Qed.

Lemma sim_ret {A} (a : A) : sim (mret a) (mret a).
Proof. intros s. reflexivity. Qed.

Lemma sim_lift {A} (r : result A) : sim (se_lift r) (se_lift r).
Proof. intros s. reflexivity. Qed.

Lemma sim_read_pert : sim (read_frame perturbed) get_pert.
Proof.
  intros s. unfold read_frame, get_pert, embed. cbn [frames fst snd].
  by rewrite lookup_insert_eq.
Qed.

Lemma sim_read_orig : sim (read_frame test_df) (se_ret original).
Proof.
  intros s. unfold read_frame, se_ret, embed. cbn [frames fst snd].
  rewrite lookup_insert_ne by congruence. by rewrite test_df_live.
Qed.

Lemma sim_write (df : DataFrame) : sim (write_frame perturbed df) (put_pert df).
Proof.
  intros s. unfold write_frame, put_pert, embed. cbn [frames generators fst snd pert gen].
  by rewrite insert_insert_eq.
Qed.

Lemma sim_draw {A} (sample : bitgen -> A * bitgen) :
  sim (draw rng sample) (draw_local sample).
Proof.
  intros s. unfold draw, draw_local, embed. cbn [frames generators].
  rewrite lookup_insert_eq. cbn. destruct (sample (gen s)) as [a g'].
  cbn. by rewrite insert_insert_eq.
Qed.

Lemma sim_loop (noise : nat -> nat -> F64.t) (rows idx : nat) (cols : list string) :
  sim (perturb_loop perturbed noise rows idx cols) (perturb_core noise rows idx cols).
Proof.
  revert idx. induction cols as [|c cols IH]; intros idx; cbn [perturb_loop perturb_core].
  - apply sim_ret.
  - apply sim_bind; [apply sim_read_pert|intros df].
    apply sim_bind; [apply sim_lift|intros col].
    apply sim_bind; [apply sim_lift|intros summed].
    apply sim_bind; [apply sim_write|intros _]. apply IH.
Qed.

End Simulation.

Section StressFacts.
Context `{Numerics} `{TrainedModel} `{RandomSource}.

Lemma se_bind_step {W A B} (m : SE W A) (k : A -> SE W B) (w w' : W) (a : A) :
  m w = (Ok a, w') -> (m ≫= k) w = k a w'.
Proof. intros E. unfold mbind, se_mbind, se_bind. by rewrite E. Qed.

Ltac sim_step :=
  first
    [ apply sim_ret
    | apply sim_lift
    | apply sim_read_pert
    | apply sim_write
    | apply sim_draw
    | apply sim_loop
    | (apply sim_read_orig; [assumption|assumption])
    | (apply sim_bind; [|intros ?]) ].

(** With a generator passed in, a call is the core run on a copy of the
    frame and on the generator's state; the copy is a new object and the
    generator is advanced in place. *)
Lemma run_with_generator
    (w : world) (test_df rng : loc) (df : DataFrame) (g : bitgen)
    (label_column : string) (numeric_columns : list string) (text_column : string)
    (baseline_accuracy epsilon : F64.t) (trigger_phrase : string) :
  frames w !! test_df = Some df ->
  generators w !! rng = Some g ->
  run_adversarial_stress_test test_df label_column numeric_columns text_column
    baseline_accuracy epsilon trigger_phrase (Some rng) w
  = (fst (stress_core df label_column numeric_columns text_column
            baseline_accuracy epsilon trigger_phrase (mkLocal df g)),
     embed w (fresh (dom (frames w))) rng
       (snd (stress_core df label_column numeric_columns text_column
               baseline_accuracy epsilon trigger_phrase (mkLocal df g)))).
Proof.
  intros Hdf Hg.
  assert (test_df <> fresh (dom (frames w))) as Hfresh.
  { intros E. apply (is_fresh (dom (frames w))). rewrite <- E.
    apply elem_of_dom. by rewrite Hdf. }
  unfold run_adversarial_stress_test.
  erewrite se_bind_step by reflexivity.
  erewrite se_bind_step by reflexivity.
  rewrite Hdf. cbn [default from_option id].
  replace (mkWorld (<[fresh (dom (frames w)) := df]> (frames w)) (generators w))
    with (embed w (fresh (dom (frames w))) rng (mkLocal df g))
    by (unfold embed; cbn [pert gen]; by rewrite (insert_id _ _ _ Hg)).
  match goal with
  | |- ?m _ = _ =>
      enough (sim w (fresh (dom (frames w))) rng m
                (stress_core df label_column numeric_columns text_column
                   baseline_accuracy epsilon trigger_phrase)) as Hsim
        by apply Hsim
  end.
  unfold stress_core. cbv zeta.
  repeat sim_step.
  destruct (negb _); repeat sim_step.
Qed.

Lemma run_without_generator
    (w : world) (test_df : loc)
    (label_column : string) (numeric_columns : list string) (text_column : string)
    (baseline_accuracy epsilon : F64.t) (trigger_phrase : string) :
  run_adversarial_stress_test test_df label_column numeric_columns text_column
    baseline_accuracy epsilon trigger_phrase None w
  = run_adversarial_stress_test test_df label_column numeric_columns text_column
      baseline_accuracy epsilon trigger_phrase (Some (fresh (dom (generators w))))
      (mkWorld (frames w)
         (<[fresh (dom (generators w)) := default_rng 42]> (generators w))).
Proof. reflexivity. Qed.

Lemma frames_embed (w : world) (perturbed rng l : loc) (s : local) :
  is_Some (frames w !! l) -> perturbed = fresh (dom (frames w)) ->
  frames (embed w perturbed rng s) !! l = frames w !! l.
Proof.
  intros Hl ->. unfold embed. cbn [frames]. apply lookup_insert_ne.
  intros E. apply (is_fresh (dom (frames w))). rewrite E. by apply elem_of_dom.
Qed.

(** C6. The stress tester leaves every frame that existed before the call
    as it was, the split it is given among them: noise and trigger phrases
    go to a copy, a new object.  This holds whether or not a generator is
    passed, and whether the call returns or raises. *)
Theorem stress_test_leaves_split_untouched
    (w : world) (test_df : loc) (rng : option loc)
    (label_column : string) (numeric_columns : list string) (text_column : string)
    (baseline_accuracy epsilon : F64.t) (trigger_phrase : string) :
  is_Some (frames w !! test_df) ->
  (forall r, rng = Some r -> is_Some (generators w !! r)) ->
  forall l, is_Some (frames w !! l) ->
    frames (snd (run_adversarial_stress_test test_df label_column numeric_columns
                   text_column baseline_accuracy epsilon trigger_phrase rng w)) !! l
    = frames w !! l.
Proof.
  intros [df Hdf] Hrng l Hl. destruct rng as [r|].
  - destruct (Hrng r eq_refl) as [g Hg].
    rewrite (run_with_generator w test_df r df g) by assumption.
    cbn [snd]. by apply frames_embed.
  - rewrite run_without_generator.
    rewrite (run_with_generator _ test_df _ df (default_rng 42));
      [|exact Hdf|cbn [generators]; apply lookup_insert_eq].
    cbn [snd]. by apply (frames_embed (mkWorld (frames w) _)).
Qed.

(** C7. The stress tester is a function of the contents of the split and
    of the state of the generator it is given: two calls with the same
    arguments, on equal splits and on generators in the same state, agree on
    the outcome (the same RiskScore, details included, or the same
    exception), on the perturbed copy (the same noise and the same trigger
    assignment) and on the state the generator is left in, whatever else the
    two worlds hold and wherever the objects live. *)
Theorem stress_test_deterministic
    (w1 w2 : world) (t1 t2 r1 r2 : loc) (df : DataFrame) (g : bitgen)
    (label_column : string) (numeric_columns : list string) (text_column : string)
    (baseline_accuracy epsilon : F64.t) (trigger_phrase : string) :
  frames w1 !! t1 = Some df -> frames w2 !! t2 = Some df ->
  generators w1 !! r1 = Some g -> generators w2 !! r2 = Some g ->
  let run1 := run_adversarial_stress_test t1 label_column numeric_columns text_column
                baseline_accuracy epsilon trigger_phrase (Some r1) w1 in
  let run2 := run_adversarial_stress_test t2 label_column numeric_columns text_column
                baseline_accuracy epsilon trigger_phrase (Some r2) w2 in
  fst run1 = fst run2
  /\ frames (snd run1) !! fresh (dom (frames w1))
     = frames (snd run2) !! fresh (dom (frames w2))
  /\ generators (snd run1) !! r1 = generators (snd run2) !! r2.
Proof.
  intros Ht1 Ht2 Hr1 Hr2 run1 run2. subst run1 run2.
  rewrite (run_with_generator w1 t1 r1 df g) by assumption.
  rewrite (run_with_generator w2 t2 r2 df g) by assumption.
  unfold embed. cbn [fst snd frames generators].
  by rewrite !lookup_insert_eq.
Qed.

(** C9, as the code has it.  A generator passed by the caller is the only
    source of randomness of the call: the outcome is the core run on that
    generator's state, no generator is created, and every other generator
    keeps its state.  When the caller passes none, the stress tester does
    proceed: it creates a generator of its own, seeded with the constant 42,
    and runs exactly as if that generator had been passed; the generators
    that existed before keep their state.  No process-wide generator is
    involved either way. *)
Theorem stress_test_random_source
    (w : world) (test_df : loc) (df : DataFrame)
    (label_column : string) (numeric_columns : list string) (text_column : string)
    (baseline_accuracy epsilon : F64.t) (trigger_phrase : string) :
  frames w !! test_df = Some df ->
  (forall rng g,
      generators w !! rng = Some g ->
      fst (run_adversarial_stress_test test_df label_column numeric_columns text_column
             baseline_accuracy epsilon trigger_phrase (Some rng) w)
      = fst (stress_core df label_column numeric_columns text_column
               baseline_accuracy epsilon trigger_phrase (mkLocal df g))
      /\ dom (generators
                (snd (run_adversarial_stress_test test_df label_column numeric_columns
                        text_column baseline_accuracy epsilon trigger_phrase (Some rng) w)))
         = dom (generators w)
      /\ forall other, other <> rng ->
           generators
             (snd (run_adversarial_stress_test test_df label_column numeric_columns
                     text_column baseline_accuracy epsilon trigger_phrase (Some rng) w))
             !! other
           = generators w !! other)
  /\ run_adversarial_stress_test test_df label_column numeric_columns text_column
       baseline_accuracy epsilon trigger_phrase None w
     = run_adversarial_stress_test test_df label_column numeric_columns text_column
         baseline_accuracy epsilon trigger_phrase (Some (fresh (dom (generators w))))
         (mkWorld (frames w)
            (<[fresh (dom (generators w)) := default_rng 42]> (generators w)))
  /\ fst (run_adversarial_stress_test test_df label_column numeric_columns text_column
            baseline_accuracy epsilon trigger_phrase None w)
     = fst (stress_core df label_column numeric_columns text_column
              baseline_accuracy epsilon trigger_phrase (mkLocal df (default_rng 42)))
  /\ dom (generators
            (snd (run_adversarial_stress_test test_df label_column numeric_columns
                    text_column baseline_accuracy epsilon trigger_phrase None w)))
     = {[fresh (dom (generators w))]} ∪ dom (generators w)
  /\ forall other, is_Some (generators w !! other) ->
       generators
         (snd (run_adversarial_stress_test test_df label_column numeric_columns
                 text_column baseline_accuracy epsilon trigger_phrase None w))
         !! other
       = generators w !! other.
Proof.
  intros Hdf. split; [|split; [|split; [|split]]].
  - intros rng g Hg. rewrite (run_with_generator w test_df rng df g) by assumption.
    split; [reflexivity|]. unfold embed. cbn [snd generators]. split.
    + apply dom_insert_lookup_L. by rewrite Hg.
    + intros other Hother. by apply lookup_insert_ne.
  - apply run_without_generator.
  - rewrite run_without_generator.
    rewrite (run_with_generator _ test_df _ df (default_rng 42));
      [reflexivity|exact Hdf|cbn [generators]; apply lookup_insert_eq].
  - rewrite run_without_generator.
    rewrite (run_with_generator _ test_df _ df (default_rng 42));
      [|exact Hdf|cbn [generators]; apply lookup_insert_eq].
    unfold embed. cbn [snd generators]. rewrite insert_insert_eq. apply dom_insert_L.
  - intros other Hother. rewrite run_without_generator.
    rewrite (run_with_generator _ test_df _ df (default_rng 42));
      [|exact Hdf|cbn [generators]; apply lookup_insert_eq].
    unfold embed. cbn [snd generators]. rewrite insert_insert_eq.
    apply lookup_insert_ne. intros E.
    apply (is_fresh (dom (generators w))). rewrite E. by apply elem_of_dom.
Qed.

End StressFacts.

Section NoiseScale.
Context `{Numerics} `{TrainedModel}.

#[local] Existing Instance recording_source.

Lemma keeps_bind {A B} (m : SE local A) (k : A -> SE local B) :
  keeps_gen m -> (forall a, keeps_gen (k a)) -> keeps_gen (m ≫= k).
Proof.
  intros Hm Hk s. unfold mbind, se_mbind, se_bind.
  specialize (Hm s). destruct (m s) as [[a|e] s']; cbn [snd] in *;
    [by rewrite Hk|exact Hm].
Qed.

Lemma keeps_ret {A} (a : A) : keeps_gen (mret a).
Proof. intros s. reflexivity. Qed.

Lemma keeps_lift {A} (r : result A) : keeps_gen (se_lift r).
Proof. intros s. reflexivity. Qed.

Lemma keeps_get : keeps_gen get_pert.
Proof. intros s. reflexivity. Qed.

Lemma keeps_put (df : DataFrame) : keeps_gen (put_pert df).
Proof. intros s. reflexivity. Qed.

Lemma keeps_random (size : nat) : keeps_gen (draw_local (rng_random size)).
Proof. intros s. reflexivity. Qed.

Lemma keeps_loop (noise : nat -> nat -> F64.t) (rows idx : nat) (cols : list string) :
  keeps_gen (perturb_core noise rows idx cols).
Proof.
  revert idx. induction cols as [|c cols IH]; intros idx; cbn [perturb_core].
  - apply keeps_ret.
  - apply keeps_bind; [apply keeps_get|intros df].
    apply keeps_bind; [apply keeps_lift|intros col].
    apply keeps_bind; [apply keeps_lift|intros summed].
    apply keeps_bind; [apply keeps_put|intros _]. apply IH.
Qed.

Ltac keeps_step :=
  first
    [ apply keeps_ret
    | apply keeps_lift
    | apply keeps_get
    | apply keeps_put
    | apply keeps_random
    | apply keeps_loop
    | (apply keeps_bind; [|intros ?]) ].

(** The standard deviations the tester computes are those of the named
    columns of the frame it is given. *)
Lemma column_stds_select (df : DataFrame) (cols : list string) (stds : list F64.t) :
  column_stds df cols = Ok stds ->
  exists selected,
    frame_select df cols = Ok selected /\ frame_std selected = Ok stds.
Proof.
  intros E.
  enough (exists cs,
             mapM (fun key => c ← frame_getitem df key; mret (key, c)) cols = Ok cs
             /\ mapM (fun nc : string * column =>
                        xs ← as_numeric (snd nc); mret (series_std xs)) cs
                = Ok stds) as (cs & Hcs & Hstd).
  { unfold frame_select, frame_std. rewrite Hcs. rsimpl. eauto. }
  revert stds E. unfold column_stds, numeric_series.
  induction cols as [|c cols IH]; intros stds.
  - intros E. injection E as <-. exists []. split; reflexivity.
  - rewrite !mapM_cons.
    destruct (frame_getitem df c) as [col|e]; rsimpl; [|discriminate].
    destruct (as_numeric col) as [xs|e] eqn:Ecol; rsimpl; [|discriminate].
    destruct (mapM (fun column => xs0 ← (col0 ← frame_getitem df column; as_numeric col0);
                                  mret (series_std xs0)) cols)
      as [rest|e]; rsimpl; [|discriminate].
    intros E. injection E as <-.
    destruct (IH rest eq_refl) as (cs & -> & Hstd). rsimpl.
    eexists. split; [reflexivity|]. rewrite mapM_cons. cbn [snd].
    rewrite Ecol. rsimpl. rewrite Hstd. reflexivity.
Qed.

Lemma core_records_scale
    (df : DataFrame) (label_column : string) (numeric_columns : list string)
    (text_column : string) (baseline_accuracy epsilon : F64.t)
    (trigger_phrase : string) (stds : list F64.t) (s : local) :
  column_stds df numeric_columns = Ok stds ->
  gen (snd (stress_core df label_column numeric_columns text_column
              baseline_accuracy epsilon trigger_phrase s))
  = map (fun std => noise_scale std epsilon) stds :: gen s.
Proof.
  intros E. destruct (column_stds_select df numeric_columns stds E)
    as (selected & Hsel & Hstd).
  unfold stress_core. cbv zeta.
  erewrite se_bind_step by reflexivity.
  rewrite Hsel. erewrite se_bind_step by reflexivity.
  rewrite Hstd. erewrite se_bind_step by reflexivity.
  erewrite se_bind_step by reflexivity.
  match goal with
  | |- gen (snd (?m ?s')) = _ => enough (keeps_gen m) as Hk by (rewrite Hk; reflexivity)
  end.
  repeat keeps_step.
  destruct (negb _); repeat keeps_step.
Qed.

End NoiseScale.

(** A split whose numeric column is constant, epsilon 0.05, and a generator
    that logs its scales: the stated scale would be 1e-3, the call draws at
    0.05. *)
Lemma noise_scale_per_column_counterexample :
  series_std (Numerics := Ref.numerics) (map F64.of_Z [5; 5; 5; 5]) = F64.zero
  /\ np_maximum (F64.mul F64.zero (F64.lit 5 100)) f_1e_3 = f_1e_3
  /\ generators
       (snd (run_adversarial_stress_test (H := Ref.numerics) (H0 := yes_model)
               (H1 := recording_source) 1%positive "label" ["amount"] "note"
               (F64.lit 1 2) (F64.lit 5 100) "zz" (Some 1%positive)
               (seeded_world (H := recording_source) constant_split []))) !! 1%positive
     = Some [[F64.lit 5 100]]
  /\ F64.eqb (F64.lit 5 100) f_1e_3 = false.
Proof. repeat split; vm_compute; reflexivity. Qed.

Lemma stress_test_leaves_split_untouched_witness :
  frames
    (snd (run_adversarial_stress_test (H := Ref.numerics) (H0 := yes_model)
            (H1 := Ref.random_source) 1%positive "label" ["amount"] "note"
            (F64.lit 1 2) (F64.lit 5 100) "zz" None
            (lone_world (H := Ref.random_source) small_split))) !! 1%positive
  = Some small_split.
Proof.
  rewrite (stress_test_leaves_split_untouched (H := Ref.numerics) (H0 := yes_model)
             (H1 := Ref.random_source)
             (lone_world (H := Ref.random_source) small_split) 1%positive None).
  - reflexivity.
  - by exists small_split.
  - intros r E. discriminate E.
  - by exists small_split.
Defined.

(** The same split and the same generator state in two worlds laid out
    differently. *)
Lemma stress_test_deterministic_witness :
  fst (run_adversarial_stress_test (H := Ref.numerics) (H0 := yes_model)
         (H1 := Ref.random_source) 1%positive "label" ["amount"] "note"
         (F64.lit 1 2) (F64.lit 5 100) "zz" (Some 1%positive)
         (seeded_world (H := Ref.random_source) small_split 7))
  = fst (run_adversarial_stress_test (H := Ref.numerics) (H0 := yes_model)
           (H1 := Ref.random_source) 5%positive "label" ["amount"] "note"
           (F64.lit 1 2) (F64.lit 5 100) "zz" (Some 3%positive)
           (busy_world (H := Ref.random_source) small_split 7)).
Proof.
  apply (stress_test_deterministic (H := Ref.numerics) (H0 := yes_model)
           (H1 := Ref.random_source)
           (seeded_world (H := Ref.random_source) small_split 7)
           (busy_world (H := Ref.random_source) small_split 7)
           1%positive 5%positive 1%positive 3%positive small_split 7
           "label" ["amount"] "note" (F64.lit 1 2) (F64.lit 5 100) "zz"
           eq_refl eq_refl eq_refl eq_refl).
Defined.

(** A call without a generator, in a world that holds none: it returns a
    RiskScore, and leaves behind a generator it made itself, started at
    seed 42 and advanced by its draws. *)
Lemma stress_test_random_source_counterexample :
  generators (lone_world (H := Ref.random_source) small_split) = ∅
  /\ match run_adversarial_stress_test (H := Ref.numerics) (H0 := yes_model)
            (H1 := Ref.random_source) 1%positive "label" ["amount"] "note"
            (F64.lit 1 2) (F64.lit 5 100) "zz" None
            (lone_world (H := Ref.random_source) small_split) with
     | (Ok risk, w') =>
         name risk = "OWASP-ML01-AdversarialEvasion"
         /\ generators w' !! 1%positive = Some (42 + 4 + 4)
     | (Raise _, _) => False
     end.
Proof. split; [reflexivity|]. vm_compute. split; reflexivity. Qed.

Lemma stress_test_random_source_witness :
  fst (run_adversarial_stress_test (H := Ref.numerics) (H0 := yes_model)
         (H1 := Ref.random_source) 1%positive "label" ["amount"] "note"
         (F64.lit 1 2) (F64.lit 5 100) "zz" None
         (lone_world (H := Ref.random_source) small_split))
  = fst (run_adversarial_stress_test (H := Ref.numerics) (H0 := yes_model)
           (H1 := Ref.random_source) 1%positive "label" ["amount"] "note"
           (F64.lit 1 2) (F64.lit 5 100) "zz" (Some 1%positive)
           (seeded_world (H := Ref.random_source) small_split 42)).
Proof.
  destruct (stress_test_random_source (H := Ref.numerics) (H0 := yes_model)
              (H1 := Ref.random_source)
              (lone_world (H := Ref.random_source) small_split) 1%positive small_split
              "label" ["amount"] "note" (F64.lit 1 2) (F64.lit 5 100) "zz" eq_refl)
    as (_ & _ & Hnone & _).
  destruct (stress_test_random_source (H := Ref.numerics) (H0 := yes_model)
              (H1 := Ref.random_source)
              (seeded_world (H := Ref.random_source) small_split 42) 1%positive small_split
              "label" ["amount"] "note" (F64.lit 1 2) (F64.lit 5 100) "zz" eq_refl)
    as (Hsome & _).
  destruct (Hsome 1%positive 42 eq_refl) as [Hrun _].
  etransitivity; [exact Hnone|symmetry; exact Hrun].
Defined.

(** ** Value counts *)

Section ValueCounts.

Lemma compare_finite_eq (s s' : bool) (m m' : positive) (e e' : Z) :
  SFcompare (S754_finite s m e) (S754_finite s' m' e') = Some Eq
  <-> s = s' /\ m = m' /\ e = e'.
Proof.
  cbn. change (Pos.compare_cont Eq m m') with (Pos.compare m m'). split.
  - destruct s, s'; try discriminate;
      destruct (Z.compare_spec e e') as [->|?|?]; try discriminate;
      destruct (Pos.compare_spec m m') as [->|?|?]; try discriminate; done.
  - intros (-> & -> & ->). rewrite Z.compare_refl, Pos.compare_refl. by destruct s'.
Qed.

Lemma f64_eqb_refl (x : F64.t) : F64.is_nan x = false -> F64.eqb x x = true.
Proof.
  unfold F64.eqb. destruct x as [s|s| |s m e]; try discriminate; intros _.
  - reflexivity.
  - by destruct s.
  - by rewrite (proj2 (compare_finite_eq s s m m e e)).
Qed.

Lemma f64_eqb_sym (x y : F64.t) : F64.eqb x y = F64.eqb y x.
Proof.
  unfold F64.eqb.
  destruct x as [s|s| |s m e], y as [s'|s'| |s' m' e']; try reflexivity;
    try (by destruct s); try (by destruct s'); try (by destruct s, s').
  destruct (SFcompare (S754_finite s m e) (S754_finite s' m' e')) as [[]|] eqn:E1;
    destruct (SFcompare (S754_finite s' m' e') (S754_finite s m e)) as [[]|] eqn:E2;
    try reflexivity;
    try (apply compare_finite_eq in E1 as (-> & -> & ->);
         rewrite (proj2 (compare_finite_eq s' s' m' m' e' e')) in E2 by done; discriminate);
    try (apply compare_finite_eq in E2 as (-> & -> & ->);
         rewrite (proj2 (compare_finite_eq s s m m e e)) in E1 by done; discriminate).
Qed.

Lemma f64_eqb_trans (x y z : F64.t) :
  F64.eqb x y = true -> F64.eqb y z = true -> F64.eqb x z = true.
Proof.
  unfold F64.eqb.
  destruct x as [s|s| |s m e], y as [s'|s'| |s' m' e'], z as [s''|s''| |s'' m'' e''];
    try done; try (by destruct s); try (by destruct s'); try (by destruct s'');
    try (by destruct s, s'); try (by destruct s', s''); try (by destruct s, s', s'').
  destruct (SFcompare (S754_finite s m e) (S754_finite s' m' e')) as [[]|] eqn:E1;
    try discriminate.
  apply compare_finite_eq in E1 as (-> & -> & ->). done.
Qed.

Lemma f64_eqb_not_nan (x y : F64.t) :
  F64.eqb x y = true -> F64.is_nan x = false /\ F64.is_nan y = false.
Proof. unfold F64.eqb. by destruct x, y. Qed.

Lemma cell_same_refl (c : cell) : cell_same c c = true.
Proof.
  destruct c as [x|s]; cbn; [|apply String.eqb_refl].
  destruct (F64.is_nan x) eqn:E; [apply orb_true_r|]. by rewrite f64_eqb_refl.
Qed.

Lemma cell_same_sym (a b : cell) : cell_same a b = cell_same b a.
Proof.
  destruct a as [x|s], b as [y|u]; cbn; try reflexivity.
  - by rewrite f64_eqb_sym, andb_comm.
  - apply String.eqb_sym.
Qed.

Lemma cell_same_trans (a b c : cell) :
  cell_same a b = true -> cell_same b c = true -> cell_same a c = true.
Proof.
  destruct a as [x|s], b as [y|u], c as [z|v]; cbn; try done.
  - intros E1 E2. apply orb_prop in E1, E2. apply orb_true_iff.
    destruct E1 as [E1|E1], E2 as [E2|E2].
    + left. by apply (f64_eqb_trans x y z).
    + apply f64_eqb_not_nan in E1 as [_ E1]. apply andb_prop in E2 as [E2 _].
      rewrite E1 in E2. discriminate.
    + apply f64_eqb_not_nan in E2 as [E2 _]. apply andb_prop in E1 as [_ E1].
      rewrite E1 in E2. discriminate.
    + apply andb_prop in E1 as [E1 _]. apply andb_prop in E2 as [_ E2].
      right. by rewrite E1, E2.
  - rewrite !String.eqb_eq. congruence.
Qed.


Lemma count_add_cases (counts : list (cell * nat)) (c : cell) :
  (exists pre k n post,
      counts = pre ++ (k, n) :: post
      /\ Forall (fun kn => cell_same (fst kn) c = false) pre
      /\ cell_same k c = true
      /\ count_add counts c = pre ++ (k, S n) :: post)
  \/ (Forall (fun kn => cell_same (fst kn) c = false) counts
      /\ count_add counts c = counts ++ [(c, 1%nat)]).
Proof.
  induction counts as [|[k n] counts IH]; cbn.
  - right. by split.
  - destruct (cell_same k c) eqn:Ek.
    + left. exists [], k, n, counts. by repeat split.
    + destruct IH as [(pre & k' & n' & post & -> & Hpre & Hk' & ->)|[Hall ->]].
      * left. exists ((k, n) :: pre), k', n', post. repeat split; try done.
        by constructor.
      * right. split; [by constructor|reflexivity].
Qed.

Lemma apart_snoc (keys : list cell) (c : cell) :
  apart keys -> Forall (fun k => cell_same k c = false) keys -> apart (keys ++ [c]).
Proof.
  induction keys as [|k keys IH]; cbn; [done|].
  intros [Hk Hrest] Hall. apply Forall_cons in Hall as [Hkc Hall].
  split; [|by apply IH]. apply Forall_app. split; [exact Hk|]. by constructor.
Qed.

Lemma apart_after (l1 l2 : list cell) (k : cell) :
  apart (l1 ++ k :: l2) -> Forall (fun k' => cell_same k k' = false) l2.
Proof.
  induction l1 as [|a l1 IH]; cbn; [by intros [? _]|]. intros [_ ?]. by apply IH.
Qed.

Lemma filter_snoc_length {A} (f : A -> bool) (xs : list A) (x : A) :
  length (List.filter f (xs ++ [x]))
  = (length (List.filter f xs) + (if f x then 1 else 0))%nat.
Proof.
  rewrite List.filter_app, length_app. cbn. by destruct (f x).
Qed.

Lemma tally_step (counts : list (cell * nat)) (seen : list cell) (c : cell) :
  tally counts seen -> tally (count_add counts c) (seen ++ [c]).
Proof.
  intros (Hapart & Hcount & Hcover).
  destruct (count_add_cases counts c)
    as [(pre & k & n & post & -> & Hpre & Hk & ->)|[Hall ->]].
  - assert (forall kn, In kn post -> cell_same (fst kn) c = false) as Hpost.
    { intros kn Hkn. destruct (cell_same (fst kn) c) eqn:E; [|reflexivity].
      rewrite map_app in Hapart. cbn in Hapart. apply apart_after in Hapart.
      rewrite Forall_forall in Hapart.
      assert (cell_same k (fst kn) = true) as Hsame
        by (apply (cell_same_trans k c (fst kn)); [exact Hk|]; by rewrite cell_same_sym).
      rewrite (Hapart (fst kn)) in Hsame by (apply list_elem_of_In, in_map, Hkn).
      discriminate Hsame. }
    split; [|split].
    + rewrite map_app in *. exact Hapart.
    + intros kn Hkn. rewrite filter_snoc_length, in_app_iff.
      apply in_app_iff in Hkn as [Hkn|[<-|Hkn]].
      * destruct (Hcount kn) as [Hin ->]; [apply in_app_iff; by left|].
        split; [by left|]. rewrite Forall_forall in Hpre.
        rewrite (Hpre kn) by (by apply list_elem_of_In). lia.
      * destruct (Hcount (k, n)) as [Hin Hn]; [apply in_app_iff; right; by left|].
        cbn in *. split; [by left|]. rewrite Hk. lia.
      * destruct (Hcount kn) as [Hin ->]; [apply in_app_iff; right; by right|].
        split; [by left|]. rewrite (Hpost kn Hkn). lia.
    + intros c' Hc'. apply in_app_iff in Hc' as [Hc'|[<-|[]]].
      * destruct (Hcover c' Hc') as (kn & Hkn & Hsame).
        apply in_app_iff in Hkn as [Hkn|[<-|Hkn]].
        -- exists kn. split; [apply in_app_iff; by left|exact Hsame].
        -- exists (k, S n). split; [apply in_app_iff; right; by left|exact Hsame].
        -- exists kn. split; [apply in_app_iff; right; by right|exact Hsame].
      * exists (k, S n). split; [apply in_app_iff; right; by left|exact Hk].
  - rewrite Forall_forall in Hall.
    assert (forall c', In c' seen -> cell_same c c' = false) as Hnew.
    { intros c' Hc'. destruct (cell_same c c') eqn:E; [|reflexivity].
      destruct (Hcover c' Hc') as (kn & Hkn & Hsame).
      assert (cell_same (fst kn) c = true) as Hsame'
        by (apply (cell_same_trans (fst kn) c' c); [exact Hsame|]; by rewrite cell_same_sym).
      rewrite (Hall kn) in Hsame' by (by apply list_elem_of_In). discriminate Hsame'. }
    split; [|split].
    + rewrite map_app. cbn. apply apart_snoc; [exact Hapart|].
      apply Forall_forall. intros k Hk. apply list_elem_of_In, in_map_iff in Hk
        as (kn & <- & Hkn). apply Hall. by apply list_elem_of_In.
    + intros kn Hkn. rewrite filter_snoc_length, in_app_iff.
      apply in_app_iff in Hkn as [Hkn|[<-|[]]].
      * destruct (Hcount kn Hkn) as [Hin ->]. split; [by left|].
        rewrite (Hall kn) by (by apply list_elem_of_In). lia.
      * cbn. split; [right; by left|]. rewrite cell_same_refl.
        assert (List.filter (cell_same c) seen = []) as ->; [|reflexivity].
        clear -Hnew. induction seen as [|c' seen IH]; [reflexivity|]. cbn.
        rewrite (Hnew c') by (by left). apply IH. intros c'' Hc''. apply Hnew. by right.
    + intros c' Hc'. apply in_app_iff in Hc' as [Hc'|[<-|[]]].
      * destruct (Hcover c' Hc') as (kn & Hkn & Hsame).
        exists kn. split; [apply in_app_iff; by left|exact Hsame].
      * exists (c, 1%nat). split; [apply in_app_iff; right; by left|apply cell_same_refl].
Qed.

Lemma tally_fold (cells : list cell) (counts : list (cell * nat)) (seen : list cell) :
  tally counts seen -> tally (fold_left count_add cells counts) (seen ++ cells).
Proof.
  revert counts seen. induction cells as [|c cells IH]; intros counts seen Ht; cbn.
  - by rewrite app_nil_r.
  - replace (seen ++ c :: cells) with ((seen ++ [c]) ++ cells) by (by rewrite <- app_assoc).
    by apply IH, tally_step.
Qed.

Lemma count_add_sum (counts : list (cell * nat)) (c : cell) :
  foldr Nat.add 0%nat (map snd (count_add counts c))
  = S (foldr Nat.add 0%nat (map snd counts)).
Proof.
  induction counts as [|[k n] counts IH]; cbn; [reflexivity|].
  destruct (cell_same k c); cbn; [reflexivity|]. rewrite IH. lia.
Qed.

Lemma fold_count_add_sum (cells : list cell) (counts : list (cell * nat)) :
  foldr Nat.add 0%nat (map snd (fold_left count_add cells counts))
  = (foldr Nat.add 0%nat (map snd counts) + length cells)%nat.
Proof.
  revert counts. induction cells as [|c cells IH]; intros counts; cbn; [lia|].
  rewrite IH, count_add_sum. lia.
Qed.


Lemma apart_perm (l l' : list cell) : l ≡ₚ l' -> apart l -> apart l'.
Proof.
  induction 1 as [|x l l' Hp IH|x y l|l l' l'' _ IH1 _ IH2]; cbn.
  - done.
  - intros [Hx Hl]. split; [by rewrite <- Hp|by apply IH].
  - intros (Hy & Hx & Hl). apply Forall_cons in Hy as [Hyx Hy].
    repeat split; try done. constructor; [by rewrite cell_same_sym|exact Hx].
  - intros Hl. by apply IH2, IH1.
Qed.

Lemma apart_lookup (l : list cell) (i j : nat) (a b : cell) :
  apart l -> (i < j)%nat -> l !! i = Some a -> l !! j = Some b -> cell_same a b = false.
Proof.
  revert i j. induction l as [|x l IH]; intros i j Hl Hij Hi Hj; [discriminate|].
  destruct Hl as [Hx Hl]. destruct j as [|j]; [lia|]. cbn in Hj.
  destruct i as [|i]; cbn in Hi.
  - injection Hi as ->. rewrite Forall_forall in Hx. apply Hx.
    by apply list_elem_of_lookup_2 in Hj.
  - apply (IH i j); [done|lia|done|done].
Qed.

Lemma sum_perm (l l' : list nat) :
  l ≡ₚ l' -> foldr Nat.add 0%nat l = foldr Nat.add 0%nat l'.
Proof.
  induction 1 as [|x l l' _ IH|x y l|l l' l'' _ IH1 _ IH2]; cbn; lia.
Qed.

Lemma insert_desc_perm (kn : cell * nat) (sorted : list (cell * nat)) :
  insert_desc kn sorted ≡ₚ kn :: sorted.
Proof.
  induction sorted as [|kn' sorted IH]; cbn [insert_desc]; [reflexivity|].
  destruct (Nat.ltb (snd kn') (snd kn)); [reflexivity|].
  rewrite IH. apply Permutation_swap.
Qed.

Lemma insert_desc_sorted (kn : cell * nat) (sorted : list (cell * nat)) :
  StronglySorted by_count sorted -> StronglySorted by_count (insert_desc kn sorted).
Proof.
  induction sorted as [|kn' sorted IH]; cbn [insert_desc]; intros Hs.
  - constructor; [constructor|constructor].
  - apply StronglySorted_inv in Hs as [Hs Hall].
    destruct (Nat.ltb_spec (snd kn') (snd kn)) as [Hlt|Hge].
    + constructor; [by constructor|]. constructor; [unfold by_count; lia|].
      eapply Forall_impl; [exact Hall|]. unfold by_count. intros x Hx. lia.
    + constructor; [by apply IH|]. rewrite insert_desc_perm.
      constructor; [exact Hge|exact Hall].
Qed.

Lemma fold_insert_desc (raw acc : list (cell * nat)) :
  StronglySorted by_count acc ->
  StronglySorted by_count (fold_left (fun sorted kn => insert_desc kn sorted) raw acc)
  /\ fold_left (fun sorted kn => insert_desc kn sorted) raw acc ≡ₚ raw ++ acc.
Proof.
  revert acc. induction raw as [|kn raw IH]; intros acc Hs; cbn; [by split|].
  destruct (IH (insert_desc kn acc) (insert_desc_sorted kn acc Hs)) as [Hsorted Hperm].
  split; [exact Hsorted|]. rewrite Hperm, insert_desc_perm.
  by rewrite Permutation_middle.
Qed.

(** [value_counts]: the counts are in decreasing order, the keys pairwise
    different, each a present cell counted as often as it occurs, and every
    present cell has its key. *)
Lemma value_counts_spec (cells : list cell) :
  StronglySorted by_count (value_counts cells)
  /\ apart (map fst (value_counts cells))
  /\ (forall kn, In kn (value_counts cells) ->
        In (fst kn) (present_cells cells) /\ snd kn = occurrences (fst kn) cells)
  /\ (forall c, In c (present_cells cells) ->
        exists kn, In kn (value_counts cells) /\ cell_same (fst kn) c = true)
  /\ foldr Nat.add 0%nat (map snd (value_counts cells)) = length (present_cells cells).
Proof.
  unfold value_counts. cbv zeta. fold (present_cells cells).
  destruct (fold_insert_desc (fold_left count_add (present_cells cells) []) []
              (SSorted_nil _)) as [Hsorted Hperm].
  rewrite app_nil_r in Hperm.
  destruct (tally_fold (present_cells cells) [] []) as (Hapart & Hcount & Hcover).
  { split; [exact I|]. split; [intros kn []|intros c []]. }
  cbn [app] in Hcount, Hcover.
  split; [exact Hsorted|]. split; [|split; [|split]].
  - eapply apart_perm; [|exact Hapart]. by rewrite Hperm.
  - intros kn Hkn. apply Hcount. apply list_elem_of_In. rewrite <- Hperm.
    by apply list_elem_of_In.
  - intros c Hc. destruct (Hcover c Hc) as (kn & Hkn & Hsame). exists kn.
    split; [|exact Hsame]. apply list_elem_of_In. rewrite Hperm. by apply list_elem_of_In.
  - rewrite (sum_perm _ (map snd (fold_left count_add (present_cells cells) [])))
      by (by rewrite Hperm).
    rewrite fold_count_add_sum. reflexivity.
Qed.

Lemma occurrences_same (a b : cell) (cells : list cell) :
  cell_same a b = true -> occurrences a cells = occurrences b cells.
Proof.
  intros E. unfold occurrences. f_equal. apply List.filter_ext. intros c.
  destruct (cell_same a c) eqn:Ea, (cell_same b c) eqn:Eb; try reflexivity.
  - rewrite <- Eb. symmetry. apply (cell_same_trans b a c); [by rewrite cell_same_sym|done].
  - rewrite <- Ea. apply (cell_same_trans a b c); done.
Qed.

Lemma occurrences_positive (k : cell) (cells : list cell) :
  In k (present_cells cells) -> (1 <= occurrences k cells)%nat.
Proof.
  unfold occurrences. intros Hk.
  assert (In k (List.filter (cell_same k) (present_cells cells))) as Hin
    by (apply List.filter_In; split; [exact Hk|apply cell_same_refl]).
  destruct (List.filter _ _); [destruct Hin|cbn; lia].
Qed.

Lemma In_take {A} (x : A) (n : nat) (l : list A) : In x (take n l) -> In x l.
Proof.
  intros Hx. rewrite <- (take_drop n l). apply in_or_app. by left.
Qed.

Lemma sorted_lookup (l : list (cell * nat)) (i j : nat) (a b : cell * nat) :
  StronglySorted by_count l -> (i < j)%nat -> l !! i = Some a -> l !! j = Some b ->
  by_count a b.
Proof.
  revert i j. induction l as [|x l IH]; intros i j Hl Hij Hi Hj; [discriminate|].
  apply StronglySorted_inv in Hl as [Hl Hx]. destruct j as [|j]; [lia|]. cbn in Hj.
  destruct i as [|i]; cbn in Hi.
  - injection Hi as ->. rewrite Forall_forall in Hx. apply Hx.
    by apply list_elem_of_lookup_2 in Hj.
  - apply (IH i j); [done|lia|done|done].
Qed.

(** The distribution kept for a column: the five most frequent present
    values, each with its count over the number of present rows. *)
Lemma top5_spec (series : column) :
  exists counts : list (cell * nat),
    top5_distribution series
    = map (fun kn =>
             (cell_value (fst kn),
              PFloat (F64.div (F64.of_Z (Z.of_nat (snd kn)))
                        (F64.of_Z (Z.of_nat (length (present_cells (column_cells series))))))))
          counts
    /\ (length counts <= 5)%nat
    /\ (forall kn, In kn counts ->
          In (fst kn) (column_cells series)
          /\ cell_missing (fst kn) = false
          /\ snd kn = occurrences (fst kn) (column_cells series)
          /\ (1 <= snd kn)%nat)
    /\ (forall i j kn kn',
          (i < j)%nat -> counts !! i = Some kn -> counts !! j = Some kn' ->
          (snd kn' <= snd kn)%nat /\ cell_same (fst kn) (fst kn') = false)
    /\ (forall v,
          In v (column_cells series) -> cell_missing v = false ->
          (exists kn, In kn counts /\ cell_same (fst kn) v = true)
          \/ (length counts = 5%nat
              /\ forall kn, In kn counts ->
                   (occurrences v (column_cells series) <= snd kn)%nat)).
Proof.
  set (cells := column_cells series).
  destruct (value_counts_spec cells) as (Hsorted & Hapart & Hcount & Hcover & Hsum).
  exists (firstn 5 (value_counts cells)).
  split; [|split; [|split; [|split]]].
  - unfold top5_distribution, value_counts_normalize. cbv zeta. fold cells.
    rewrite Hsum, firstn_map, map_map. reflexivity.
  - rewrite length_firstn. lia.
  - intros kn Hkn. apply In_take in Hkn. destruct (Hcount kn Hkn) as [Hin Hn].
    apply List.filter_In in Hin as Hin'. destruct Hin' as [Hcell Hpresent].
    split; [exact Hcell|]. split; [by apply negb_true_iff|]. split; [exact Hn|].
    rewrite Hn. by apply occurrences_positive.
  - intros i j kn kn' Hij Hi Hj.
    apply lookup_take_Some in Hi as [Hi _]. apply lookup_take_Some in Hj as [Hj _].
    split; [apply (sorted_lookup _ i j kn kn' Hsorted Hij Hi Hj)|].
    apply (apart_lookup _ i j _ _ Hapart Hij); rewrite list_lookup_fmap;
      [by rewrite Hi|by rewrite Hj].
  - intros v Hv Hpresent.
    destruct (Hcover v) as (kn & Hkn & Hsame).
    { apply List.filter_In. split; [exact Hv|]. by rewrite Hpresent. }
    rewrite <- (take_drop 5 (value_counts cells)) in Hkn.
    apply in_app_iff in Hkn as [Hkn|Hkn]; [left; by exists kn|right].
    apply list_elem_of_In, list_elem_of_lookup in Hkn as [j Hj].
    rewrite lookup_drop in Hj.
    assert (5 <= length (value_counts cells))%nat as Hlen.
    { apply lookup_lt_Some in Hj. lia. }
    split; [rewrite length_take; lia|].
    intros kn' Hkn'. apply list_elem_of_In, list_elem_of_lookup in Hkn' as [i Hi].
    apply lookup_take_Some in Hi as [Hi Hlt].
    rewrite <- (occurrences_same (fst kn) v cells Hsame).
    destruct (Hcount kn) as [_ <-]; [apply list_elem_of_In; by apply list_elem_of_lookup_2 in Hj|].
    apply (sorted_lookup _ i (5 + j) kn' kn Hsorted); [lia|exact Hi|exact Hj].
Qed.

End ValueCounts.

(** ** The provenance manifest *)

Section ManifestFacts.
Context `{Provenance}.

Lemma key_is_eq (key : string) (k : pyval) : key_is key k = true <-> k = PStr key.
Proof.
  destruct k; cbn; try (split; [discriminate|intros E; discriminate E]).
  rewrite String.eqb_eq. split; [by intros ->|by intros [= ->]].
Qed.

Lemma dict_get_set (d : pydict) (key key' : string) (v : pyval) :
  dict_get (dict_set d key v) key'
  = if String.eqb key key' then Some v else dict_get d key'.
Proof.
  induction d as [|[k x] d IH]; cbn.
  - destruct (String.eqb_spec key key') as [->|Hne]; [reflexivity|].
    by destruct (String.eqb_spec key key').
  - destruct (key_is key k) eqn:Ek; cbn.
    + apply key_is_eq in Ek as ->. cbn.
      destruct (String.eqb_spec key key') as [->|Hne]; [reflexivity|reflexivity].
    + rewrite IH. destruct (key_is key' k) eqn:Ek'; [|reflexivity].
      apply key_is_eq in Ek' as ->. cbn in Ek.
      destruct (String.eqb_spec key key') as [->|Hne]; [|reflexivity].
      by rewrite String.eqb_refl in Ek.
Qed.

Lemma numeric_loop_step (df : DataFrame) (c : string) (rest : list string) (stats : pydict) :
  numeric_summary_loop df (c :: rest) stats
  = (series ← frame_getitem df c;
     entry ← numeric_entry series;
     numeric_summary_loop df rest (dict_set stats c entry)).
Proof.
  cbn [numeric_summary_loop]. unfold numeric_entry.
  destruct (frame_getitem df c) as [series|e]; [|reflexivity]. rsimpl.
  destruct (summary_min series); [|reflexivity]. rsimpl.
  destruct (summary_max series); [|reflexivity]. rsimpl.
  destruct (summary_mean series); [|reflexivity]. rsimpl.
  destruct (summary_std series); reflexivity.
Qed.

(** After the loop, every declared column has its entry, and the other
    keys of [stats] are as they were. *)
Lemma numeric_loop_entries (df : DataFrame) (cols : list string) (stats out : pydict) :
  numeric_summary_loop df cols stats = Ok out ->
  forall c,
    (In c cols ->
     exists series entry,
       frame_getitem df c = Ok series /\ numeric_entry series = Ok entry
       /\ dict_get out c = Some entry)
    /\ (~ In c cols -> dict_get out c = dict_get stats c).
Proof.
  revert stats. induction cols as [|c0 cols IH]; intros stats E c.
  - injection E as <-. split; [intros []|reflexivity].
  - rewrite numeric_loop_step in E.
    destruct (frame_getitem df c0) as [series|e] eqn:Eg; [|discriminate]. rsimpl_in E.
    destruct (numeric_entry series) as [entry|e] eqn:Ee; [|discriminate]. rsimpl_in E.
    destruct (IH _ E c) as [Hin Hout].
    destruct (in_dec String.string_dec c cols) as [Hc|Hc].
    + split; [intros _; by apply Hin|]. intros Hn. exfalso. apply Hn. by right.
    + split.
      * intros [->|Hc']; [|contradiction].
        exists series, entry. split; [assumption|]. split; [assumption|].
        rewrite (Hout Hc), dict_get_set. by rewrite String.eqb_refl.
      * intros Hn. rewrite (Hout Hc), dict_get_set.
        destruct (String.eqb_spec c0 c) as [->|Hne]; [|reflexivity].
        exfalso. apply Hn. by left.
Qed.

(** [d[key] = v] keeps the keys of [d] and adds [key] at the end when it is
    new. *)
Lemma dict_set_keys (d : pydict) (key : string) (v : pyval) :
  (In (PStr key) (map fst d) /\ map fst (dict_set d key v) = map fst d)
  \/ (~ In (PStr key) (map fst d) /\ map fst (dict_set d key v) = map fst d ++ [PStr key]).
Proof.
  induction d as [|[k x] d IH]; cbn.
  - right. split; [tauto|reflexivity].
  - destruct (key_is key k) eqn:Ek.
    + apply key_is_eq in Ek as ->. left. cbn. split; [by left|reflexivity].
    + assert (k <> PStr key) as Hk.
      { intros ->. assert (key_is key (PStr key) = true) as E by by apply key_is_eq.
        rewrite E in Ek. discriminate. }
      cbn. destruct IH as [[Hin ->]|[Hout ->]].
      * left. split; [by right|reflexivity].
      * right. split; [|reflexivity]. intros [E|E]; [by apply Hk|by apply Hout].
Qed.

Lemma dict_set_nodup (d : pydict) (key : string) (v : pyval) :
  NoDup (map fst d) -> NoDup (map fst (dict_set d key v)).
Proof.
  intros Hd. destruct (dict_set_keys d key v) as [[_ ->]|[Hout ->]]; [exact Hd|].
  apply NoDup_app. split; [exact Hd|]. split; [|apply NoDup_singleton].
  intros k Hk Hk'. apply list_elem_of_In in Hk. apply list_elem_of_In in Hk'.
  destruct Hk' as [<-|[]]. by apply Hout.
Qed.

Lemma dict_set_key_in (d : pydict) (key : string) (v : pyval) (k : pyval) :
  In k (map fst (dict_set d key v)) <-> In k (map fst d) \/ k = PStr key.
Proof.
  destruct (dict_set_keys d key v) as [[Hin ->]|[Hout ->]].
  - split; [by left|]. intros [E| ->]; assumption.
  - rewrite in_app_iff. cbn. split.
    + intros [E|[<-|[]]]; [by left|by right].
    + intros [E| ->]; [by left|right; by left].
Qed.

Lemma numeric_loop_keys (df : DataFrame) (cols : list string) (stats out : pydict) :
  numeric_summary_loop df cols stats = Ok out ->
  NoDup (map fst stats) ->
  NoDup (map fst out)
  /\ forall k, In k (map fst out)
               <-> In k (map fst stats) \/ exists c, In c cols /\ k = PStr c.
Proof.
  revert stats. induction cols as [|c0 cols IH]; intros stats E Hnd.
  - injection E as <-. split; [exact Hnd|]. intros k. split; [by left|].
    intros [E|(c & [] & _)]. exact E.
  - rewrite numeric_loop_step in E.
    destruct (frame_getitem df c0) as [series|e]; [|discriminate]. rsimpl_in E.
    destruct (numeric_entry series) as [entry|e]; [|discriminate]. rsimpl_in E.
    destruct (IH _ E (dict_set_nodup _ _ _ Hnd)) as [Hout Hkeys].
    split; [exact Hout|]. intros k. rewrite Hkeys, dict_set_key_in. split.
    + intros [[E'| ->]|(c & Hc & ->)]; [by left| |].
      * right. exists c0. split; [by left|reflexivity].
      * right. exists c. split; [by right|reflexivity].
    + intros [E'|(c & [<-|Hc] & ->)]; [by left; left|by left; right|].
      right. by exists c.
Qed.
Lemma categorical_loop_entries (df : DataFrame) (cols : list string) (stats out : pydict) :
  categorical_summary_loop df cols stats = Ok out ->
  forall c,
    (In c cols ->
     exists series,
       frame_getitem df c = Ok series
       /\ dict_get out c = Some (PDict (top5_distribution series)))
    /\ (~ In c cols -> dict_get out c = dict_get stats c).
Proof.
  revert stats. induction cols as [|c0 cols IH]; intros stats E c.
  - injection E as <-. split; [intros []|reflexivity].
  - cbn [categorical_summary_loop] in E.
    destruct (frame_getitem df c0) as [series|e] eqn:Eg; [|discriminate]. rsimpl_in E.
    destruct (IH _ E c) as [Hin Hout].
    destruct (in_dec String.string_dec c cols) as [Hc|Hc].
    + split; [intros _; by apply Hin|]. intros Hn. exfalso. apply Hn. by right.
    + split.
      * intros [->|Hc']; [|contradiction].
        exists series. split; [assumption|].
        rewrite (Hout Hc), dict_get_set. by rewrite String.eqb_refl.
      * intros Hn. rewrite (Hout Hc), dict_get_set.
        destruct (String.eqb_spec c0 c) as [->|Hne]; [|reflexivity].
        exfalso. apply Hn. by left.
Qed.

Lemma top5_at_most_five (series : column) :
  (length (top5_distribution series) <= 5)%nat.
Proof.
  unfold top5_distribution. rewrite length_map, length_firstn. lia.
Qed.

Lemma top5_of_empty (series : column) :
  column_length series = 0%nat -> top5_distribution series = [].
Proof.
  destruct series as [[|x xs]|[|x xs]]; cbn; intros E; try discriminate; reflexivity.
Qed.

(** The manifest a successful call returns, piece by piece. *)
Lemma build_manifest_ok
    (train_df test_df : DataFrame) (nums cats : list string) (m : pydict) :
  build_data_manifest train_df test_df nums cats = Ok m ->
  exists trn trc ten tec,
    numeric_summary_loop train_df nums [] = Ok trn
    /\ categorical_summary_loop train_df cats [] = Ok trc
    /\ numeric_summary_loop test_df nums [] = Ok ten
    /\ categorical_summary_loop test_df cats [] = Ok tec
    /\ m = [ item "train"
               (PDict [ item "rows" (PInt (Z.of_nat (nrows train_df)));
                        item "hash" (PStr (_hash_dataframe train_df));
                        item "numeric_stats" (PDict trn);
                        item "categorical_distribution" (PDict trc) ]);
             item "test"
               (PDict [ item "rows" (PInt (Z.of_nat (nrows test_df)));
                        item "hash" (PStr (_hash_dataframe test_df));
                        item "numeric_stats" (PDict ten);
                        item "categorical_distribution" (PDict tec) ]) ].
Proof.
  unfold build_data_manifest, _numeric_summary, _categorical_summary.
  destruct (numeric_summary_loop train_df nums []) as [trn|e]; [|discriminate]. rsimpl.
  destruct (categorical_summary_loop train_df cats []) as [trc|e]; [|discriminate]. rsimpl.
  destruct (numeric_summary_loop test_df nums []) as [ten|e]; [|discriminate]. rsimpl.
  destruct (categorical_summary_loop test_df cats []) as [tec|e]; [|discriminate]. rsimpl.
  intros E. injection E as <-. by exists trn, trc, ten, tec.
Qed.

(** X1. A manifest that is returned records the row count of each split
    and, for every declared categorical column and each split, the
    distribution of that column: at most five entries, one per value, each
    a present value of the column with its number of occurrences over the
    number of present rows; the entries come in decreasing order of count,
    their values differ pairwise, and a present value that has no entry
    occurs at most as often as every value that has one.  A column without
    rows has an empty distribution. *)
Theorem manifest_categorical_top5
    (train_df test_df : DataFrame) (nums cats : list string) (m : pydict)
    (split : string) (df : DataFrame) :
  build_data_manifest train_df test_df nums cats = Ok m ->
  (split = "train" /\ df = train_df) \/ (split = "test" /\ df = test_df) ->
  dict_path (PDict m) [split; "rows"] = Some (PInt (Z.of_nat (nrows df)))
  /\ forall c, In c cats ->
       exists (series : column) (counts : list (cell * nat)),
         frame_getitem df c = Ok series
         /\ dict_path (PDict m) [split; "categorical_distribution"; c]
            = Some (PDict
                      (map (fun kn =>
                              (cell_value (fst kn),
                               PFloat (F64.div (F64.of_Z (Z.of_nat (snd kn)))
                                         (F64.of_Z
                                            (Z.of_nat
                                               (length
                                                  (present_cells (column_cells series))))))))
                           counts))
         /\ (length counts <= 5)%nat
         /\ (forall kn, In kn counts ->
               In (fst kn) (column_cells series)
               /\ cell_missing (fst kn) = false
               /\ snd kn = occurrences (fst kn) (column_cells series)
               /\ (1 <= snd kn)%nat)
         /\ (forall i j kn kn',
               (i < j)%nat -> counts !! i = Some kn -> counts !! j = Some kn' ->
               (snd kn' <= snd kn)%nat /\ cell_same (fst kn) (fst kn') = false)
         /\ (forall v,
               In v (column_cells series) -> cell_missing v = false ->
               (exists kn, In kn counts /\ cell_same (fst kn) v = true)
               \/ (length counts = 5%nat
                   /\ forall kn, In kn counts ->
                        (occurrences v (column_cells series) <= snd kn)%nat))
         /\ (column_length series = 0%nat -> counts = []).
Proof.
  intros E Hsplit. destruct (build_manifest_ok _ _ _ _ _ E)
    as (trn & trc & ten & tec & _ & Htrc & _ & Htec & ->).
  assert (exists out, categorical_summary_loop df cats [] = Ok out
                      /\ dict_path
                           (PDict
                              [ item "train"
                                  (PDict [ item "rows" (PInt (Z.of_nat (nrows train_df)));
                                           item "hash" (PStr (_hash_dataframe train_df));
                                           item "numeric_stats" (PDict trn);
                                           item "categorical_distribution" (PDict trc) ]);
                                item "test"
                                  (PDict [ item "rows" (PInt (Z.of_nat (nrows test_df)));
                                           item "hash" (PStr (_hash_dataframe test_df));
                                           item "numeric_stats" (PDict ten);
                                           item "categorical_distribution" (PDict tec) ]) ])
                           [split; "rows"]
                         = Some (PInt (Z.of_nat (nrows df)))
                      /\ forall c,
                          dict_path
                            (PDict
                               [ item "train"
                                   (PDict [ item "rows" (PInt (Z.of_nat (nrows train_df)));
                                            item "hash" (PStr (_hash_dataframe train_df));
                                            item "numeric_stats" (PDict trn);
                                            item "categorical_distribution" (PDict trc) ]);
                                 item "test"
                                   (PDict [ item "rows" (PInt (Z.of_nat (nrows test_df)));
                                            item "hash" (PStr (_hash_dataframe test_df));
                                            item "numeric_stats" (PDict ten);
                                            item "categorical_distribution" (PDict tec) ]) ])
                            [split; "categorical_distribution"; c]
                          = dict_get out c) as (out & Hout & Hrows & Hpath).
  { destruct Hsplit as [[-> ->]|[-> ->]]; eexists; (split; [eassumption|]);
      (split; [reflexivity|]); intros c; cbn; by destruct (dict_get _ c). }
  split; [exact Hrows|]. intros c Hc.
  destruct (proj1 (categorical_loop_entries _ _ _ _ Hout c) Hc) as (series & Hs & Hd).
  destruct (top5_spec series) as (counts & Htop & Hlen & Hcount & Horder & Hmost).
  exists series, counts. split; [exact Hs|].
  split; [by rewrite Hpath, Hd, Htop|].
  split; [exact Hlen|]. split; [exact Hcount|]. split; [exact Horder|].
  split; [exact Hmost|].
  intros Hempty. rewrite (top5_of_empty series Hempty) in Htop.
  symmetry in Htop. by apply map_eq_nil in Htop.
Qed.

(** X2. A manifest that is returned has, for each split, a [numeric_stats]
    dict whose keys are the declared numeric columns, each of them once even
    when it is declared twice, and whose entry for a column holds the four
    statistics of that column in that split: min, max, mean and population
    standard deviation. *)
Theorem manifest_numeric_stats
    (train_df test_df : DataFrame) (nums cats : list string) (m : pydict)
    (split : string) (df : DataFrame) :
  build_data_manifest train_df test_df nums cats = Ok m ->
  (split = "train" /\ df = train_df) \/ (split = "test" /\ df = test_df) ->
  exists stats,
    dict_path (PDict m) [split; "numeric_stats"] = Some (PDict stats)
    /\ NoDup (map fst stats)
    /\ (forall k, In k (map fst stats) <-> exists c, In c nums /\ k = PStr c)
    /\ forall c, In c nums ->
         exists series lo hi avg sd,
           frame_getitem df c = Ok series
           /\ summary_min series = Ok lo /\ summary_max series = Ok hi
           /\ summary_mean series = Ok avg /\ summary_std series = Ok sd
           /\ dict_path (PDict m) [split; "numeric_stats"; c]
              = Some (PDict [ item "min" (PFloat lo); item "max" (PFloat hi);
                              item "mean" (PFloat avg); item "std" (PFloat sd) ]).
Proof.
  intros E Hsplit. destruct (build_manifest_ok _ _ _ _ _ E)
    as (trn & trc & ten & tec & Htrn & _ & Hten & _ & ->).
  assert (exists out, numeric_summary_loop df nums [] = Ok out
                      /\ dict_path
                           (PDict
                              [ item "train"
                                  (PDict [ item "rows" (PInt (Z.of_nat (nrows train_df)));
                                           item "hash" (PStr (_hash_dataframe train_df));
                                           item "numeric_stats" (PDict trn);
                                           item "categorical_distribution" (PDict trc) ]);
                                item "test"
                                  (PDict [ item "rows" (PInt (Z.of_nat (nrows test_df)));
                                           item "hash" (PStr (_hash_dataframe test_df));
                                           item "numeric_stats" (PDict ten);
                                           item "categorical_distribution" (PDict tec) ]) ])
                           [split; "numeric_stats"]
                         = Some (PDict out)
                      /\ forall c,
                          dict_path
                            (PDict
                               [ item "train"
                                   (PDict [ item "rows" (PInt (Z.of_nat (nrows train_df)));
                                            item "hash" (PStr (_hash_dataframe train_df));
                                            item "numeric_stats" (PDict trn);
                                            item "categorical_distribution" (PDict trc) ]);
                                 item "test"
                                   (PDict [ item "rows" (PInt (Z.of_nat (nrows test_df)));
                                            item "hash" (PStr (_hash_dataframe test_df));
                                            item "numeric_stats" (PDict ten);
                                            item "categorical_distribution" (PDict tec) ]) ])
                            [split; "numeric_stats"; c]
                          = dict_get out c) as (out & Hout & Hpath & Hpathc).
  { destruct Hsplit as [[-> ->]|[-> ->]]; eexists; (split; [eassumption|]);
      (split; [reflexivity|]); intros c; cbn; by destruct (dict_get _ c). }
  exists out. split; [exact Hpath|].
  destruct (numeric_loop_keys _ _ _ _ Hout (NoDup_nil_2 : NoDup (map fst []))) as [Hnd Hkeys].
  split; [exact Hnd|]. split.
  { intros k. rewrite Hkeys. cbn. tauto. }
  intros c Hc.
  destruct (proj1 (numeric_loop_entries _ _ _ _ Hout c) Hc) as (series & entry & Hs & He & Hd).
  unfold numeric_entry in He.
  destruct (summary_min series) as [lo|e] eqn:Elo; [|discriminate]. rsimpl_in He.
  destruct (summary_max series) as [hi|e] eqn:Ehi; [|discriminate]. rsimpl_in He.
  destruct (summary_mean series) as [avg|e] eqn:Eavg; [|discriminate]. rsimpl_in He.
  destruct (summary_std series) as [sd|e] eqn:Esd; [|discriminate]. rsimpl_in He.
  injection He as <-. exists series, lo, hi, avg, sd.
  repeat (split; [assumption|]). by rewrite Hpathc.
Qed.

(** X3. No manifest is returned unless every declared numeric and
    categorical column exists in both splits; and when the first declared
    numeric column is missing from the training split, the call raises
    [KeyError] on that column, whatever the rest of the input. *)
Theorem manifest_requires_columns
    (train_df test_df : DataFrame) (nums cats : list string) :
  (forall m,
      build_data_manifest train_df test_df nums cats = Ok m ->
      forall c, In c (nums ++ cats) ->
        is_Some (find_column (columns train_df) c)
        /\ is_Some (find_column (columns test_df) c))
  /\ (forall c rest,
        nums = c :: rest -> find_column (columns train_df) c = None ->
        build_data_manifest train_df test_df nums cats = Raise (KeyError (PStr c))).
Proof.
  split.
  - intros m E c Hc. destruct (build_manifest_ok _ _ _ _ _ E)
      as (trn & trc & ten & tec & Htrn & Htrc & Hten & Htec & _).
    assert (forall df series, frame_getitem df c = Ok series ->
                              is_Some (find_column (columns df) c)) as Hfind.
    { intros df series. unfold frame_getitem.
      destruct (find_column (columns df) c); [eauto|discriminate]. }
    apply in_app_or in Hc as [Hc|Hc].
    + destruct (proj1 (numeric_loop_entries _ _ _ _ Htrn c) Hc) as (s1 & _ & Hs1 & _).
      destruct (proj1 (numeric_loop_entries _ _ _ _ Hten c) Hc) as (s2 & _ & Hs2 & _).
      eauto.
    + destruct (proj1 (categorical_loop_entries _ _ _ _ Htrc c) Hc) as (s1 & Hs1 & _).
      destruct (proj1 (categorical_loop_entries _ _ _ _ Htec c) Hc) as (s2 & Hs2 & _).
      eauto.
  - intros c rest -> Hmiss.
    unfold build_data_manifest, _numeric_summary. cbn [numeric_summary_loop].
    unfold frame_getitem. rewrite Hmiss. reflexivity.
Qed.

(** X4. The two halves of the manifest are built the same way and
    independently: when a call returns, the call with the two splits
    exchanged returns too, with the two entries exchanged. *)
Theorem manifest_swap
    (train_df test_df : DataFrame) (nums cats : list string) (m : pydict) :
  build_data_manifest train_df test_df nums cats = Ok m ->
  exists m',
    build_data_manifest test_df train_df nums cats = Ok m'
    /\ dict_get m' "train" = dict_get m "test"
    /\ dict_get m' "test" = dict_get m "train".
Proof.
  intros E. destruct (build_manifest_ok _ _ _ _ _ E)
    as (trn & trc & ten & tec & Htrn & Htrc & Hten & Htec & ->).
  unfold build_data_manifest, _numeric_summary, _categorical_summary.
  rewrite Hten. rsimpl. rewrite Htec. rsimpl. rewrite Htrn. rsimpl. rewrite Htrc. rsimpl.
  eexists. split; [reflexivity|]. split; reflexivity.
Qed.

End ManifestFacts.

Lemma manifest_categorical_top5_witness :
  exists m counts,
    build_data_manifest (H := RefManifest.provenance)
      small_split empty_split ["amount"] ["label"] = Ok m
    /\ dict_path (PDict m) ["train"; "rows"] = Some (PInt 4)
    /\ dict_path (PDict m) ["train"; "categorical_distribution"; "label"]
       = Some (PDict
                 (map (fun kn =>
                         (cell_value (fst kn),
                          PFloat (F64.div (F64.of_Z (Z.of_nat (snd kn))) (F64.of_Z 4))))
                      counts))
    /\ (length counts <= 5)%nat
    /\ dict_path (PDict m) ["train"; "categorical_distribution"; "label"]
       = Some (PDict [ (PStr "yes", PFloat (F64.lit 1 2));
                       (PStr "no", PFloat (F64.lit 1 2)) ]).
Proof.
  edestruct (manifest_categorical_top5 (H := RefManifest.provenance)
               small_split empty_split ["amount"] ["label"] _ "train" small_split
               eq_refl (or_introl (conj eq_refl eq_refl)))
    as (Hrows & Hcats).
  destruct (Hcats "label" (or_introl eq_refl))
    as (series & counts & Hseries & Hpath & Hlen & _).
  injection Hseries as <-.
  eexists _, counts. split; [reflexivity|]. split; [exact Hrows|].
  split; [exact Hpath|]. split; [exact Hlen|]. reflexivity.
Defined.

Lemma manifest_numeric_stats_witness :
  exists m stats entry,
    build_data_manifest (H := RefManifest.provenance)
      small_split constant_split ["amount"; "amount"] ["label"] = Ok m
    /\ dict_path (PDict m) ["test"; "numeric_stats"] = Some (PDict stats)
    /\ map fst stats = [PStr "amount"]
    /\ dict_path (PDict m) ["test"; "numeric_stats"; "amount"] = Some entry.
Proof.
  edestruct (manifest_numeric_stats (H := RefManifest.provenance)
               small_split constant_split ["amount"; "amount"] ["label"] _
               "test" constant_split
               eq_refl (or_intror (conj eq_refl eq_refl)))
    as (stats & Hstats & _ & _ & Hentry).
  destruct (Hentry "amount" (or_introl eq_refl))
    as (series & lo & hi & avg & sd & _ & _ & _ & _ & _ & Hpath).
  eexists _, stats, _. split; [reflexivity|]. split; [exact Hstats|].
  split; [|exact Hpath].
  vm_compute in Hstats. injection Hstats as <-. reflexivity.
Defined.

Lemma manifest_requires_columns_witness :
  is_Some (find_column (columns constant_split) "amount")
  /\ build_data_manifest (H := RefManifest.provenance)
       small_split constant_split ["age"; "amount"] ["label"]
     = Raise (KeyError (PStr "age")).
Proof.
  split.
  - edestruct (proj1 (manifest_requires_columns (H := RefManifest.provenance)
                        small_split constant_split ["amount"] ["label"])
                 _ eq_refl "amount" (or_introl eq_refl)) as [_ Htest].
    exact Htest.
  - apply (proj2 (manifest_requires_columns (H := RefManifest.provenance)
                    small_split constant_split ["age"; "amount"] ["label"])
             "age" ["amount"] eq_refl eq_refl).
Defined.

Lemma manifest_swap_witness :
  exists m',
    build_data_manifest (H := RefManifest.provenance)
      constant_split small_split ["amount"] ["label"] = Ok m'
    /\ dict_path (PDict m') ["train"; "rows"] = Some (PInt 4).
Proof.
  edestruct (manifest_swap (H := RefManifest.provenance)
               small_split constant_split ["amount"] ["label"] _ eq_refl)
    as (m' & Hrun & _ & _).
  exists m'. split; [exact Hrun|].
  vm_compute in Hrun. injection Hrun as <-. reflexivity.
Defined.

(** ** More on the stress tester *)

Section CoreLogic.
Context `{Numerics} `{TrainedModel} `{RandomSource}.

Lemma wp_bind {A B} (m : SE local A) (k : A -> SE local B)
    (Q : B -> local -> Prop) (E : local -> Prop) (s : local) :
  wp m (fun a s' => wp (k a) Q E s') E s -> wp (m ≫= k) Q E s.
Proof.
  unfold wp, mbind, se_mbind, se_bind. by destruct (m s) as [[a|e] s'].
Qed.

Lemma wp_ret {A} (a : A) (Q : A -> local -> Prop) (E : local -> Prop) (s : local) :
  Q a s -> wp (mret a) Q E s.
Proof. by unfold wp. Qed.

Lemma wp_se_ret {A} (a : A) (Q : A -> local -> Prop) (E : local -> Prop) (s : local) :
  Q a s -> wp (se_ret a) Q E s.
Proof. by unfold wp. Qed.

Lemma wp_lift {A} (r : result A) (Q : A -> local -> Prop) (E : local -> Prop) (s : local) :
  match r with Ok a => Q a s | Raise _ => E s end -> wp (se_lift r) Q E s.
Proof. unfold wp, se_lift. by destruct r. Qed.

Lemma wp_get (Q : DataFrame -> local -> Prop) (E : local -> Prop) (s : local) :
  Q (pert s) s -> wp get_pert Q E s.
Proof. by unfold wp. Qed.

Lemma wp_put (df : DataFrame) (Q : unit -> local -> Prop) (E : local -> Prop) (s : local) :
  Q tt (mkLocal df (gen s)) -> wp (put_pert df) Q E s.
Proof. by unfold wp. Qed.

Lemma wp_draw {A} (sample : bitgen -> A * bitgen)
    (Q : A -> local -> Prop) (E : local -> Prop) (s : local) :
  Q (fst (sample (gen s))) (mkLocal (pert s) (snd (sample (gen s)))) ->
  wp (draw_local sample) Q E s.
Proof. unfold wp, draw_local. by destruct (sample (gen s)). Qed.

Lemma wp_mono {A} (m : SE local A) (Q Q' : A -> local -> Prop) (E E' : local -> Prop)
    (s : local) :
  wp m Q' E' s -> (forall a s', Q' a s' -> Q a s') -> (forall s', E' s' -> E s') ->
  wp m Q E s.
Proof.
  unfold wp. destruct (m s) as [[a|e] s']; intros Hm HQ HE; [by apply HQ|by apply HE].
Qed.

Lemma find_column_replace_other (cs : list (string * column)) (key k : string) (c : column) :
  key <> k -> find_column (replace_column cs key c) k = find_column cs k.
Proof.
  intros Hne. induction cs as [|[k0 c0] cs IH]; cbn.
  - by destruct (String.eqb_spec key k).
  - destruct (String.eqb_spec k0 key) as [->|Hk0]; cbn.
    + by destruct (String.eqb_spec key k).
    + by rewrite IH.
Qed.

Lemma find_column_replace_same (cs : list (string * column)) (key : string) (c : column) :
  find_column (replace_column cs key c) key = Some c.
Proof.
  induction cs as [|[k0 c0] cs IH]; cbn.
  - by rewrite String.eqb_refl.
  - destruct (String.eqb_spec k0 key) as [->|Hk0]; cbn.
    + by rewrite String.eqb_refl.
    + by destruct (String.eqb_spec k0 key).
Qed.

Lemma copy_keeps_setitem (original df : DataFrame) (changed : list string)
    (key0 : string) (c : column) :
  copy_keeps original changed df ->
  In key0 changed ->
  copy_keeps original changed (frame_setitem df key0 c).
Proof.
  intros [Hrows Hcols] Hkey0. split; [exact Hrows|].
  intros key Hkey. cbn [frame_setitem columns].
  rewrite find_column_replace_other; [by apply Hcols|].
  by intros ->.
Qed.

Lemma copy_keeps_more (original df : DataFrame) (changed changed' : list string) :
  copy_keeps original changed df ->
  (forall key, In key changed -> In key changed') ->
  copy_keeps original changed' df.
Proof.
  intros [Hrows Hcols] Hsub. split; [exact Hrows|].
  intros key Hkey. apply Hcols. intros Hin. by apply Hkey, Hsub.
Qed.

Lemma wp_perturb_core (original : DataFrame) (nums : list string)
    (noise : nat -> nat -> F64.t) (rows idx : nat) (cols : list string) (s : local) :
  (forall c, In c cols -> In c nums) ->
  copy_keeps original nums (pert s) ->
  wp (perturb_core noise rows idx cols)
     (fun _ s' => copy_keeps original nums (pert s') /\ gen s' = gen s)
     (fun s' => copy_keeps original nums (pert s') /\ gen s' = gen s) s.
Proof.
  revert idx s. induction cols as [|c cols IH]; intros idx s Hsub Hkeeps;
    cbn [perturb_core].
  - by apply wp_ret.
  - apply wp_bind, wp_get. apply wp_bind, wp_lift.
    destruct (frame_getitem (pert s) c) as [col|e]; [|done].
    apply wp_bind, wp_lift.
    destruct (series_add col _) as [summed|e]; [|done].
    apply wp_bind, wp_put.
    apply (IH (S idx) (mkLocal (frame_setitem (pert s) c summed) (gen s))).
    + intros c' Hc'. apply Hsub. by right.
    + cbn [pert]. apply copy_keeps_setitem; [exact Hkeeps|]. apply Hsub. by left.
Qed.

Lemma mask_sum_le (mask : list bool) : (mask_sum mask <= length mask)%nat.
Proof.
  unfold mask_sum. induction mask as [|[] mask IH]; cbn; lia.
Qed.

Lemma frame_mask_rows (df : DataFrame) (mask : list bool) :
  length mask = nrows df -> nrows (frame_mask df mask) = mask_sum mask.
Proof. intros E. cbn. by rewrite <- E, firstn_all. Qed.

Lemma trigger_mask_length (u : nat -> F64.t) (rows : nat) :
  length (map (fun i => F64.ltb (u i) f_0_3) (seq 0 rows)) = rows.
Proof. by rewrite length_map, length_seq. Qed.

Lemma text_append_obj (mask : list bool) (c c' : column) (suffix : string) :
  text_append mask c suffix = Ok c' ->
  exists texts, c = ObjCol texts /\ c' = ObjCol (append_where mask texts suffix).
Proof.
  destruct c as [xs|xs]; cbn; [discriminate|]. intros [= <-]. eauto.
Qed.

(** Whatever the core does, the copy keeps its row count and the columns
    that are neither numeric nor the text column; and when it returns, the
    RiskScore has the shape of [evasion_report] for the mask under which the
    trigger phrase was planted. *)
Lemma core_post
    (original : DataFrame) (label_column : string) (numeric_columns : list string)
    (text_column : string) (baseline_accuracy epsilon : F64.t)
    (trigger_phrase : string) (s : local) :
  pert s = original ->
  wp (stress_core original label_column numeric_columns text_column
        baseline_accuracy epsilon trigger_phrase)
     (fun risk s' =>
        copy_keeps original (text_column :: numeric_columns) (pert s')
        /\ exists mask,
             evasion_report original baseline_accuracy mask risk
             /\ (~ In text_column numeric_columns ->
                 text_planted original text_column trigger_phrase mask (pert s')))
     (fun s' => copy_keeps original (text_column :: numeric_columns) (pert s')) s.
Proof.
  intros Hstart.
  assert (copy_keeps original numeric_columns (pert s)) as Hkeeps
    by (rewrite Hstart; by split).
  assert (forall df, copy_keeps original numeric_columns df ->
                     copy_keeps original (text_column :: numeric_columns) df) as Hmore
    by (intros df Hdf; apply (copy_keeps_more _ _ _ _ Hdf); intros; by right).
  unfold stress_core. cbv zeta.
  apply wp_bind, wp_se_ret. apply wp_bind, wp_lift.
  destruct (frame_select original numeric_columns) as [selected|e]; [|by apply Hmore].
  apply wp_bind, wp_lift.
  destruct (frame_std selected) as [stds|e]; [|by apply Hmore].
  apply wp_bind, wp_draw. apply wp_bind.
  eapply wp_mono;
    [apply (wp_perturb_core original numeric_columns); [done|exact Hkeeps]
    | |intros s' [? _]; by apply Hmore].
  intros _ s1 [Hkeeps1 _]. cbv beta.
  apply wp_bind, wp_get. apply wp_bind, wp_draw. apply wp_bind, wp_lift.
  cbn [pert].
  destruct (frame_getitem (pert s1) text_column) as [text|e] eqn:Etext;
    [|by apply Hmore].
  set (mask := map (fun i => F64.ltb (fst (rng_random (nrows (pert s1)) (gen s1)) i) f_0_3)
                   (seq 0 (nrows (pert s1)))).
  apply wp_bind, wp_lift.
  destruct (text_append mask text _) as [text'|e] eqn:Eappend; [|by apply Hmore].
  apply wp_bind, wp_put. apply wp_bind, wp_get. cbn [pert].
  assert (copy_keeps original (text_column :: numeric_columns)
            (frame_setitem (pert s1) text_column text')) as Hkeeps2
    by (apply copy_keeps_setitem; [by apply Hmore|by left]).
  assert (length mask = nrows original) as Hlen.
  { destruct Hkeeps1 as [<- _]. apply trigger_mask_length. }
  assert (~ In text_column numeric_columns ->
          text_planted original text_column trigger_phrase mask
            (frame_setitem (pert s1) text_column text')) as Hplanted.
  { intros Hnot. destruct (text_append_obj _ _ _ _ Eappend) as (texts & -> & ->).
    exists texts. split.
    - unfold frame_getitem in *. destruct Hkeeps1 as [_ Hcols].
      by rewrite <- (Hcols text_column Hnot).
    - unfold frame_getitem. cbn [frame_setitem columns].
      by rewrite find_column_replace_same. }
  apply wp_bind, wp_lift.
  destruct (frame_drop _ label_column) as [features|e]; [|done].
  apply wp_bind, wp_lift.
  destruct (frame_getitem _ label_column) as [labels|e]; [|done].
  apply wp_bind, wp_lift.
  destruct (model_call (predict features)) as [preds|e]; [|done].
  apply wp_bind, wp_lift.
  destruct (library_call (accuracy_score (column_cells labels) preds)) as [adv|e]; [|done].
  apply wp_bind.
  destruct (negb (frame_empty (frame_mask _ mask))) eqn:Hempty.
  - apply wp_bind, wp_lift. destruct (frame_drop _ label_column) as [tf|e]; [|done].
    apply wp_bind, wp_lift. destruct (model_call (predict tf)) as [tp|e]; [|done].
    apply wp_bind, wp_lift. destruct (frame_getitem _ label_column) as [tl|e]; [|done].
    apply wp_bind, wp_lift. destruct (compare_ne tp _) as [missed|e]; [|done].
    apply wp_ret, wp_ret. split; [exact Hkeeps2|]. exists mask. split; [|exact Hplanted].
    eexists adv, _. split; [reflexivity|]. split; [exact Hlen|].
    intros Hzero. exfalso. apply negb_true_iff in Hempty.
    unfold frame_empty in Hempty. apply orb_false_elim in Hempty as [Hrows _].
    rewrite frame_mask_rows in Hrows
      by (destruct Hkeeps2 as [-> _]; exact Hlen).
    rewrite Hzero in Hrows. discriminate.
  - apply wp_ret, wp_ret. split; [exact Hkeeps2|]. exists mask. split; [|exact Hplanted].
    eexists adv, _. split; [reflexivity|]. split; [exact Hlen|]. done.
Qed.

End CoreLogic.

Section StressMore.
Context `{Numerics} `{TrainedModel} `{RandomSource}.

(** Any call, with or without a generator, is the core run on a copy of
    the frame: the copy is the object at the first free reference. *)
Lemma run_as_core
    (w : world) (test_df : loc) (rng : option loc) (df : DataFrame)
    (label_column : string) (numeric_columns : list string) (text_column : string)
    (baseline_accuracy epsilon : F64.t) (trigger_phrase : string) :
  frames w !! test_df = Some df ->
  (forall r, rng = Some r -> is_Some (generators w !! r)) ->
  exists (base : world) (r : loc) (g : bitgen),
    frames base = frames w
    /\ (rng = Some r \/ rng = None)
    /\ (rng = Some r -> base = w /\ generators w !! r = Some g)
    /\ run_adversarial_stress_test test_df label_column numeric_columns text_column
         baseline_accuracy epsilon trigger_phrase rng w
       = (fst (stress_core df label_column numeric_columns text_column
                 baseline_accuracy epsilon trigger_phrase (mkLocal df g)),
          embed base (fresh (dom (frames w))) r
            (snd (stress_core df label_column numeric_columns text_column
                    baseline_accuracy epsilon trigger_phrase (mkLocal df g)))).
Proof.
  intros Hdf Hrng. destruct rng as [r|].
  - destruct (Hrng r eq_refl) as [g Hg]. exists w, r, g.
    split; [reflexivity|]. split; [by left|]. split; [done|].
    by apply run_with_generator.
  - exists (mkWorld (frames w)
              (<[fresh (dom (generators w)) := default_rng 42]> (generators w))),
      (fresh (dom (generators w))), (default_rng 42).
    split; [reflexivity|]. split; [by right|]. split; [discriminate|].
    rewrite run_without_generator.
    apply (run_with_generator
             (mkWorld (frames w)
                (<[fresh (dom (generators w)) := default_rng 42]> (generators w))));
      [exact Hdf|cbn [generators]; apply lookup_insert_eq].
Qed.

(** The outcome of any call satisfies the postcondition of the core. *)
Lemma run_post
    (w : world) (test_df : loc) (rng : option loc) (df : DataFrame)
    (label_column : string) (numeric_columns : list string) (text_column : string)
    (baseline_accuracy epsilon : F64.t) (trigger_phrase : string) :
  frames w !! test_df = Some df ->
  (forall r, rng = Some r -> is_Some (generators w !! r)) ->
  let out := run_adversarial_stress_test test_df label_column numeric_columns
               text_column baseline_accuracy epsilon trigger_phrase rng w in
  exists copy,
    frames (snd out) !! fresh (dom (frames w)) = Some copy
    /\ copy_keeps df (text_column :: numeric_columns) copy
    /\ forall risk, fst out = Ok risk ->
         exists mask,
           evasion_report df baseline_accuracy mask risk
           /\ (~ In text_column numeric_columns ->
               text_planted df text_column trigger_phrase mask copy).
Proof.
  intros Hdf Hrng out. subst out.
  destruct (run_as_core w test_df rng df label_column numeric_columns text_column
              baseline_accuracy epsilon trigger_phrase Hdf Hrng)
    as (base & r & g & _ & _ & _ & ->).
  pose proof (core_post df label_column numeric_columns text_column baseline_accuracy
                epsilon trigger_phrase (mkLocal df g) eq_refl) as Hwp.
  unfold wp in Hwp. cbn [fst snd]. unfold embed. cbn [frames].
  rewrite lookup_insert_eq.
  destruct (stress_core _ _ _ _ _ _ _ _) as [[risk|e] s'] eqn:Ecore; cbn [fst snd].
  - destruct Hwp as [Hkeeps Hreport]. exists (pert s'). split; [reflexivity|].
    split; [exact Hkeeps|]. by intros ? [= <-].
  - exists (pert s'). split; [reflexivity|]. split; [exact Hwp|]. discriminate.
Qed.

End StressMore.

(** ** The noise on the copy *)

Section NoiseApplied.
Context `{Numerics} `{TrainedModel} `{RandomSource}.

Lemma numeric_in_float (df : DataFrame) (c : string) :
  numeric_in df c = true -> exists xs, find_column (columns df) c = Some (FloatCol xs).
Proof.
  unfold numeric_in. destruct (find_column (columns df) c) as [[xs|xs]|]; try discriminate.
  eauto.
Qed.

(** The loop over columns that are numeric in the copy: it ends normally,
    leaves the generator alone, keeps the rows and the other columns, and,
    the columns being distinct, leaves in each of them its values plus its
    column of the noise. *)
Lemma perturb_core_adds (noise : nat -> nat -> F64.t) (rows idx : nat)
    (cols : list string) (s : local) :
  (forall c, In c cols -> numeric_in (pert s) c = true) ->
  exists df',
    perturb_core noise rows idx cols s = (Ok tt, mkLocal df' (gen s))
    /\ nrows df' = nrows (pert s)
    /\ (forall key, ~ In key cols ->
          find_column (columns df') key = find_column (columns (pert s)) key)
    /\ (forall c, numeric_in (pert s) c = true -> numeric_in df' c = true)
    /\ (NoDup cols ->
        forall k c, cols !! k = Some c ->
          exists xs,
            find_column (columns (pert s)) c = Some (FloatCol xs)
            /\ find_column (columns df') c
               = Some (FloatCol (add_arrays xs (map (fun i => noise i (idx + k)%nat)
                                                    (seq 0 rows))))).
Proof.
  revert idx s. induction cols as [|c cols IH]; intros idx s Hnum.
  - exists (pert s). destruct s as [p g]. cbn. repeat split; try done.
  - destruct (numeric_in_float (pert s) c (Hnum c (or_introl eq_refl))) as [xs Hxs].
    set (summed := FloatCol (add_arrays xs (map (fun i => noise i idx) (seq 0 rows)))).
    set (s1 := mkLocal (frame_setitem (pert s) c summed) (gen s)).
    assert (forall c', numeric_in (pert s) c' = true -> numeric_in (pert s1) c' = true)
      as Hkeep.
    { intros c' Hc'. unfold numeric_in, s1. cbn [pert frame_setitem columns].
      destruct (String.eqb_spec c c') as [<-|Hne].
      - by rewrite find_column_replace_same.
      - by rewrite find_column_replace_other. }
    destruct (IH (S idx) s1) as (df' & Hrun & Hrows & Hother & Hnumeric & Hvals).
    { intros c' Hc'. apply Hkeep, Hnum. by right. }
    exists df'. split; [|split; [|split; [|split]]].
    + cbn [perturb_core]. unfold mbind, se_mbind, se_bind, get_pert, se_lift, put_pert.
      unfold frame_getitem. rewrite Hxs. cbn [series_add]. exact Hrun.
    + rewrite Hrows. reflexivity.
    + intros key Hkey. rewrite Hother by (intros E; apply Hkey; by right).
      unfold s1. cbn [pert frame_setitem columns].
      apply find_column_replace_other. intros ->. apply Hkey. by left.
    + intros c' Hc'. by apply Hnumeric, Hkeep.
    + intros Hnd k c' Hk. apply NoDup_cons in Hnd as [Hc Hnd].
      destruct k as [|k]; cbn in Hk.
      * injection Hk as <-. exists xs. split; [exact Hxs|].
        rewrite Hother by (intros E; apply Hc; by apply list_elem_of_In).
        unfold s1. cbn [pert frame_setitem columns].
        rewrite find_column_replace_same. unfold summed. by rewrite Nat.add_0_r.
      * destruct (Hvals Hnd k c' Hk) as (xs' & Hxs' & Hnew).
        exists xs'. split.
        -- rewrite <- Hxs'. unfold s1. cbn [pert frame_setitem columns]. symmetry.
           apply find_column_replace_other. intros ->. apply Hc.
           by apply list_elem_of_lookup_2 in Hk.
        -- rewrite Hnew. by rewrite Nat.add_succ_r.
Qed.


Lemma column_stds_numeric (df : DataFrame) (cols : list string) (stds : list F64.t) :
  column_stds df cols = Ok stds ->
  length stds = length cols
  /\ (forall c, In c cols -> numeric_in df c = true)
  /\ forall k c, cols !! k = Some c ->
       exists xs, numeric_series df c = Ok xs /\ stds !! k = Some (series_std xs).
Proof.
  unfold column_stds. revert stds. induction cols as [|c cols IH]; intros stds.
  - intros [= <-]. split; [reflexivity|]. split; [intros c []|]. intros k c Hk. discriminate Hk.
  - rewrite mapM_cons.
    destruct (numeric_series df c) as [xs|e] eqn:Exs; rsimpl; [|discriminate].
    destruct (mapM _ cols) as [rest|e]; rsimpl; [|discriminate].
    intros [= <-]. destruct (IH rest eq_refl) as (Hlen & Hnum & Hstd).
    split; [cbn; by rewrite Hlen|]. split.
    + intros c' [<-|Hc']; [|by apply Hnum].
      unfold numeric_series, frame_getitem in Exs. unfold numeric_in.
      destruct (find_column (columns df) c) as [[ys|ys]|]; try discriminate Exs. reflexivity.
    + intros [|k] c' Hk; cbn in Hk.
      * injection Hk as <-. exists xs. by split.
      * by apply Hstd.
Qed.

(** What the core leaves behind once the declared columns are numeric
    columns of the split, whether it returns or raises later on. *)
Lemma core_noise
    (df : DataFrame) (label_column : string) (numeric_columns : list string)
    (text_column : string) (baseline_accuracy epsilon : F64.t)
    (trigger_phrase : string) (stds : list F64.t) (s : local) :
  pert s = df ->
  column_stds df numeric_columns = Ok stds ->
  let scale := map (fun std => noise_scale std epsilon) stds in
  let drawn := rng_normal F64.zero scale (nrows df) (gen s) in
  let s' := snd (stress_core df label_column numeric_columns text_column
                   baseline_accuracy epsilon trigger_phrase s) in
  gen s' = snd (rng_random (nrows df) (snd drawn))
  /\ (NoDup numeric_columns ->
      forall k c, numeric_columns !! k = Some c ->
        exists xs,
          find_column (columns df) c = Some (FloatCol xs)
          /\ find_column (columns (pert s')) c
             = Some (FloatCol (add_arrays xs (map (fun i => fst drawn i k)
                                                  (seq 0 (nrows df)))))).
Proof.
  intros Hstart Hstds scale drawn s'.
  set (P := fun st : local =>
    gen st = snd (rng_random (nrows df) (snd drawn))
    /\ (NoDup numeric_columns ->
        forall k c, numeric_columns !! k = Some c ->
          exists xs,
            find_column (columns df) c = Some (FloatCol xs)
            /\ find_column (columns (pert st)) c
               = Some (FloatCol (add_arrays xs (map (fun i => fst drawn i k)
                                                    (seq 0 (nrows df))))))).
  enough (wp (stress_core df label_column numeric_columns text_column
                baseline_accuracy epsilon trigger_phrase)
             (fun _ st => P st) (fun st => P st) s) as Hwp.
  { unfold wp in Hwp. subst s'.
    by destruct (stress_core _ _ _ _ _ _ _ s) as [[risk|e] st]. }
  destruct (column_stds_select df numeric_columns stds Hstds) as (selected & Hsel & Hstd).
  destruct (column_stds_numeric df numeric_columns stds Hstds) as (_ & Hnum & _).
  unfold stress_core. cbv zeta.
  apply wp_bind, wp_se_ret. apply wp_bind, wp_lift. rewrite Hsel.
  apply wp_bind, wp_lift. rewrite Hstd.
  apply wp_bind, wp_draw. fold scale. fold drawn. apply wp_bind.
  destruct (perturb_core_adds (fst drawn) (nrows df) 0 numeric_columns
              (mkLocal (pert s) (snd drawn)))
    as (df' & Hrun & Hrows & Hother & _ & Hvals).
  { intros c Hc. cbn [pert]. rewrite Hstart. by apply Hnum. }
  cbn [pert gen] in *. rewrite Hstart in *.
  unfold wp at 1. rewrite Hrun.
  apply wp_bind, wp_get. apply wp_bind, wp_draw. cbn [pert gen]. rewrite Hrows.
  assert (P (mkLocal df' (snd (rng_random (nrows df) (snd drawn))))) as HP.
  { split; [reflexivity|]. intros Hnd k c Hk. cbn [pert]. apply (Hvals Hnd k c Hk). }
  apply wp_bind, wp_lift.
  destruct (frame_getitem df' text_column) as [text|e] eqn:Etext; [|exact HP].
  apply wp_bind, wp_lift.
  destruct (text_append _ text _) as [text'|e] eqn:Eappend; [|exact HP].
  destruct (text_append_obj _ _ _ _ Eappend) as (texts & -> & ->).
  apply wp_bind, wp_put. apply wp_bind, wp_get. cbn [pert gen].
  match goal with
  | |- wp _ _ _ ?st => assert (P st) as HP'
  end.
  { split; [reflexivity|]. intros Hnd k c Hk. cbn [pert frame_setitem columns].
    destruct (Hvals Hnd k c Hk) as (xs & Hxs & Hnew). exists xs. split; [exact Hxs|].
    rewrite find_column_replace_other; [exact Hnew|].
    intros ->. unfold frame_getitem in Etext. rewrite Hnew in Etext. discriminate Etext. }
  apply wp_bind, wp_lift.
  destruct (frame_drop _ label_column) as [features|e]; [|exact HP'].
  apply wp_bind, wp_lift.
  destruct (frame_getitem _ label_column) as [labels|e]; [|exact HP'].
  apply wp_bind, wp_lift.
  destruct (model_call (predict features)) as [preds|e]; [|exact HP'].
  apply wp_bind, wp_lift.
  destruct (library_call (accuracy_score (column_cells labels) preds)) as [adv|e];
    [|exact HP'].
  apply wp_bind.
  destruct (negb (frame_empty _)).
  - apply wp_bind, wp_lift. destruct (frame_drop _ label_column) as [tf|e]; [|exact HP'].
    apply wp_bind, wp_lift. destruct (model_call (predict tf)) as [tp|e]; [|exact HP'].
    apply wp_bind, wp_lift. destruct (frame_getitem _ label_column) as [tl|e]; [|exact HP'].
    apply wp_bind, wp_lift. destruct (compare_ne tp _) as [missed|e]; [|exact HP'].
    apply wp_ret, wp_ret. exact HP'.
  - apply wp_ret, wp_ret. exact HP'.
Qed.


(** C4, as the code has it.  For a call on a split whose declared numeric
    columns are numeric, with the generator in state [g]: the one normal
    draw is made on [g] with one scale per declared column,
    [max(std' * epsilon, 1e-3)], where [std'] is the population standard
    deviation of that column on the split it is given with a zero replaced
    by one; the uniform draw for the trigger mask follows on the state that
    draw leaves.  The columns being distinct, each declared column of the
    perturbed copy is the column of the split plus its column of that
    noise, whether the call returns or raises later on.  A column of
    standard deviation zero is therefore drawn at scale
    [max(1 * epsilon, 1e-3)], not [1e-3]. *)
Theorem noise_scale_per_column
    (w : world) (test_df rng : loc) (df : DataFrame) (g : bitgen)
    (label_column : string) (numeric_columns : list string) (text_column : string)
    (baseline_accuracy epsilon : F64.t) (trigger_phrase : string)
    (stds : list F64.t) :
  frames w !! test_df = Some df ->
  generators w !! rng = Some g ->
  column_stds df numeric_columns = Ok stds ->
  let scale := map (fun std => noise_scale std epsilon) stds in
  let drawn := rng_normal F64.zero scale (nrows df) g in
  let out := run_adversarial_stress_test test_df label_column numeric_columns text_column
               baseline_accuracy epsilon trigger_phrase (Some rng) w in
  length scale = length numeric_columns
  /\ (forall k c, numeric_columns !! k = Some c ->
        exists xs,
          numeric_series df c = Ok xs
          /\ scale !! k
             = Some (np_maximum
                       (F64.mul (if F64.eqb (series_std xs) F64.zero then f_1
                                 else series_std xs) epsilon)
                       f_1e_3))
  /\ generators (snd out) !! rng = Some (snd (rng_random (nrows df) (snd drawn)))
  /\ (NoDup numeric_columns ->
      exists copy,
        frames (snd out) !! fresh (dom (frames w)) = Some copy
        /\ forall k c, numeric_columns !! k = Some c ->
             exists xs,
               frame_getitem df c = Ok (FloatCol xs)
               /\ frame_getitem copy c
                  = Ok (FloatCol (add_arrays xs (map (fun i => fst drawn i k)
                                                     (seq 0 (nrows df))))))
  /\ (forall std,
        noise_scale std epsilon
        = np_maximum (F64.mul (if F64.eqb std F64.zero then f_1 else std) epsilon) f_1e_3)
  /\ noise_scale F64.zero epsilon = np_maximum (F64.mul f_1 epsilon) f_1e_3.
Proof.
  intros Hdf Hg Hstds scale drawn out. subst out.
  destruct (column_stds_numeric df numeric_columns stds Hstds) as (Hlen & _ & Hstd).
  destruct (core_noise df label_column numeric_columns text_column baseline_accuracy
              epsilon trigger_phrase stds (mkLocal df g) eq_refl Hstds)
    as [Hgen Hvals].
  cbn [gen] in Hgen, Hvals. fold scale in Hgen, Hvals. fold drawn in Hgen, Hvals.
  rewrite (run_with_generator w test_df rng df g) by assumption.
  unfold embed. cbn [snd frames generators]. rewrite !lookup_insert_eq.
  split; [unfold scale; by rewrite length_map|]. split.
  { intros k c Hk. destruct (Hstd k c Hk) as (xs & Hxs & Hk'). exists xs.
    split; [exact Hxs|]. unfold scale. rewrite list_lookup_fmap, Hk'. reflexivity. }
  split; [by rewrite Hgen|]. split; [|split; reflexivity].
  intros Hnd. eexists. split; [reflexivity|]. intros k c Hk.
  destruct (Hvals Hnd k c Hk) as (xs & Hxs & Hnew). exists xs.
  unfold frame_getitem. by rewrite Hxs, Hnew.
Qed.

End NoiseApplied.

Lemma noise_scale_per_column_witness :
  exists copy,
    frames
      (snd (run_adversarial_stress_test (H := Ref.numerics) (H0 := yes_model)
              (H1 := Ref.random_source) 1%positive "label" ["amount"] "note"
              (F64.lit 1 2) (F64.lit 5 100) "zz" (Some 1%positive)
              (seeded_world (H := Ref.random_source) constant_split 7)))
      !! fresh (dom (frames (seeded_world (H := Ref.random_source) constant_split 7)))
    = Some copy
    /\ frame_getitem copy "amount"
       = Ok (FloatCol
               (add_arrays (map F64.of_Z [5; 5; 5; 5])
                  (map (fun i =>
                          fst (rng_normal (RandomSource := Ref.random_source) F64.zero
                                 [np_maximum (F64.mul f_1 (F64.lit 5 100)) f_1e_3] 4 7)
                            i 0%nat)
                       (seq 0 4)))).
Proof.
  destruct (noise_scale_per_column (H := Ref.numerics) (H0 := yes_model)
              (H1 := Ref.random_source)
              (seeded_world (H := Ref.random_source) constant_split 7)
              1%positive 1%positive constant_split 7 "label" ["amount"] "note"
              (F64.lit 1 2) (F64.lit 5 100) "zz" [F64.zero]
              eq_refl eq_refl eq_refl) as (_ & _ & _ & Hcopy & _).
  destruct (Hcopy (NoDup_singleton "amount")) as (copy & Hfind & Hcols).
  destruct (Hcols 0%nat "amount" eq_refl) as (xs & Hxs & Hnew).
  exists copy. split; [exact Hfind|].
  injection Hxs as <-. exact Hnew.
Defined.

(** ** Thresholds *)

Section Thresholds.

(** At or above a positive threshold means strictly above any positive
    threshold of smaller exponent. *)
Lemma compare_above_lower (d : F64.t) (ma mb : positive) (ea eb : Z) :
  eb < ea ->
  (SFcompare d (S754_finite false ma ea) = Some Gt
   \/ SFcompare d (S754_finite false ma ea) = Some Eq) ->
  SFcompare d (S754_finite false mb eb) = Some Gt.
Proof.
  intros Hlt. destruct d as [s|s| |s m e]; cbn.
  - intros [E|E]; discriminate E.
  - destruct s; intros [E|E]; (discriminate E || reflexivity).
  - intros [E|E]; discriminate E.
  - destruct s; [intros [E|E]; discriminate E|].
    destruct (Z.compare_spec e ea) as [->|Hl|Hg].
    + intros _. by rewrite (proj2 (Z.compare_gt_iff ea eb)) by lia.
    + intros [E|E]; discriminate E.
    + intros _. by rewrite (proj2 (Z.compare_gt_iff e eb)) by lia.
Qed.

Lemma geb_0_2_0_1 (d : F64.t) : F64.geb d f_0_2 = true -> F64.geb d f_0_1 = true.
Proof.
  unfold F64.geb. intros E.
  assert (SFcompare d f_0_1 = Some Gt) as ->; [|reflexivity].
  apply (compare_above_lower d 7205759403792794 7205759403792794 (-55) (-56)); [lia|].
  change (S754_finite false 7205759403792794 (-55)) with f_0_2.
  destruct (SFcompare d f_0_2) as [[]|]; try discriminate E; auto.
Qed.

Lemma gtb_0_15_0_08 (d : F64.t) : F64.gtb d f_0_15 = true -> F64.gtb d f_0_08 = true.
Proof.
  unfold F64.gtb. intros E.
  assert (SFcompare d f_0_08 = Some Gt) as ->; [|reflexivity].
  apply (compare_above_lower d 5404319552844595 5764607523034235 (-55) (-56)); [lia|].
  change (S754_finite false 5404319552844595 (-55)) with f_0_15.
  destruct (SFcompare d f_0_15) as [[]|]; try discriminate E; auto.
Qed.

Lemma degradation_level_cases (d : F64.t) :
  (degradation_level d = "high" <-> F64.geb d f_0_2 = true)
  /\ (degradation_level d = "medium"
      <-> F64.geb d f_0_1 = true /\ F64.geb d f_0_2 = false)
  /\ (degradation_level d = "low" <-> F64.geb d f_0_1 = false).
Proof.
  unfold degradation_level. destruct (F64.geb d f_0_2) eqn:E2.
  - rewrite (geb_0_2_0_1 d E2). repeat split; intros; try done.
    by destruct H.
  - destruct (F64.geb d f_0_1); repeat split; intros; try done. by destruct H.
Qed.

Lemma gap_level_cases (gap : F64.t) :
  (gap_level gap = "high" <-> F64.gtb gap f_0_15 = true)
  /\ (gap_level gap = "medium"
      <-> F64.gtb gap f_0_08 = true /\ F64.gtb gap f_0_15 = false)
  /\ (gap_level gap = "low" <-> F64.gtb gap f_0_08 = false).
Proof.
  unfold gap_level. destruct (F64.gtb gap f_0_15) eqn:E2.
  - rewrite (gtb_0_15_0_08 gap E2). repeat split; intros; try done.
    by destruct H.
  - destruct (F64.gtb gap f_0_08); repeat split; intros; try done. by destruct H.
Qed.

(** [max(0.0, x)] is never negative and never NaN. *)
Lemma py_max2_zero (x : F64.t) :
  F64.ltb (py_max2 F64.zero x) F64.zero = false
  /\ F64.is_nan (py_max2 F64.zero x) = false
  /\ (py_max2 F64.zero x = F64.zero
      \/ (py_max2 F64.zero x = x /\ F64.gtb x F64.zero = true)).
Proof.
  unfold py_max2. destruct (F64.gtb x F64.zero) eqn:E.
  - repeat split; [| |by right].
    + unfold F64.gtb in E. unfold F64.ltb.
      by destruct (SFcompare x F64.zero) as [[]|].
    + by destruct x.
  - repeat split. by left.
Qed.

End Thresholds.

Section StressProperties.
Context `{Numerics} `{TrainedModel} `{RandomSource}.

(** X5. The degradation a RiskScore of the stress tester reports is never
    negative and never NaN: it is [baseline_accuracy - adversarial_accuracy]
    when that difference is strictly positive, and 0.0 otherwise (a
    perturbation that improves accuracy, or a NaN accuracy, counts as no
    degradation). *)
Theorem degradation_never_negative
    (w : world) (test_df : loc) (rng : option loc) (df : DataFrame)
    (label_column : string) (numeric_columns : list string) (text_column : string)
    (baseline_accuracy epsilon : F64.t) (trigger_phrase : string) (risk : RiskScore) :
  frames w !! test_df = Some df ->
  (forall r, rng = Some r -> is_Some (generators w !! r)) ->
  fst (run_adversarial_stress_test test_df label_column numeric_columns text_column
         baseline_accuracy epsilon trigger_phrase rng w) = Ok risk ->
  exists adv d,
    dict_get (details risk) "baseline_accuracy" = Some (PFloat baseline_accuracy)
    /\ dict_get (details risk) "adversarial_accuracy" = Some (PFloat adv)
    /\ dict_get (details risk) "accuracy_degradation" = Some (PFloat d)
    /\ F64.ltb d F64.zero = false
    /\ F64.is_nan d = false
    /\ (d = F64.zero
        \/ (d = F64.sub baseline_accuracy adv /\ F64.gtb d F64.zero = true))
    /\ (F64.gtb (F64.sub baseline_accuracy adv) F64.zero = true ->
        d = F64.sub baseline_accuracy adv)
    /\ (F64.gtb (F64.sub baseline_accuracy adv) F64.zero = false -> d = F64.zero).
Proof.
  intros Hdf Hrng Hrun.
  destruct (run_post w test_df rng df label_column numeric_columns text_column
              baseline_accuracy epsilon trigger_phrase Hdf Hrng)
    as (copy & _ & _ & Hrisk).
  destruct (Hrisk risk Hrun) as (mask & (adv & targeted & -> & _ & _) & _).
  exists adv, (py_max2 F64.zero (F64.sub baseline_accuracy adv)).
  destruct (py_max2_zero (F64.sub baseline_accuracy adv)) as (Hneg & Hnan & Hcases).
  split; [reflexivity|]. split; [reflexivity|]. split; [reflexivity|].
  split; [exact Hneg|]. split; [exact Hnan|]. split; [|split].
  - destruct Hcases as [E|[E Hpos]]; [by left|right].
    rewrite E. by split.
  - intros Hpos. unfold py_max2. by rewrite Hpos.
  - intros Hpos. unfold py_max2. by rewrite Hpos.
Qed.

(** X6. The level of a RiskScore of the stress tester follows from the
    degradation it reports, with inclusive thresholds: high exactly when the
    degradation is at least 0.2, medium exactly when it is at least 0.1 and
    not at least 0.2, low exactly when it is not at least 0.1. *)
Theorem stress_level_thresholds
    (w : world) (test_df : loc) (rng : option loc) (df : DataFrame)
    (label_column : string) (numeric_columns : list string) (text_column : string)
    (baseline_accuracy epsilon : F64.t) (trigger_phrase : string) (risk : RiskScore) :
  frames w !! test_df = Some df ->
  (forall r, rng = Some r -> is_Some (generators w !! r)) ->
  fst (run_adversarial_stress_test test_df label_column numeric_columns text_column
         baseline_accuracy epsilon trigger_phrase rng w) = Ok risk ->
  exists d,
    dict_get (details risk) "accuracy_degradation" = Some (PFloat d)
    /\ (level risk = "high" <-> F64.geb d f_0_2 = true)
    /\ (level risk = "medium" <-> F64.geb d f_0_1 = true /\ F64.geb d f_0_2 = false)
    /\ (level risk = "low" <-> F64.geb d f_0_1 = false).
Proof.
  intros Hdf Hrng Hrun.
  destruct (run_post w test_df rng df label_column numeric_columns text_column
              baseline_accuracy epsilon trigger_phrase Hdf Hrng)
    as (copy & _ & _ & Hrisk).
  destruct (Hrisk risk Hrun) as (mask & (adv & targeted & -> & _ & _) & _).
  exists (py_max2 F64.zero (F64.sub baseline_accuracy adv)).
  split; [reflexivity|]. cbn [level]. apply degradation_level_cases.
Qed.

(** X7. The number of triggered rows a RiskScore reports is at most the
    number of rows of the split, and when no row is triggered the targeted
    success rate is exactly 0.0. *)
Theorem triggered_subset_bounds
    (w : world) (test_df : loc) (rng : option loc) (df : DataFrame)
    (label_column : string) (numeric_columns : list string) (text_column : string)
    (baseline_accuracy epsilon : F64.t) (trigger_phrase : string) (risk : RiskScore) :
  frames w !! test_df = Some df ->
  (forall r, rng = Some r -> is_Some (generators w !! r)) ->
  fst (run_adversarial_stress_test test_df label_column numeric_columns text_column
         baseline_accuracy epsilon trigger_phrase rng w) = Ok risk ->
  exists (triggered : nat) (targeted : F64.t),
    dict_get (details risk) "triggered_subset_size" = Some (PInt (Z.of_nat triggered))
    /\ dict_get (details risk) "targeted_success_rate" = Some (PFloat targeted)
    /\ (triggered <= nrows df)%nat
    /\ (triggered = 0%nat -> targeted = F64.zero).
Proof.
  intros Hdf Hrng Hrun.
  destruct (run_post w test_df rng df label_column numeric_columns text_column
              baseline_accuracy epsilon trigger_phrase Hdf Hrng)
    as (copy & _ & _ & Hrisk).
  destruct (Hrisk risk Hrun) as (mask & (adv & targeted & -> & Hlen & Hzero) & _).
  exists (mask_sum mask), targeted. repeat split; [|exact Hzero].
  rewrite <- Hlen. apply mask_sum_le.
Qed.


(** X9. When a call returns and the text column is not among the numeric
    columns, the text column of the copy is the one of the split with a
    space and the trigger phrase appended on the triggered rows and nothing
    changed on the others; the triggered rows are as many as the RiskScore
    reports. *)
Theorem trigger_phrase_is_appended
    (w : world) (test_df : loc) (rng : option loc) (df : DataFrame)
    (label_column : string) (numeric_columns : list string) (text_column : string)
    (baseline_accuracy epsilon : F64.t) (trigger_phrase : string) (risk : RiskScore) :
  frames w !! test_df = Some df ->
  (forall r, rng = Some r -> is_Some (generators w !! r)) ->
  ~ In text_column numeric_columns ->
  fst (run_adversarial_stress_test test_df label_column numeric_columns text_column
         baseline_accuracy epsilon trigger_phrase rng w) = Ok risk ->
  exists (copy : DataFrame) (mask : list bool) (texts : list string),
    frames (snd (run_adversarial_stress_test test_df label_column numeric_columns
                   text_column baseline_accuracy epsilon trigger_phrase rng w))
      !! fresh (dom (frames w)) = Some copy
    /\ frame_getitem df text_column = Ok (ObjCol texts)
    /\ frame_getitem copy text_column
       = Ok (ObjCol (append_where mask texts (" " +:+ trigger_phrase)))
    /\ length mask = nrows df
    /\ dict_get (details risk) "triggered_subset_size"
       = Some (PInt (Z.of_nat (mask_sum mask)))
    /\ forall i text,
         texts !! i = Some text ->
         append_where mask texts (" " +:+ trigger_phrase) !! i
         = Some (if default false (mask !! i)
                 then text +:+ " " +:+ trigger_phrase else text).
Proof.
  intros Hdf Hrng Hnot Hrun.
  destruct (run_post w test_df rng df label_column numeric_columns text_column
              baseline_accuracy epsilon trigger_phrase Hdf Hrng)
    as (copy & Hcopy & _ & Hrisk).
  destruct (Hrisk risk Hrun) as (mask & (adv & targeted & -> & Hlen & _) & Hplanted).
  destruct (Hplanted Hnot) as (texts & Horig & Hnew).
  exists copy, mask, texts. repeat split; try done.
  clear. intros i. revert mask texts. induction i as [|i IH]; intros mask texts text.
  - destruct texts as [|t texts]; [discriminate|]. intros [= ->].
    destruct mask as [|[] mask]; reflexivity.
  - destruct texts as [|t texts]; [discriminate|]. cbn. intros E.
    destruct mask as [|b mask]; [by destruct i|]. cbn. by apply IH.
Qed.

End StressProperties.

Section StressErrors.
Context `{Numerics} `{TrainedModel} `{RandomSource}.

Lemma frame_getitem_error (df : DataFrame) (key : string) (e : exn) :
  frame_getitem df key = Raise e -> e = KeyError (PStr key).
Proof. unfold frame_getitem. destruct (find_column _ _); [discriminate|]. by intros [= <-]. Qed.

Lemma frame_select_missing (df : DataFrame) (cols : list string) (c : string) :
  In c cols -> find_column (columns df) c = None ->
  exists key, frame_select df cols = Raise (KeyError key).
Proof.
  intros Hin Hmiss. unfold frame_select.
  enough (exists key,
             mapM (fun key => c0 ← frame_getitem df key; mret (key, c0)) cols
             = Raise (KeyError key)) as [key ->] by eauto.
  induction cols as [|c0 cols IH]; [destruct Hin|]. rewrite mapM_cons.
  destruct (frame_getitem df c0) as [col|e] eqn:E0; rsimpl.
  - destruct Hin as [->|Hin].
    + unfold frame_getitem in E0. rewrite Hmiss in E0. discriminate.
    + destruct (IH Hin) as [key ->]. eauto.
  - apply frame_getitem_error in E0 as ->. eauto.
Qed.

(** X10. When a declared numeric column is missing from the split and a
    generator is passed, the call raises [KeyError] before any random draw:
    the generator is left in the state it was passed in, and the only change
    to the store is the copy, still identical to the split. *)
Theorem missing_numeric_column_draws_nothing
    (w : world) (test_df rng : loc) (df : DataFrame) (g : bitgen)
    (label_column : string) (numeric_columns : list string) (text_column : string)
    (baseline_accuracy epsilon : F64.t) (trigger_phrase : string) (c : string) :
  frames w !! test_df = Some df ->
  generators w !! rng = Some g ->
  In c numeric_columns ->
  find_column (columns df) c = None ->
  exists key,
    run_adversarial_stress_test test_df label_column numeric_columns text_column
      baseline_accuracy epsilon trigger_phrase (Some rng) w
    = (Raise (KeyError key),
       mkWorld (<[fresh (dom (frames w)) := df]> (frames w)) (generators w)).
Proof.
  intros Hdf Hg Hin Hmiss.
  destruct (frame_select_missing df numeric_columns c Hin Hmiss) as [key Hsel].
  exists key. rewrite (run_with_generator w test_df rng df g) by assumption.
  unfold stress_core. erewrite se_bind_step by reflexivity. rewrite Hsel.
  unfold embed. cbn. by rewrite (insert_id _ _ _ Hg).
Qed.

End StressErrors.

Section ScaleBounds.
Context `{Numerics} `{TrainedModel}.

#[local] Existing Instance recording_source.

Lemma noise_scale_bound (std epsilon : F64.t) :
  F64.is_nan (noise_scale std epsilon) = true
  \/ F64.geb (noise_scale std epsilon) f_1e_3 = true.
Proof.
  unfold noise_scale, np_clip_min, np_maximum.
  set (x := F64.mul (replace_0_1 std) epsilon).
  destruct (F64.geb x f_1e_3) eqn:E; cbn [orb].
  - by right.
  - destruct (F64.is_nan x) eqn:En; [by left|by right].
Qed.

Lemma column_stds_length (df : DataFrame) (cols : list string) (stds : list F64.t) :
  column_stds df cols = Ok stds -> length stds = length cols.
Proof.
  unfold column_stds. revert stds. induction cols as [|c cols IH]; intros stds.
  - by intros [= <-].
  - rewrite mapM_cons.
    destruct (numeric_series df c) as [xs|e]; rsimpl; [|discriminate].
    destruct (mapM _ cols) as [rest|e]; rsimpl; [|discriminate].
    intros [= <-]. cbn. by rewrite (IH rest).
Qed.

(** X11. The scales the stress tester asks normal noise for are one per
    declared numeric column, and each of them is at least 1e-3 or NaN:
    never zero and never negative. *)
Theorem noise_scale_floor
    (w : world) (test_df rng : loc) (df : DataFrame) (log : list (list F64.t))
    (label_column : string) (numeric_columns : list string) (text_column : string)
    (baseline_accuracy epsilon : F64.t) (trigger_phrase : string)
    (stds : list F64.t) :
  frames w !! test_df = Some df ->
  generators w !! rng = Some log ->
  column_stds df numeric_columns = Ok stds ->
  exists scale,
    generators
      (snd (run_adversarial_stress_test test_df label_column numeric_columns text_column
              baseline_accuracy epsilon trigger_phrase (Some rng) w)) !! rng
    = Some (scale :: log)
    /\ length scale = length numeric_columns
    /\ Forall (fun x => F64.is_nan x = true \/ F64.geb x f_1e_3 = true) scale.
Proof.
  intros Hdf Hlog Hstds.
  exists (map (fun std => noise_scale std epsilon) stds). split; [|split].
  - rewrite (run_with_generator w test_df rng df log) by assumption.
    unfold embed. cbn [snd generators]. rewrite lookup_insert_eq.
    by rewrite (core_records_scale _ _ _ _ _ _ _ stds).
  - rewrite length_map. by apply (column_stds_length df).
  - apply Forall_map, Forall_forall. intros std _. apply noise_scale_bound.
Qed.

End ScaleBounds.

(** ** More on the membership-inference assessor *)

Section AssessorMore.
Context `{Numerics} `{TrainedModel}.



(** X12. The level of a RiskScore of the assessor follows from the
    confidence gap it reports, with strict thresholds: high exactly when
    the gap is above 0.15, medium exactly when it is above 0.08 and not above
    0.15, low exactly when it is not above 0.08, a NaN gap included. *)
Theorem privacy_level_thresholds
    (train_df test_df : DataFrame) (label_column : string) (risk : RiskScore) :
  evaluate_membership_inference_risk train_df test_df label_column = Ok risk ->
  exists gap,
    dict_get (details risk) "confidence_gap" = Some (PFloat gap)
    /\ (level risk = "high" <-> F64.gtb gap f_0_15 = true)
    /\ (level risk = "medium"
        <-> F64.gtb gap f_0_08 = true /\ F64.gtb gap f_0_15 = false)
    /\ (level risk = "low" <-> F64.gtb gap f_0_08 = false)
    /\ (F64.is_nan gap = true -> level risk = "low").
Proof.
  rewrite evaluate_by_confidence.
  destruct (frame_drop train_df label_column) as [trf|e]; [|discriminate].
  destruct (frame_drop test_df label_column) as [tef|e]; [|discriminate].
  destruct (top_confidence train_df label_column) as [trc|e]; [|discriminate].
  destruct (top_confidence test_df label_column) as [tec|e]; [|discriminate].
  rsimpl. intros [= <-]. eexists. split; [reflexivity|]. cbn [level].
  destruct (gap_level_cases (F64.sub (array_mean trc) (array_mean tec)))
    as (Hhigh & Hmed & Hlow).
  repeat split; try (by apply Hhigh); try (by apply Hmed); try (by apply Hlow).
  intros Hnan. apply Hlow.
  by destruct (F64.sub (array_mean trc) (array_mean tec)).
Qed.


End AssessorMore.

(** ** Counts as floats *)

Section CountsAsFloats.

Lemma div_self_finite (s : bool) (m : positive) (e : Z) :
  F64.div (S754_finite s m e) (S754_finite s m e) = f_1.
Proof.
  unfold F64.div, SFdiv, SFdiv_core_binary.
  rewrite !Z.sub_diag. 
  change (Z.min (fexp F64.prec F64.emax 0) 0) with (-53).
  change (0 - -53) with 53.
  cbv iota beta.
  destruct (Z.div_eucl (Z.shiftl (Z.pos m) 53) (Z.pos m)) as [q r] eqn:E.
  assert (q = 2 ^ 53 /\ r = 0) as [-> ->].
  { pose proof (Z.div_eucl_eq (Z.shiftl (Z.pos m) 53) (Z.pos m) ltac:(lia)) as Heq.
    rewrite E in Heq.
    pose proof (Z.mod_pos_bound (Z.shiftl (Z.pos m) 53) (Z.pos m) ltac:(lia)) as Hb.
    unfold Z.modulo in Hb. rewrite E in Hb.
    rewrite Z.shiftl_mul_pow2 in Heq by lia.
    apply (Z.div_mod_unique (Z.pos m) q (2 ^ 53) r 0); [lia|lia|lia]. }
  rewrite xorb_nilpotent. unfold new_location.
  destruct (Z.even (Z.pos m)); reflexivity.
Qed.

Lemma digits_iter_xO (p k : positive) :
  Z.pos (digits2_pos (Pos.iter xO p k)) = Z.pos (digits2_pos p) + Z.pos k.
Proof.
  induction k as [|k IH] using Pos.peano_ind.
  - cbn. lia.
  - rewrite Pos.iter_succ. cbn [digits2_pos]. lia.
Qed.

Lemma digits_is_size (p : positive) : digits2_pos p = Pos.size p.
Proof. induction p as [p IH|p IH|]; cbn; by rewrite ?IH. Qed.

Lemma digits_bound (p : positive) (k : Z) :
  0 <= k -> Z.pos p < 2 ^ k -> Z.pos (digits2_pos p) <= k.
Proof.
  intros Hk Hlt. rewrite digits_is_size.
  destruct (Z.le_gt_cases (Z.pos (Pos.size p)) k) as [|Hgt]; [assumption|exfalso].
  pose proof (Pos.size_le p) as Hle.
  assert (2 ^ (k + 1) <= 2 ^ Z.pos (Pos.size p)) by (apply Z.pow_le_mono_r; lia).
  assert (Z.pos (2 ^ Pos.size p) <= Z.pos p~0) as Hle' by (apply Pos2Z.pos_le_pos, Hle).
  rewrite Pos2Z.inj_pow in Hle'. rewrite Z.pow_add_r in H by lia. lia.
Qed.

Lemma shr_fexp_exact (mz : positive) (ez : Z) :
  Z.pos (digits2_pos mz) = 53 -> -52 <= ez <= 0 ->
  shr_fexp F64.prec F64.emax (Z.pos mz) ez loc_Exact
  = ({| shr_m := Z.pos mz; shr_r := false; shr_s := false |}, ez).
Proof.
  intros Hd He. unfold shr_fexp, fexp, emin, F64.prec, F64.emax. cbn [Zdigits2].
  rewrite Hd. replace (Z.max (53 + ez - 53) (3 - 1024 - 53) - ez) with 0 by lia.
  reflexivity.
Qed.

Lemma round_aligned (mz : positive) (ez : Z) :
  Z.pos (digits2_pos mz) = 53 -> -52 <= ez <= 0 ->
  binary_round_aux F64.prec F64.emax false (Z.pos mz) ez loc_Exact
  = S754_finite false mz ez.
Proof.
  intros Hd He. unfold binary_round_aux. rewrite (shr_fexp_exact mz ez Hd He).
  cbn [shr_m loc_of_shr_record round_nearest_even].
  rewrite (shr_fexp_exact mz ez Hd He). cbn [shr_m].
  replace (ez <=? F64.emax - F64.prec) with true; [reflexivity|].
  symmetry. apply Z.leb_le. unfold F64.emax, F64.prec. lia.
Qed.

Lemma of_Z_pos_finite (p : positive) :
  Z.pos p < 2 ^ 53 -> exists m e, F64.of_Z (Z.pos p) = S754_finite false m e.
Proof.
  intros Hlt. pose proof (digits_bound p 53 ltac:(lia) Hlt) as Hd.
  unfold F64.of_Z, binary_normalize, binary_round.
  unfold fexp at 1, emin, F64.prec, F64.emax. rewrite Z.add_0_r.
  replace (Z.max (Z.pos (digits2_pos p) - 53) (3 - 1024 - 53))
    with (Z.pos (digits2_pos p) - 53) by lia.
  unfold shl_align. rewrite Z.sub_0_r.
  destruct (Z.pos (digits2_pos p) - 53) as [|k|k] eqn:Ek; [|lia|].
  - exists p, 0. apply (round_aligned p 0); lia.
  - exists (Pos.iter xO p k), (Z.neg k). apply round_aligned.
    + rewrite digits_iter_xO. lia.
    + lia.
Qed.

Lemma ratio_of_equal_counts (n : nat) :
  (0 < n)%nat -> Z.of_nat n < 2 ^ 53 ->
  F64.div (F64.of_Z (Z.of_nat n)) (F64.of_Z (Z.of_nat n)) = f_1.
Proof.
  intros Hpos Hlt. destruct (Z.of_nat n) as [|p|p] eqn:E; [lia| |lia].
  destruct (of_Z_pos_finite p Hlt) as (m & e & ->). apply div_self_finite.
Qed.

End CountsAsFloats.

(** ** More on the poisoning scanner *)

Section ScannerMore.
Context `{Numerics}.

Lemma count_same_labels (s : string) (xs : list string) (k : nat) :
  Forall (eq s) xs ->
  fold_left count_add (map CStr xs) [(CStr s, k)] = [(CStr s, (k + length xs)%nat)].
Proof.
  revert k. induction xs as [|x xs IH]; intros k Hall; cbn.
  - by rewrite Nat.add_0_r.
  - apply Forall_cons in Hall as [Hx Hall']. subst x. rewrite String.eqb_refl.
    rewrite (IH (S k) Hall'). do 2 f_equal. lia.
Qed.

Lemma present_labels (xs : list string) :
  List.filter (fun c => negb (cell_missing c)) (map CStr xs) = map CStr xs.
Proof. induction xs as [|x xs IH]; cbn; by rewrite ?IH. Qed.

(** One class only: one entry, of frequency 1.0. *)
Lemma class_balance_single (s : string) (xs : list string) :
  xs <> [] -> Forall (eq s) xs -> Z.of_nat (length xs) < 2 ^ 53 ->
  value_counts_normalize (map CStr xs) = [(CStr s, f_1)].
Proof.
  intros Hne Hall Hlt. unfold value_counts_normalize, value_counts. cbv zeta.
  rewrite present_labels. destruct xs as [|x xs]; [done|].
  apply Forall_cons in Hall as [Hx Hall']. subst x. cbn [map fold_left count_add].
  rewrite (count_same_labels s xs 1 Hall'). cbn [fold_left insert_desc map snd fst foldr].
  rewrite Nat.add_0_r. rewrite ratio_of_equal_counts; [reflexivity|lia|].
  cbn [length] in Hlt. lia.
Qed.

Lemma outlier_loop_app (df : DataFrame) (pre rest : list string) (acc : nat) :
  outlier_loop df (pre ++ rest) acc
  = (n ← outlier_loop df pre acc; outlier_loop df rest n).
Proof.
  revert acc. induction pre as [|c pre IH]; intros acc; [reflexivity|].
  rewrite <- app_comm_cons, !outlier_loop_cons.
  destruct (numeric_series df c) as [series|e]; [|reflexivity]. rsimpl. apply IH.
Qed.

(** X14. A split whose label column holds a single class (and fewer than
    2^53 rows) is never rated low: its class balance is that class at
    frequency 1.0, above 0.75, so the imbalance issue is always raised and
    the level is medium or high. *)
Theorem single_class_split_is_flagged
    (df : DataFrame) (label_column : string) (numeric_columns : list string)
    (s : string) (xs : list string) (risk : RiskScore) :
  frame_getitem df label_column = Ok (ObjCol xs) ->
  xs <> [] -> Forall (eq s) xs -> Z.of_nat (length xs) < 2 ^ 53 ->
  scan_for_data_poisoning df label_column numeric_columns = Ok risk ->
  dict_get (details risk) "class_balance" = Some (PDict [(PStr s, PFloat f_1)])
  /\ (level risk = "medium" \/ level risk = "high").
Proof.
  intros Hlabels Hne Hall Hlt. unfold scan_for_data_poisoning. cbv zeta.
  rewrite Hlabels. rsimpl. cbn [column_cells].
  rewrite (class_balance_single s xs Hne Hall Hlt). cbn [map snd py_max_floats fold_left].
  rsimpl. change (F64.gtb f_1 f_0_75) with true. cbv iota.
  destruct (outlier_loop df numeric_columns 0) as [outlier_rows|e]; rsimpl; [|discriminate].
  intros [= <-]. split; [reflexivity|]. cbn [level].
  destruct (Nat.eqb (mask_sum (frame_duplicated df)) 0), (Nat.eqb outlier_rows 0); cbn; auto.
Qed.

(** X15. The scanner reads the label column first and the numeric columns
    in the order given: a missing label column raises [KeyError] on its
    name whatever else is passed, and with a usable label column the first
    declared numeric column that is missing, the ones before it being
    numeric, raises [KeyError] on its name. *)
Theorem scan_missing_column
    (df : DataFrame) (label_column : string) (numeric_columns : list string) :
  (find_column (columns df) label_column = None ->
   scan_for_data_poisoning df label_column numeric_columns
   = Raise (KeyError (PStr label_column)))
  /\ (forall labels pre c post,
        frame_getitem df label_column = Ok labels ->
        existsb (fun x => negb (cell_missing x)) (column_cells labels) = true ->
        numeric_columns = pre ++ c :: post ->
        forallb (numeric_in df) pre = true ->
        find_column (columns df) c = None ->
        scan_for_data_poisoning df label_column numeric_columns
        = Raise (KeyError (PStr c))).
Proof.
  split.
  - intros Hmiss. unfold scan_for_data_poisoning, frame_getitem. cbv zeta.
    by rewrite Hmiss.
  - intros labels pre c post Hlabels Hpresent -> Hpre Hmiss.
    destruct (majority_exists _ Hpresent) as [majority Hmaj].
    destruct (outlier_loop_ok df pre 0 Hpre) as [n Hn].
    unfold scan_for_data_poisoning. cbv zeta. rewrite Hlabels. rsimpl.
    rewrite Hmaj. rsimpl. rewrite outlier_loop_app, Hn. rsimpl.
    rewrite outlier_loop_cons. unfold numeric_series, frame_getitem. by rewrite Hmiss.
Qed.

End ScannerMore.

(** ** More on the report assembler *)

Section AssembleMore.
Context `{FileSystem}.

Lemma map_PStr_inj (xs ys : list string) : map PStr xs = map PStr ys -> xs = ys.
Proof.
  revert ys. induction xs as [|x xs IH]; intros [|y ys]; cbn; try discriminate; [done|].
  intros [= -> E]. by rewrite (IH ys E).
Qed.

(** X16. [to_dict] loses nothing: each field of a RiskScore is read back
    from the entry under its own key, the keys are name, level, details and
    recommendations in this order, and two RiskScores with the same entry
    are equal. *)
Theorem to_dict_faithful :
  (forall r : RiskScore,
      getitem (to_dict r) "name" = Ok (PStr (name r))
      /\ getitem (to_dict r) "level" = Ok (PStr (level r))
      /\ getitem (to_dict r) "details" = Ok (PDict (details r))
      /\ getitem (to_dict r) "recommendations" = Ok (PList (map PStr (recommendations r)))
      /\ map fst (to_dict r)
         = map PStr ["name"; "level"; "details"; "recommendations"])
  /\ (forall r1 r2 : RiskScore, to_dict r1 = to_dict r2 -> r1 = r2).
Proof.
  split; [intros r; by repeat split|].
  intros [n1 l1 d1 c1] [n2 l2 d2 c2]. unfold to_dict, item. cbn.
  intros [= -> -> -> Hrec]. by rewrite (map_PStr_inj _ _ Hrec).
Qed.

(** The report a call builds for well-levelled risks, in full. *)
Lemma assemble_report manifest (risks : list RiskScore) output_dir (lvls : list Level) :
  map level risks = map level_name lvls ->
  forall fs,
    assemble_security_report manifest risks output_dir fs
    = let report : pydict :=
        [ item "manifest" (PDict manifest);
          item "risks" (PList (map PDict (map to_dict risks)));
          item "aggregate_risk_level"
            (PStr (default "low" (reverse_map !! aggregate_ordinal lvls)));
          item "owasp_mappings" (PList (map (fun r => PStr (name r)) risks));
          item "mitre_atlas_focus" (PList (map PStr mitre_atlas_focus)) ] in
      match fs_mkdir output_dir fs with
      | inl msg => (Raise (OSError msg), fs)
      | inr fs1 =>
          match fs_write_text (path_join output_dir report_file_name)
                  (json_dumps (PDict report)) fs1 with
          | inl msg => (Raise (OSError msg), fs1)
          | inr fs2 => (Ok (report, path_join output_dir report_file_name), fs2)
          end
      end.
Proof.
  intros E fs. cbv zeta.
  unfold assemble_security_report, mbind, se_mbind, se_bind, mkdir, se_lift.
  destruct (fs_mkdir output_dir fs) as [msg|fs1]; [reflexivity|].
  rewrite (max_default_levels risks lvls E), names_of_entries.
  unfold write_text, mret, se_mret, se_ret. cbn.
  destruct (fs_write_text _ _ fs1) as [msg|fs2]; reflexivity.
Qed.

(** X17. A report that is returned lists the risks and their names in the
    order given, without sorting and without removing repeated names, passes
    the manifest through unchanged, and has the five keys manifest, risks,
    aggregate_risk_level, owasp_mappings and mitre_atlas_focus in this
    order; the path returned is the report file inside the output
    directory. *)
Theorem report_keeps_order
    manifest (risks : list RiskScore) output_dir (lvls : list Level)
    (fs fs' : FS) (report : pydict) (report_path : path) :
  map level risks = map level_name lvls ->
  assemble_security_report manifest risks output_dir fs
  = (Ok (report, report_path), fs') ->
  dict_get report "owasp_mappings" = Some (PList (map (fun r => PStr (name r)) risks))
  /\ dict_get report "risks" = Some (PList (map (fun r => PDict (to_dict r)) risks))
  /\ dict_get report "manifest" = Some (PDict manifest)
  /\ map fst report
     = map PStr [ "manifest"; "risks"; "aggregate_risk_level"; "owasp_mappings";
                  "mitre_atlas_focus" ]
  /\ report_path = output_dir ++ ["mlsecops_security_report.json"].
Proof.
  intros E. rewrite (assemble_report manifest risks output_dir lvls E). cbv zeta.
  destruct (fs_mkdir output_dir fs) as [msg|fs1]; [discriminate|].
  destruct (fs_write_text _ _ fs1) as [msg|fs2]; [discriminate|].
  intros [= <- <- <-]. repeat split. cbn. by rewrite map_map.
Qed.

Lemma fold_max_shift (zs : list Z) (a b : Z) :
  fold_left Z.max zs (Z.max a b) = Z.max a (fold_left Z.max zs b).
Proof.
  revert b. induction zs as [|z zs IH]; intros b; cbn; [reflexivity|].
  by rewrite <- Z.max_assoc, IH.
Qed.

Lemma aggregate_ordinal_fold (lvls : list Level) :
  aggregate_ordinal lvls = fold_left Z.max (map ordinal lvls) 0.
Proof.
  destruct lvls as [|l lvls]; [reflexivity|]. cbn.
  by replace (Z.max 0 (ordinal l)) with (ordinal l) by (destruct l; reflexivity).
Qed.

Lemma aggregate_ordinal_app (lvls1 lvls2 : list Level) :
  aggregate_ordinal (lvls1 ++ lvls2)
  = Z.max (aggregate_ordinal lvls1) (aggregate_ordinal lvls2).
Proof.
  rewrite !aggregate_ordinal_fold, map_app, fold_left_app.
  rewrite <- fold_max_shift. f_equal.
  destruct (fold_max_ge (map ordinal lvls1) 0) as [Hge _]. lia.
Qed.

(** X18. Aggregation composes: for well-levelled risks, the aggregate level
    of two collections put together is the higher of their two aggregate
    levels; so adding findings never lowers the aggregate level, and the
    order of the two collections does not matter. *)
Theorem aggregate_of_concatenation
    manifest (risks1 risks2 : list RiskScore) output_dir (lvls1 lvls2 : list Level)
    (fs1 fs2 fs12 fs1' fs2' fs12' : FS) (r1 r2 r12 : pydict) (p1 p2 p12 : path) :
  map level risks1 = map level_name lvls1 ->
  map level risks2 = map level_name lvls2 ->
  assemble_security_report manifest risks1 output_dir fs1 = (Ok (r1, p1), fs1') ->
  assemble_security_report manifest risks2 output_dir fs2 = (Ok (r2, p2), fs2') ->
  assemble_security_report manifest (risks1 ++ risks2) output_dir fs12
  = (Ok (r12, p12), fs12') ->
  exists top1 top2 top12 : Level,
    dict_get r1 "aggregate_risk_level" = Some (PStr (level_name top1))
    /\ dict_get r2 "aggregate_risk_level" = Some (PStr (level_name top2))
    /\ dict_get r12 "aggregate_risk_level" = Some (PStr (level_name top12))
    /\ ordinal top12 = Z.max (ordinal top1) (ordinal top2).
Proof.
  intros E1 E2.
  assert (map level (risks1 ++ risks2) = map level_name (lvls1 ++ lvls2)) as E12
    by (rewrite !map_app; congruence).
  rewrite (assemble_report manifest risks1 output_dir lvls1 E1),
    (assemble_report manifest risks2 output_dir lvls2 E2),
    (assemble_report manifest _ output_dir _ E12). cbv zeta.
  destruct (fs_mkdir output_dir fs1) as [?|a1]; [discriminate|].
  destruct (fs_write_text _ _ a1) as [?|b1]; [discriminate|]. intros [= <- _ _].
  destruct (fs_mkdir output_dir fs2) as [?|a2]; [discriminate|].
  destruct (fs_write_text _ _ a2) as [?|b2]; [discriminate|]. intros [= <- _ _].
  destruct (fs_mkdir output_dir fs12) as [?|a12]; [discriminate|].
  destruct (fs_write_text _ _ a12) as [?|b12]; [discriminate|]. intros [= <- _ _].
  destruct (aggregate_ordinal_max lvls1) as (top1 & H1 & _).
  destruct (aggregate_ordinal_max lvls2) as (top2 & H2 & _).
  destruct (aggregate_ordinal_max (lvls1 ++ lvls2)) as (top12 & H12 & _).
  exists top1, top2, top12. cbn. rewrite H1, H2, H12, !reverse_map_ordinal. cbn.
  repeat split. by rewrite <- H12, aggregate_ordinal_app, H1, H2.
Qed.

End AssembleMore.

(** ** Sample runs of the additional properties *)

(** The model always answers "yes", so half of the four labels are right:
    against a baseline of 0.75 the loss is 0.25. *)
Lemma degradation_never_negative_witness :
  exists risk,
    fst (run_adversarial_stress_test (H := Ref.numerics) (H0 := yes_model)
           (H1 := Ref.random_source) 1%positive "label" ["amount"] "note"
           (F64.lit 3 4) (F64.lit 5 100) "zz" None
           (lone_world (H := Ref.random_source) small_split)) = Ok risk
    /\ dict_get (details risk) "accuracy_degradation" = Some (PFloat (F64.lit 1 4)).
Proof.
  destruct (fst (run_adversarial_stress_test (H := Ref.numerics) (H0 := yes_model)
                   (H1 := Ref.random_source) 1%positive "label" ["amount"] "note"
                   (F64.lit 3 4) (F64.lit 5 100) "zz" None
                   (lone_world (H := Ref.random_source) small_split)))
    as [risk|e] eqn:Hrun; [|vm_compute in Hrun; discriminate Hrun].
  destruct (degradation_never_negative (H := Ref.numerics) (H0 := yes_model)
              (H1 := Ref.random_source)
              (lone_world (H := Ref.random_source) small_split) 1%positive None
              small_split "label" ["amount"] "note" (F64.lit 3 4) (F64.lit 5 100) "zz"
              risk eq_refl ltac:(discriminate) Hrun)
    as (adv & d & _ & Hadv & Hd & _ & _ & _ & Hpos & _).
  exists risk. split; [reflexivity|].
  etransitivity; [exact Hd|].
  vm_compute in Hrun. injection Hrun as <-.
  vm_compute in Hadv. injection Hadv as <-.
  rewrite (Hpos eq_refl). reflexivity.
Defined.

Lemma stress_level_thresholds_witness :
  exists risk,
    fst (run_adversarial_stress_test (H := Ref.numerics) (H0 := yes_model)
           (H1 := Ref.random_source) 1%positive "label" ["amount"] "note"
           (F64.lit 3 4) (F64.lit 5 100) "zz" None
           (lone_world (H := Ref.random_source) small_split)) = Ok risk
    /\ level risk = "high".
Proof.
  destruct (fst (run_adversarial_stress_test (H := Ref.numerics) (H0 := yes_model)
                   (H1 := Ref.random_source) 1%positive "label" ["amount"] "note"
                   (F64.lit 3 4) (F64.lit 5 100) "zz" None
                   (lone_world (H := Ref.random_source) small_split)))
    as [risk|e] eqn:Hrun; [|vm_compute in Hrun; discriminate Hrun].
  destruct (stress_level_thresholds (H := Ref.numerics) (H0 := yes_model)
              (H1 := Ref.random_source)
              (lone_world (H := Ref.random_source) small_split) 1%positive None
              small_split "label" ["amount"] "note" (F64.lit 3 4) (F64.lit 5 100) "zz"
              risk eq_refl ltac:(discriminate) Hrun)
    as (d & Hd & Hhigh & _ & _).
  exists risk. split; [reflexivity|].
  apply Hhigh.
  vm_compute in Hrun. injection Hrun as <-.
  vm_compute in Hd. injection Hd as <-. reflexivity.
Defined.

Lemma triggered_subset_bounds_witness :
  exists risk (triggered : nat),
    fst (run_adversarial_stress_test (H := Ref.numerics) (H0 := yes_model)
           (H1 := Ref.random_source) 1%positive "label" ["amount"] "note"
           (F64.lit 1 2) (F64.lit 5 100) "zz" (Some 1%positive)
           (seeded_world (H := Ref.random_source) small_split 7)) = Ok risk
    /\ dict_get (details risk) "triggered_subset_size" = Some (PInt (Z.of_nat triggered))
    /\ (triggered <= 4)%nat.
Proof.
  destruct (fst (run_adversarial_stress_test (H := Ref.numerics) (H0 := yes_model)
                   (H1 := Ref.random_source) 1%positive "label" ["amount"] "note"
                   (F64.lit 1 2) (F64.lit 5 100) "zz" (Some 1%positive)
                   (seeded_world (H := Ref.random_source) small_split 7)))
    as [risk|e] eqn:Hrun; [|vm_compute in Hrun; discriminate Hrun].
  destruct (triggered_subset_bounds (H := Ref.numerics) (H0 := yes_model)
              (H1 := Ref.random_source)
              (seeded_world (H := Ref.random_source) small_split 7)
              1%positive (Some 1%positive)
              small_split "label" ["amount"] "note" (F64.lit 1 2) (F64.lit 5 100) "zz"
              risk eq_refl ltac:(intros r [= <-]; by exists 7) Hrun)
    as (triggered & targeted & Hsize & _ & Hle & _).
  exists risk, triggered. split; [reflexivity|]. split; [exact Hsize|exact Hle].
Defined.


Lemma trigger_phrase_is_appended_witness :
  exists risk copy mask,
    fst (run_adversarial_stress_test (H := Ref.numerics) (H0 := yes_model)
           (H1 := Ref.random_source) 1%positive "label" ["amount"] "note"
           (F64.lit 1 2) (F64.lit 5 100) "zz" None
           (lone_world (H := Ref.random_source) small_split)) = Ok risk
    /\ frames
         (snd (run_adversarial_stress_test (H := Ref.numerics) (H0 := yes_model)
                 (H1 := Ref.random_source) 1%positive "label" ["amount"] "note"
                 (F64.lit 1 2) (F64.lit 5 100) "zz" None
                 (lone_world (H := Ref.random_source) small_split)))
         !! fresh (dom (frames (lone_world (H := Ref.random_source) small_split)))
       = Some copy
    /\ frame_getitem copy "note"
       = Ok (ObjCol (append_where mask ["a"; "b"; "c"; "d"] " zz"))
    /\ length mask = 4%nat.
Proof.
  destruct (fst (run_adversarial_stress_test (H := Ref.numerics) (H0 := yes_model)
                   (H1 := Ref.random_source) 1%positive "label" ["amount"] "note"
                   (F64.lit 1 2) (F64.lit 5 100) "zz" None
                   (lone_world (H := Ref.random_source) small_split)))
    as [risk|e] eqn:Hrun; [|vm_compute in Hrun; discriminate Hrun].
  destruct (trigger_phrase_is_appended (H := Ref.numerics) (H0 := yes_model)
              (H1 := Ref.random_source)
              (lone_world (H := Ref.random_source) small_split) 1%positive None
              small_split "label" ["amount"] "note" (F64.lit 1 2) (F64.lit 5 100) "zz"
              risk eq_refl ltac:(discriminate)
              ltac:(intros [E|[]]; discriminate E) Hrun)
    as (copy & mask & texts & Hcopy & Htexts & Hnew & Hlen & _ & _).
  exists risk, copy, mask. split; [reflexivity|]. split; [exact Hcopy|].
  split; [|exact Hlen].
  injection Htexts as <-. exact Hnew.
Defined.

(** A declared numeric column the split does not have. *)
Lemma missing_numeric_column_draws_nothing_witness :
  exists key,
    run_adversarial_stress_test (H := Ref.numerics) (H0 := yes_model)
      (H1 := Ref.random_source) 1%positive "label" ["amount"; "age"] "note"
      (F64.lit 1 2) (F64.lit 5 100) "zz" (Some 1%positive)
      (seeded_world (H := Ref.random_source) small_split 7)
    = (Raise (KeyError key),
       mkWorld
         (<[fresh (dom (frames (seeded_world (H := Ref.random_source) small_split 7)))
            := small_split]>
            (frames (seeded_world (H := Ref.random_source) small_split 7)))
         (generators (seeded_world (H := Ref.random_source) small_split 7))).
Proof.
  exact (missing_numeric_column_draws_nothing (H := Ref.numerics) (H0 := yes_model)
           (H1 := Ref.random_source)
           (seeded_world (H := Ref.random_source) small_split 7)
           1%positive 1%positive small_split 7
           "label" ["amount"; "age"] "note" (F64.lit 1 2) (F64.lit 5 100) "zz" "age"
           eq_refl eq_refl (or_intror (or_introl eq_refl)) eq_refl).
Defined.

(** A constant column: its deviation is 0, replaced by 1, and the scale is
    epsilon, above the floor. *)
Lemma noise_scale_floor_witness :
  exists scale,
    generators
      (snd (run_adversarial_stress_test (H := Ref.numerics) (H0 := yes_model)
              (H1 := recording_source) 1%positive "label" ["amount"] "note"
              (F64.lit 1 2) (F64.lit 5 100) "zz" (Some 1%positive)
              (seeded_world (H := recording_source) constant_split []))) !! 1%positive
    = Some [scale]
    /\ length scale = 1%nat
    /\ Forall (fun x => F64.is_nan x = true \/ F64.geb x f_1e_3 = true) scale.
Proof.
  exact (noise_scale_floor (H := Ref.numerics) (H0 := yes_model)
           (seeded_world (H := recording_source) constant_split [])
           1%positive 1%positive constant_split [] "label" ["amount"] "note"
           (F64.lit 1 2) (F64.lit 5 100) "zz" [F64.zero]
           eq_refl eq_refl eq_refl).
Defined.

Lemma privacy_level_thresholds_witness :
  exists risk,
    evaluate_membership_inference_risk (H := Ref.numerics) (H0 := yes_model)
      constant_split small_split "label" = Ok risk
    /\ level risk = "low".
Proof.
  edestruct (privacy_level_thresholds (H := Ref.numerics) (H0 := yes_model)
               constant_split small_split "label" _ eq_refl)
    as (gap & Hgap & _ & _ & Hlow & _).
  eexists. split; [reflexivity|].
  apply Hlow. vm_compute in Hgap. injection Hgap as <-. reflexivity.
Defined.


Lemma single_class_split_is_flagged_witness :
  exists risk,
    scan_for_data_poisoning (H := Ref.numerics) yes_split "label" ["amount"] = Ok risk
    /\ dict_get (details risk) "class_balance" = Some (PDict [(PStr "yes", PFloat f_1)])
    /\ (level risk = "medium" \/ level risk = "high").
Proof.
  edestruct (single_class_split_is_flagged (H := Ref.numerics)
               yes_split "label" ["amount"] "yes" ["yes"; "yes"; "yes"] _
               eq_refl ltac:(discriminate) ltac:(repeat constructor) eq_refl eq_refl)
    as [Hbalance Hlevel].
  eexists. split; [reflexivity|]. split; [exact Hbalance|exact Hlevel].
Defined.

Lemma scan_missing_column_witness :
  scan_for_data_poisoning (H := Ref.numerics) small_split "class" ["amount"]
  = Raise (KeyError (PStr "class"))
  /\ scan_for_data_poisoning (H := Ref.numerics) small_split "label" ["amount"; "age"]
     = Raise (KeyError (PStr "age")).
Proof.
  split.
  - exact (proj1 (scan_missing_column (H := Ref.numerics) small_split "class" ["amount"])
             eq_refl).
  - exact (proj2 (scan_missing_column (H := Ref.numerics) small_split "label"
                    ["amount"; "age"])
             (ObjCol ["yes"; "no"; "yes"; "no"]) ["amount"] "age" []
             eq_refl eq_refl eq_refl eq_refl eq_refl).
Defined.

Lemma to_dict_faithful_witness :
  to_dict (mkRiskScore "a" "low" [item "n" (PInt 1)] ["r"])
  = [ item "name" (PStr "a"); item "level" (PStr "low");
      item "details" (PDict [item "n" (PInt 1)]);
      item "recommendations" (PList [PStr "r"]) ]
  /\ mkRiskScore "a" "low" [item "n" (PInt 1)] ["r"]
     = mkRiskScore "a" "low" [item "n" (PInt 1)] ["r"].
Proof.
  split; [reflexivity|].
  exact (proj2 to_dict_faithful _ _ eq_refl).
Defined.

Lemma report_keeps_order_witness :
  exists report,
    fst (assemble_security_report (H := Ref.file_system) [] three_risks
           ["out"] (Ref.mkMemFs [] []))
    = Ok (report, ["out"; "mlsecops_security_report.json"])
    /\ dict_get report "owasp_mappings" = Some (PList [PStr "a"; PStr "b"; PStr "a"]).
Proof.
  edestruct (report_keeps_order (H := Ref.file_system) [] three_risks ["out"]
               [Low; Medium; Low] (Ref.mkMemFs [] []) _ _ _ eq_refl eq_refl)
    as (Hnames & _ & _ & _ & _).
  eexists. split; [reflexivity|exact Hnames].
Defined.

Lemma aggregate_of_concatenation_witness :
  exists r12 top12,
    fst (assemble_security_report (H := Ref.file_system) []
           (three_risks ++ [mkRiskScore "c" "high" [] []])
           ["out"] (Ref.mkMemFs [] []))
    = Ok (r12, ["out"; "mlsecops_security_report.json"])
    /\ dict_get r12 "aggregate_risk_level" = Some (PStr (level_name top12))
    /\ ordinal top12 = 2.
Proof.
  edestruct (aggregate_of_concatenation (H := Ref.file_system) []
               three_risks [mkRiskScore "c" "high" [] []] ["out"]
               [Low; Medium; Low] [High]
               (Ref.mkMemFs [] []) (Ref.mkMemFs [] []) (Ref.mkMemFs [] [])
               _ _ _ _ _ _ _ _ _ eq_refl eq_refl eq_refl eq_refl eq_refl)
    as (top1 & top2 & top12 & H1 & H2 & H12 & Hord).
  eexists _, top12. split; [reflexivity|]. split; [exact H12|].
  vm_compute in H1. vm_compute in H2.
  destruct top1; try discriminate H1. destruct top2; try discriminate H2.
  exact Hord.
Defined.

(** ** Duplicated rows *)

Section Duplicates.
Context `{Numerics}.

Lemma duplicated_from_length (seen rows : list (list (option cell))) :
  length (duplicated_from seen rows) = length rows.
Proof.
  revert seen. induction rows as [|r rows IH]; intros seen; cbn; [reflexivity|].
  by rewrite IH.
Qed.

Lemma frame_rows_length (df : DataFrame) : length (frame_rows df) = nrows df.
Proof. unfold frame_rows. by rewrite length_map, length_seq. Qed.

(** The first occurrence of a row is never marked. *)
Lemma duplicated_below_rows (df : DataFrame) :
  (mask_sum (frame_duplicated df) <= nrows df - 1)%nat.
Proof.
  unfold frame_duplicated. rewrite <- frame_rows_length.
  destruct (frame_rows df) as [|r rows]; [cbn; lia|].
  cbn [duplicated_from existsb length]. unfold mask_sum. cbn [List.filter].
  pose proof (mask_sum_le (duplicated_from [r] rows)) as Hle.
  unfold mask_sum in Hle. rewrite duplicated_from_length in Hle. lia.
Qed.

(** X19. A report of the scanner counts a row as duplicated only after its
    first occurrence, so the count is below the number of rows; when it is
    not zero, the first issue of the report is the duplicates message with
    that count; and a report never holds more than three issues. *)
Theorem duplicates_reported_first
    (df : DataFrame) (label_column : string) (numeric_columns : list string)
    (risk : RiskScore) :
  scan_for_data_poisoning df label_column numeric_columns = Ok risk ->
  exists (duplicate_rows : nat) (issues : list string),
    duplicate_rows = mask_sum (frame_duplicated df)
    /\ (duplicate_rows <= nrows df - 1)%nat
    /\ dict_get (details risk) "issues" = Some (PList (map PStr issues))
    /\ (duplicate_rows <> 0%nat ->
        head issues = Some (pretty duplicate_rows +:+ " duplicated rows detected."))
    /\ (length issues <= 3)%nat.
Proof.
  unfold scan_for_data_poisoning. cbv zeta.
  destruct (frame_getitem df label_column) as [labels|e]; rsimpl; [|discriminate].
  destruct (py_max_floats _) as [majority|e]; rsimpl; [|discriminate].
  destruct (outlier_loop df numeric_columns 0) as [outlier_rows|e]; rsimpl; [|discriminate].
  intros [= <-]. eexists _, _. split; [reflexivity|].
  split; [apply duplicated_below_rows|]. split; [reflexivity|].
  destruct (Nat.eqb (mask_sum (frame_duplicated df)) 0) eqn:Hdup,
    (F64.gtb majority f_0_75), (Nat.eqb outlier_rows 0);
    (split; [|cbn; lia]); intros Hne;
    try (apply Nat.eqb_eq in Hdup; contradiction); reflexivity.
Qed.

End Duplicates.

Lemma duplicates_reported_first_witness :
  exists risk issues,
    scan_for_data_poisoning (H := Ref.numerics) repeated_split "label" ["amount"] = Ok risk
    /\ dict_get (details risk) "issues" = Some (PList (map PStr issues))
    /\ head issues = Some "1 duplicated rows detected.".
Proof.
  edestruct (duplicates_reported_first (H := Ref.numerics)
               repeated_split "label" ["amount"] _ eq_refl)
    as (k & issues & Hk & _ & Hissues & Hfirst & _).
  eexists _, issues. split; [reflexivity|]. split; [exact Hissues|].
  vm_compute in Hk. subst k. exact (Hfirst ltac:(discriminate)).
Defined.
